(** * pdf2q: question and structure extraction from textbook page text

    A shallow embedding of [backend/app/question_extractor.py] and
    [backend/app/pdf_processor.py], with the rows of [backend/app/models.py].

    Python [str] values are lists of characters.  The embedding is that
    of ASCII page texts: [str.lower], [str.strip], [str.split],
    [str.title] and the classes of the [re] module ([\d], [\s], [\b],
    case folding) are the ASCII ones, so a character above 127 counts as
    caseless, non-blank, non-digit and non-word.

    Exceptions are explicit: a computation that may raise returns a
    [result], and stateful code threads the database.  What can raise is
    reading the file, [int] on a run of more than 4300 digits, the flush
    of a chapter whose numbers do not fit a 64-bit INTEGER and, in the
    pipeline section, the page parser.  The other statements on the
    database (queries, [add], the other commits) succeed. *)

From Stdlib Require Import List String Ascii ZArith Lia Bool Arith.
From Stdlib Require Import Sorting.Sorted Sorting.Permutation.
Import ListNotations.

Set Implicit Arguments.

(** ** Python strings *)

Definition str := list ascii.

Definition py (x : string) : str := list_ascii_of_string x.

Module PyStr.

Definition code (c : ascii) : nat := nat_of_ascii c.

Definition between (lo hi : nat) (c : ascii) : bool :=
  (lo <=? code c) && (code c <=? hi).

(** [str.isspace] on one character: TAB, LF, VT, FF, CR, FS, GS, RS, US
    and the space. *)
Definition is_space (c : ascii) : bool :=
  between 9 13 c || between 28 32 c.

Definition is_digit (c : ascii) : bool := between 48 57 c.
Definition is_upper (c : ascii) : bool := between 65 90 c.
Definition is_lower (c : ascii) : bool := between 97 122 c.
Definition is_alpha (c : ascii) : bool := is_upper c || is_lower c.

(** Word characters of the [re] module: alphanumerics and underscore. *)
Definition is_word (c : ascii) : bool :=
  is_alpha c || is_digit c || (code c =? 95).

Definition lower_c (c : ascii) : ascii :=
  if is_upper c then ascii_of_nat (code c + 32) else c.

Definition upper_c (c : ascii) : ascii :=
  if is_lower c then ascii_of_nat (code c - 32) else c.

(** [t.lower()] *)
Definition lower (t : str) : str := map lower_c t.

(** [t.lstrip()], [t.rstrip()], [t.strip()] *)
Fixpoint lstrip (t : str) : str :=
  match t with
  | [] => []
  | c :: t' => if is_space c then lstrip t' else t
  end.

Fixpoint rstrip (t : str) : str :=
  match t with
  | [] => []
  | c :: t' =>
      match rstrip t' with
      | [] => if is_space c then [] else [c]
      | r => c :: r
      end
  end.

Definition strip (t : str) : str := lstrip (rstrip t).

(** [t.split(d)] for a one-character separator: never empty. *)
Fixpoint split_on (d : ascii) (t : str) : list str :=
  match t with
  | [] => [[]]
  | c :: t' =>
      if Ascii.eqb c d then [] :: split_on d t'
      else match split_on d t' with
           | l :: ls => (c :: l) :: ls
           | [] => [[c]]
           end
  end.

(** [t.split()]: the maximal runs of non-blank characters. *)
Fixpoint split_ws (t : str) : list str :=
  match t with
  | [] => []
  | c :: t' =>
      if is_space c then split_ws t'
      else match t' with
           | [] => [[c]]
           | c' :: _ =>
               if is_space c' then [c] :: split_ws t'
               else match split_ws t' with
                    | w :: ws => (c :: w) :: ws
                    | [] => [[c]]
                    end
           end
  end.

(** [t.count(c)] for a one-character needle. *)
Definition count (c : ascii) (t : str) : nat :=
  List.length (filter (Ascii.eqb c) t).

(** [t.startswith(p)] *)
Fixpoint startswith (t p : str) {struct p} : bool :=
  match p, t with
  | [], _ => true
  | a :: p', b :: t' => Ascii.eqb a b && startswith t' p'
  | _ :: _, [] => false
  end.

(** [t.endswith(p)] *)
Definition endswith (t p : str) : bool := startswith (rev t) (rev p).

(** [sub in t] *)
Fixpoint contains (sub t : str) : bool :=
  startswith t sub ||
  match t with
  | [] => false
  | _ :: t' => contains sub t'
  end.

(** [t.find(sub)]: index of the first occurrence, or -1. *)
Fixpoint find_from (i : Z) (sub t : str) : Z :=
  if startswith t sub then i
  else match t with
       | [] => (-1)%Z
       | _ :: t' => find_from (i + 1)%Z sub t'
       end.

Definition find (t sub : str) : Z := find_from 0%Z sub t.

(** [t[a:b]] for non-negative bounds. *)
Definition slice (a b : nat) (t : str) : str := firstn (b - a) (skipn a t).

(** [t.title()]: a letter is upper-cased when the character before it is
    not a letter, lower-cased otherwise. *)
Fixpoint title_from (prev_cased : bool) (t : str) : str :=
  match t with
  | [] => []
  | c :: t' =>
      (if prev_cased then lower_c c else upper_c c) :: title_from (is_alpha c) t'
  end.

Definition titlecase (t : str) : str := title_from false t.

(** The truth value of [t]: a string is false when empty. *)
Definition nonempty (t : str) : bool :=
  match t with [] => false | _ :: _ => true end.

End PyStr.

(** ** The fragment of Python's [re] used by the source

    A backtracking matcher in continuation-passing style: alternatives are
    tried in the priority order of the [re] module (greedy quantifiers take
    the longest run first, lazy ones the shortest), and the first success
    is the match. *)

Module Re.
Import PyStr.

Record flags := { ignorecase : bool; multiline : bool }.

Definition no_flags := {| ignorecase := false; multiline := false |}.
Definition IGNORECASE := {| ignorecase := true; multiline := false |}.
Definition MULTILINE_IGNORECASE := {| ignorecase := true; multiline := true |}.

(** One-character items. *)
Inductive cset :=
| Any                        (* .      any character but the newline *)
| Digit                      (* \d *)
| Space                      (* \s *)
| Ch (c : ascii)             (* a literal character *)
| Range (lo hi : ascii)      (* [lo-hi] *)
| OneOf (cs : list ascii)    (* [abc] *)
| NoneOf (cs : list ascii).  (* [^abc] *)

Inductive regex :=
| Eps
| Chr (k : cset)
| Cat (r1 r2 : regex)
| Opt (r : regex)                           (* r?  (greedy) *)
| Rep (k : cset) (min : nat) (greedy : bool) (* k{min,} or k{min,}? *)
| Grp (n : nat) (r : regex)                 (* capturing group n *)
| Bol                                       (* ^ *)
| Eol                                       (* $ *)
| WordB.                                    (* \b *)

Definition mem (c : ascii) (cs : list ascii) : bool :=
  existsb (Ascii.eqb c) cs.

Definition in_plain (k : cset) (c : ascii) : bool :=
  match k with
  | Any => negb (Ascii.eqb c "010")
  | Digit => is_digit c
  | Space => is_space c
  | Ch a => Ascii.eqb c a
  | Range lo hi => between (code lo) (code hi) c
  | OneOf cs => mem c cs
  | NoneOf cs => negb (mem c cs)
  end.

(** Under IGNORECASE a positive item accepts a character when one of its
    case variants is accepted; a negated set rejects a character when one
    of its case variants is listed. *)
Definition in_cset (f : flags) (k : cset) (c : ascii) : bool :=
  if ignorecase f then
    match k with
    | NoneOf cs => negb (mem c cs || mem (lower_c c) cs || mem (upper_c c) cs)
    | _ => in_plain k c || in_plain k (lower_c c) || in_plain k (upper_c c)
    end
  else in_plain k c.

(** A position in the subject: index, character before it, text after it. *)
Record mstate := MState { pos : nat; prev : option ascii; rest : str }.

(** Group number -> (start, end), most recent binding first. *)
Definition captures := list (nat * (nat * nat)).

Definition kont := mstate -> captures -> option (nat * captures).

Definition at_bol (f : flags) (st : mstate) : bool :=
  match prev st with
  | None => true
  | Some c => multiline f && Ascii.eqb c "010"
  end.

Definition at_eol (f : flags) (st : mstate) : bool :=
  match rest st with
  | [] => true
  | c :: t => Ascii.eqb c "010" && (multiline f || match t with [] => true | _ => false end)
  end.

Definition word_before (st : mstate) : bool :=
  match prev st with Some c => is_word c | None => false end.

Definition word_after (st : mstate) : bool :=
  match rest st with c :: _ => is_word c | [] => false end.

Definition at_wordb (st : mstate) : bool :=
  negb (Bool.eqb (word_before st) (word_after st)).

Fixpoint rep_greedy (f : flags) (k : cset) (min : nat)
         (t : str) (p : nat) (pv : option ascii) (cs : captures) (K : kont)
  : option (nat * captures) :=
  match t with
  | c :: t' =>
      if in_cset f k c then
        match rep_greedy f k (Nat.pred min) t' (S p) (Some c) cs K with
        | Some r => Some r
        | None => if min =? 0 then K (MState p pv t) cs else None
        end
      else if min =? 0 then K (MState p pv t) cs else None
  | [] => if min =? 0 then K (MState p pv t) cs else None
  end.

Fixpoint rep_lazy (f : flags) (k : cset) (min : nat)
         (t : str) (p : nat) (pv : option ascii) (cs : captures) (K : kont)
  : option (nat * captures) :=
  let more :=
    match t with
    | c :: t' =>
        if in_cset f k c then rep_lazy f k (Nat.pred min) t' (S p) (Some c) cs K
        else None
    | [] => None
    end in
  if min =? 0 then
    match K (MState p pv t) cs with
    | Some r => Some r
    | None => more
    end
  else more.

Fixpoint run (f : flags) (r : regex) (st : mstate) (cs : captures) (K : kont)
  : option (nat * captures) :=
  match r with
  | Eps => K st cs
  | Chr k =>
      match rest st with
      | c :: t' =>
          if in_cset f k c then K (MState (S (pos st)) (Some c) t') cs else None
      | [] => None
      end
  | Cat r1 r2 => run f r1 st cs (fun st' cs' => run f r2 st' cs' K)
  | Opt r1 =>
      match run f r1 st cs K with
      | Some x => Some x
      | None => K st cs
      end
  | Rep k min true => rep_greedy f k min (rest st) (pos st) (prev st) cs K
  | Rep k min false => rep_lazy f k min (rest st) (pos st) (prev st) cs K
  | Grp n r1 =>
      run f r1 st cs (fun st' cs' => K st' ((n, (pos st, pos st')) :: cs'))
  | Bol => if at_bol f st then K st cs else None
  | Eol => if at_eol f st then K st cs else None
  | WordB => if at_wordb st then K st cs else None
  end.

(** A match object: the span of the whole match and of its groups. *)
Record mobj := MObj { m_start : nat; m_end : nat; m_groups : captures }.

Definition accept : kont := fun st cs => Some (pos st, cs).

Definition match_at (f : flags) (r : regex) (st : mstate) : option mobj :=
  match run f r st [] accept with
  | Some (e, cs) => Some (MObj (pos st) e cs)
  | None => None
  end.

(** [re.match(r, t, flags)] *)
Definition re_match (f : flags) (r : regex) (t : str) : option mobj :=
  match_at f r (MState 0 None t).

(** [re.finditer(r, t, flags)]: the non-overlapping matches from left to
    right.  [skip] counts the characters still covered by the previous
    match.  (No pattern of the source matches the empty string; after an
    empty match the scan would resume one character further.) *)
Fixpoint scan (f : flags) (r : regex) (p : nat) (pv : option ascii) (t : str)
         (skip : nat) : list mobj :=
  match t with
  | [] =>
      match skip with
      | 0 => match match_at f r (MState p pv t) with
             | Some m => [m]
             | None => []
             end
      | S _ => []
      end
  | c :: t' =>
      match skip with
      | S k => scan f r (S p) (Some c) t' k
      | 0 =>
          match match_at f r (MState p pv t) with
          | Some m => m :: scan f r (S p) (Some c) t' (m_end m - p - 1)
          | None => scan f r (S p) (Some c) t' 0
          end
      end
  end.

Definition finditer (f : flags) (r : regex) (t : str) : list mobj :=
  scan f r 0 None t 0.

(** [re.search(r, t, flags)]: the leftmost match. *)
Definition search (f : flags) (r : regex) (t : str) : option mobj :=
  hd_error (finditer f r t).

Fixpoint lookup (n : nat) (cs : captures) : option (nat * nat) :=
  match cs with
  | [] => None
  | (k, sp) :: cs' => if k =? n then Some sp else lookup n cs'
  end.

(** [m.group(n)] on subject [t]; group 0 is the whole match.  Every
    group of the source's patterns takes part in every match. *)
Definition group (t : str) (m : mobj) (n : nat) : str :=
  match n with
  | 0 => slice (m_start m) (m_end m) t
  | _ => match lookup n (m_groups m) with
         | Some (a, b) => slice a b t
         | None => []
         end
  end.

(** The literal string [x] as a pattern. *)
Definition Lit (x : string) : regex :=
  fold_right (fun c r => Cat (Chr (Ch c)) r) Eps (list_ascii_of_string x).

Fixpoint seq (rs : list regex) : regex :=
  match rs with
  | [] => Eps
  | [r] => r
  | r :: rs' => Cat r (seq rs')
  end.

Definition plus (k : cset) := Rep k 1 true.
Definition star (k : cset) := Rep k 0 true.
Definition plus_lazy (k : cset) := Rep k 1 false.

End Re.

(** ** Exceptions *)

Inductive exn :=
| ZeroDivisionError
| AttributeError
| ValueError
| OverflowError
| OtherError (what : string).

Inductive result (A : Type) :=
| Ok (a : A)
| Raise (e : exn).

Arguments Ok {A} a.
Arguments Raise {A} e.

(** The value of a run of decimal digits. *)
Definition digits_value (t : str) : Z :=
  fold_left (fun acc c => (10 * acc + Z.of_nat (PyStr.code c - 48))%Z) t 0%Z.

(** sys.get_int_max_str_digits(), at its default. *)
Definition int_max_str_digits : nat := 4300.

(** [int(t)] on a run of decimal digits: a run of more than
    [int_max_str_digits] digits raises ValueError. *)
Definition int_of (t : str) : result Z :=
  if int_max_str_digits <? List.length t then Raise ValueError
  else Ok (digits_value t).

(** ** question_extractor.py : QuestionExtractor *)

Inductive qtype := multiple_choice | true_false | essay | short_answer.

(** The dictionaries built by the two extraction strategies ... *)
Record raw_question := RawQ { raw_text : str; raw_number : option str }.

(** ... and the same once 'context' and 'type' have been added. *)
Record candidate := Candidate {
  text : str;
  number : option str;
  context : str;
  type : qtype
}.

Module QuestionExtractor.
Import PyStr Re.

Definition question_mark : ascii := "?"%char.
Definition newline : ascii := "010"%char.

(** (.+?\?) as group 1 *)
Definition question_group : regex :=
  Grp 1 (seq [plus_lazy Any; Chr (Ch question_mark)]).

Definition question_patterns : list regex :=
  [ (* \b\d+\.\s+(.+?\?) *)
    seq [WordB; plus Digit; Chr (Ch "."); plus Space; question_group];
    (* \b\d+\)\s+(.+?\?) *)
    seq [WordB; plus Digit; Chr (Ch ")"); plus Space; question_group];
    (* ^Q\d*[:\.]?\s+(.+?\?) *)
    seq [Bol; Chr (Ch "Q"); star Digit; Opt (Chr (OneOf [":"; "."]%char));
         plus Space; question_group];
    (* ^Question\s+\d*[:\.]?\s+(.+?\?) *)
    seq [Bol; Lit "Question"; plus Space; star Digit;
         Opt (Chr (OneOf [":"; "."]%char)); plus Space; question_group];
    (* ^\d+\.\d+\s+(.+?\?) *)
    seq [Bol; plus Digit; Chr (Ch "."); plus Digit; plus Space; question_group];
    (* ^[A-Z][^.!?]*\?$ *)
    seq [Bol; Chr (Range "A" "Z"); star (NoneOf ["."; "!"; "?"]%char);
         Chr (Ch question_mark); Eol] ].

(** Each pattern carries the inline flag (?i). *)
Definition exercise_section_patterns : list regex :=
  [ (* exercises? *)            seq [Lit "exercise"; Opt (Chr (Ch "s"))];
    (* problems? *)             seq [Lit "problem"; Opt (Chr (Ch "s"))];
    (* review\s+questions? *)   seq [Lit "review"; plus Space; Lit "question"; Opt (Chr (Ch "s"))];
    (* practice\s+problems? *)  seq [Lit "practice"; plus Space; Lit "problem"; Opt (Chr (Ch "s"))];
    (* homework *)              Lit "homework";
    (* assignments? *)          seq [Lit "assignment"; Opt (Chr (Ch "s"))];
    (* study\s+questions? *)    seq [Lit "study"; plus Space; Lit "question"; Opt (Chr (Ch "s"))];
    (* discussion\s+questions? *)
    seq [Lit "discussion"; plus Space; Lit "question"; Opt (Chr (Ch "s"))] ].

Definition educational_keywords : list str :=
  map py [ "chapter"; "section"; "exercise"; "problem"; "question";
           "review"; "practice"; "homework"; "assignment"; "study";
           "discuss"; "explain"; "describe"; "analyze"; "compare" ]%string.

Definition is_some {A} (o : option A) : bool :=
  match o with Some _ => true | None => false end.

(** [_is_exercise_section].  The quotient [question_count / len(text.split())]
    raises ZeroDivisionError on an empty word list.  The float test
    [question_density > 0.05] is stated on the exact quotient, [w < 20 * q]:
    the two agree for every word count below 2^50, where 1/(20 w) is more
    than the rounding error of the quotient and of the literal. *)
Definition _is_exercise_section (t : str) : result bool :=
  let text_lower := lower t in
  if existsb (fun p => is_some (search IGNORECASE p text_lower))
             exercise_section_patterns
  then Ok true
  else
    let question_count := count question_mark t in
    if (3 <=? question_count) && (0 <? List.length t) then
      match List.length (split_ws t) with
      | 0 => Raise ZeroDivisionError
      | S _ as words => Ok (words <? 20 * question_count)
      end
    else Ok false.

(** ^(\d+)[\.\)]\s+ and then, as group 2, the rest of the line: [.*] *)
Definition question_start : regex :=
  seq [Bol; Grp 1 (plus Digit); Chr (OneOf ["."; ")"]%char); plus Space;
       Grp 2 (star Any)].

(** The loop state of [_extract_from_exercise_section]. *)
Record ex_state := ExState {
  ex_questions : list raw_question;
  current_question : str;
  question_number : option str
}.

(** "if current_question and '?' in current_question: questions.append(...)" *)
Definition ex_flush (st : ex_state) : list raw_question :=
  if nonempty (current_question st) && contains [question_mark] (current_question st)
  then ex_questions st ++ [RawQ (strip (current_question st)) (question_number st)]
  else ex_questions st.

Definition ex_step (st : ex_state) (line : str) : ex_state :=
  let line := strip line in
  if negb (nonempty line) then st
  else
    match re_match no_flags question_start line with
    | Some m =>
        ExState (ex_flush st) (group line m 2) (Some (group line m 1))
    | None =>
        if nonempty (current_question st)
        then ExState (ex_questions st)
                     (current_question st ++ py " " ++ line)
                     (question_number st)
        else st
    end.

Definition _extract_from_exercise_section (t : str) (lines : list str)
  : list raw_question :=
  ex_flush (fold_left ex_step lines (ExState [] [] None)).

Definition question_words : list str :=
  map py [ "what"; "how"; "why"; "when"; "where"; "which"; "who"; "does";
           "is"; "are"; "can"; "will"; "would"; "should" ]%string.

Definition _is_valid_question (t : str) : bool :=
  if negb (nonempty t) || (List.length t <? 10) then false
  else if negb (endswith t [question_mark]) then false
  else
    let text_lower := lower t in
    let has_educational_keyword :=
      existsb (fun keyword => contains keyword text_lower) educational_keywords in
    let starts_with_question_word :=
      existsb (fun word => startswith text_lower word) question_words in
    has_educational_keyword || starts_with_question_word.

(** Whether [match.groups()] is non-empty: the pattern has a group. *)
Fixpoint has_groups (r : regex) : bool :=
  match r with
  | Grp _ _ => true
  | Cat r1 r2 => has_groups r1 || has_groups r2
  | Opt r1 => has_groups r1
  | _ => false
  end.

Definition str_eqb (a b : str) : bool :=
  if list_eq_dec ascii_dec a b then true else false.

(** "Remove duplicates": first 50 characters, lower-cased, as the key. *)
Fixpoint unique (seen_questions : list str) (qs : list raw_question)
  : list raw_question :=
  match qs with
  | [] => []
  | q :: qs' =>
      let key := lower (firstn 50 (raw_text q)) in
      if existsb (str_eqb key) seen_questions then unique seen_questions qs'
      else q :: unique (key :: seen_questions) qs'
  end.

Definition matches_of (t : str) (pattern : regex) : list raw_question :=
  flat_map
    (fun m =>
       let question_text :=
         strip (if has_groups pattern then group t m 1 else group t m 0) in
       if _is_valid_question question_text
       then [RawQ question_text None] else [])
    (finditer MULTILINE_IGNORECASE pattern t).

Definition _extract_scattered_questions (t : str) (lines : list str)
  : list raw_question :=
  unique [] (flat_map (matches_of t) question_patterns).

Definition any_in (indicators : list string) (t : str) : bool :=
  existsb (fun i => contains (py i) t) indicators.

Definition _classify_question_type (question_text : str) : qtype :=
  let text_lower := lower question_text in
  if any_in ["a)"; "b)"; "c)"; "d)"; "choose"; "select"]%string text_lower
  then multiple_choice
  else if any_in ["true or false"; "t/f"; "true/false"]%string text_lower
  then true_false
  else if any_in ["explain"; "describe"; "discuss"; "analyze"; "compare";
                  "contrast"]%string text_lower
  then essay
  else short_answer.

Definition _get_question_context (question_text full_text : str) : str :=
  let question_index := find full_text question_text in
  if (question_index =? -1)%Z then []
  else
    let start_context := Z.max 0 (question_index - 200) in
    let end_context :=
      Z.min (Z.of_nat (List.length full_text))
            (question_index + Z.of_nat (List.length question_text) + 200) in
    strip (slice (Z.to_nat start_context) (Z.to_nat end_context) full_text).

Definition annotate (full_text : str) (q : raw_question) : candidate :=
  Candidate (raw_text q) (raw_number q)
            (_get_question_context (raw_text q) full_text)
            (_classify_question_type (raw_text q)).

Definition _extract_questions_from_page (t : str) (page_num : Z)
  : result (list candidate) :=
  let lines := split_on newline t in
  match _is_exercise_section t with
  | Raise e => Raise e
  | Ok is_exercise_section =>
      let questions :=
        if is_exercise_section then _extract_from_exercise_section t lines
        else _extract_scattered_questions t lines in
      Ok (map (annotate t) questions)
  end.

End QuestionExtractor.

(** ** The PDF file, as seen through PyPDF2 and pdfplumber *)

(** [page.extract_text()]: a text, [None], or an exception. *)
Definition page := result (option str).

Record pdf_file := PdfFile {
  (** [len(PyPDF2.PdfReader(file).pages)], or the exception of opening
      and reading the file *)
  reader_page_count : result nat;
  (** [pdfplumber.open(file_path).pages], or the exception of opening *)
  plumber_pages : result (list page)
}.

(** ** pdf_processor.py : structure recovery *)

(** 'chapter_number' is an [int] for level-1 entries and the matched
    string for level-2 entries. *)
Inductive label :=
| LInt (n : Z)
| LStr (s : str).

Record toc_entry := TocEntry {
  chapter_number : label;
  title : str;
  page_start : Z;
  level : Z
}.

Module Structure.
Import PyStr Re.

Definition toc_indicators : list string :=
  ["table of contents"; "contents"; "chapter"; "section"]%string.

Definition dots2 : regex := Rep (Ch ".") 2 true.        (* \.{2,} *)
Definition title_group : regex :=
  Grp 2 (plus_lazy (NoneOf ["."]%char)).                 (* ([^.]+?) *)

(** (?:chapter\s+)?(\d+)\.?\s*([^.]+?)\.{2,}(\d+) *)
Definition chapter_re : regex :=
  seq [Opt (Cat (Lit "chapter") (plus Space)); Grp 1 (plus Digit);
       Opt (Chr (Ch ".")); star Space; title_group; dots2;
       Grp 3 (plus Digit)].

(** \s+(\d+\.\d+)\s+([^.]+?)\.{2,}(\d+) *)
Definition subchapter_re : regex :=
  seq [plus Space; Grp 1 (seq [plus Digit; Chr (Ch "."); plus Digit]);
       plus Space; title_group; dots2; Grp 3 (plus Digit)].

(** "if chapter_match:": the entry appended, once both numbers are read. *)
Definition chapter_entry (line : str) : result (list toc_entry) :=
  let l := lower line in
  match re_match no_flags chapter_re l with
  | Some m =>
      match int_of (group l m 1) with
      | Raise e => Raise e
      | Ok chapter_num =>
          let title := titlecase (strip (group l m 2)) in
          match int_of (group l m 3) with
          | Raise e => Raise e
          | Ok page_start => Ok [TocEntry (LInt chapter_num) title page_start 1]
          end
      end
  | None => Ok []
  end.

(** "if subchapter_match:" *)
Definition subchapter_entry (line : str) : result (list toc_entry) :=
  match re_match no_flags subchapter_re line with
  | Some m =>
      let section_num := group line m 1 in
      let title := titlecase (strip (group line m 2)) in
      match int_of (group line m 3) with
      | Raise e => Raise e
      | Ok page_start => Ok [TocEntry (LStr section_num) title page_start 2]
      end
  | None => Ok []
  end.

(** The body of "for line in lines" on a table-of-contents page, from the
    list [toc_entries]: the list after the line, and the exception that
    left the body, if one did. *)
Definition toc_line (toc_entries : list toc_entry) (line : str)
  : list toc_entry * option exn :=
  let line := strip line in
  if negb (nonempty line) then (toc_entries, None)
  else
    match chapter_entry line with
    | Raise e => (toc_entries, Some e)
    | Ok chapter =>
        let toc_entries := toc_entries ++ chapter in
        match subchapter_entry line with
        | Raise e => (toc_entries, Some e)
        | Ok subchapter => (toc_entries ++ subchapter, None)
        end
    end.

(** "for line in lines": an exception ends the loop. *)
Fixpoint toc_lines (lines : list str) (toc_entries : list toc_entry)
  : list toc_entry * option exn :=
  match lines with
  | [] => (toc_entries, None)
  | line :: rest =>
      match toc_line toc_entries line with
      | (toc_entries, Some e) => (toc_entries, Some e)
      | (toc_entries, None) => toc_lines rest toc_entries
      end
  end.

Definition is_toc_page (t : str) : bool :=
  existsb (fun indicator => contains (py indicator) (lower t)) toc_indicators.

(** The page loop of [_extract_table_of_contents], from the state
    (toc_found, toc_entries).  The result is the list at the end of the
    loop, or at the exception that left it. *)
Fixpoint toc_pages (pages : list page) (toc_found : bool)
         (toc_entries : list toc_entry) : list toc_entry * option exn :=
  match pages with
  | [] => (toc_entries, None)
  | Raise e :: _ => (toc_entries, Some e)
  | Ok None :: rest => toc_pages rest toc_found toc_entries
  | Ok (Some t) :: rest =>
      if negb (nonempty t) then toc_pages rest toc_found toc_entries
      else
        let lines := split_on "010" t in
        let hit := is_toc_page t in
        let toc_found := toc_found || hit in
        match (if hit then toc_lines lines toc_entries
               else (toc_entries, None)) with
        | (toc_entries, Some e) => (toc_entries, Some e)
        | (toc_entries, None) =>
            if toc_found && negb (Nat.eqb (List.length toc_entries) 0)
            then (toc_entries, None)
            else toc_pages rest toc_found toc_entries
        end
  end.

Definition chapter_patterns : list regex :=
  [ (* ^\s*chapter\s+(\d+) *)
    seq [Bol; star Space; Lit "chapter"; plus Space; Grp 1 (plus Digit)];
    (* ^\s*(\d+)\.\s+[A-Z][^.]*$ *)
    seq [Bol; star Space; Grp 1 (plus Digit); Chr (Ch "."); plus Space;
         Chr (Range "A" "Z"); star (NoneOf ["."]%char); Eol];
    (* ^\s*unit\s+(\d+) *)
    seq [Bol; star Space; Lit "unit"; plus Space; Grp 1 (plus Digit)];
    (* ^\s*section\s+(\d+) *)
    seq [Bol; star Space; Lit "section"; plus Space; Grp 1 (plus Digit)] ].

Definition is_heading (line : str) : bool :=
  existsb (fun pattern =>
             match re_match no_flags pattern (lower line) with
             | Some _ => true
             | None => false
             end) chapter_patterns.

(** The loop state of [_infer_chapters_from_headings]. *)
Record h_state := HState { chapters : list toc_entry; chapter_num : Z }.

Definition heading_line (page_num : nat) (st : h_state) (line : str) : h_state :=
  let line := strip line in
  if (List.length line <? 5) || (100 <? List.length line) then st
  else if is_heading line then
    let chapter_num := (chapter_num st + 1)%Z in
    HState (chapters st ++
              [TocEntry (LInt chapter_num) (titlecase line)
                        (Z.of_nat page_num + 1) 1])
           chapter_num
  else st.

(** "for page_num, page in enumerate(pdf.pages[:50])", from index
    [page_num]; an exception of [extract_text] ends the loop and the
    chapters found so far are returned. *)
Fixpoint heading_pages (pages : list page) (page_num : nat) (st : h_state)
  : list toc_entry :=
  match pages with
  | [] => chapters st
  | Raise _ :: _ => chapters st
  | Ok None :: rest => heading_pages rest (S page_num) st
  | Ok (Some t) :: rest =>
      if negb (nonempty t) then heading_pages rest (S page_num) st
      else heading_pages rest (S page_num)
                         (fold_left (heading_line page_num) (split_on "010" t) st)
  end.

Definition _infer_chapters_from_headings (file : pdf_file) : list toc_entry :=
  match plumber_pages file with
  | Raise _ => []
  | Ok pages => heading_pages (firstn 50 pages) 0 (HState [] 0)
  end.

Definition _extract_table_of_contents (file : pdf_file) : list toc_entry :=
  match plumber_pages file with
  | Raise _ => []
  | Ok pages =>
      match toc_pages (firstn 20 pages) false [] with
      | (toc_entries, Some _) => toc_entries
      | (toc_entries, None) =>
          match toc_entries with
          | [] => _infer_chapters_from_headings file
          | _ :: _ => toc_entries
          end
      end
  end.

End Structure.

(** ** models.py : the rows, and the session over them *)

Inductive status := pending | processing | completed | failed.

Record textbook := Textbook {
  tb_id : Z;
  processing_status : status;
  total_pages : option nat
}.

Record chapter := Chapter {
  ch_id : Z;
  ch_textbook_id : Z;
  ch_title : str;
  ch_chapter_number : label;
  ch_page_start : Z;
  ch_level : Z
}.

Record question := Question {
  q_textbook_id : Z;
  q_chapter_id : option Z;
  question_text : str;
  question_type : qtype;
  q_page_number : Z;
  q_context : str;
  q_answer : option str
}.

(** The stored tables, the objects added to the session and not yet
    committed, and the history of the values assigned to
    [processing_status], oldest first (with the row they were assigned to). *)
Record database := Database {
  textbooks : list textbook;
  db_chapters : list chapter;
  db_questions : list question;
  session_chapters : list chapter;
  session_questions : list question;
  status_writes : list (Z * status)
}.

(** One entry of the list returned by [_extract_text_chunk]. *)
Record page_data := PageData { pd_page_number : Z; pd_text : str }.

Module Db.

Definition has_id (textbook_id : Z) (t : textbook) : bool :=
  (tb_id t =? textbook_id)%Z.

(** db.query(Textbook).filter(Textbook.id == textbook_id).first() *)
Definition first_textbook (textbook_id : Z) (db : database) : option textbook :=
  List.find (has_id textbook_id) (textbooks db).

Fixpoint update_first (textbook_id : Z) (f : textbook -> textbook)
         (ts : list textbook) : list textbook :=
  match ts with
  | [] => []
  | t :: ts' =>
      if has_id textbook_id t then f t :: ts'
      else t :: update_first textbook_id f ts'
  end.

(** textbook.processing_status = s *)
Definition set_status (textbook_id : Z) (s : status) (db : database) : database :=
  Database
    (update_first textbook_id
                  (fun t => Textbook (tb_id t) s (total_pages t)) (textbooks db))
    (db_chapters db) (db_questions db)
    (session_chapters db) (session_questions db)
    (status_writes db ++ [(textbook_id, s)]).

(** textbook.total_pages = n *)
Definition set_total_pages (textbook_id : Z) (n : nat) (db : database) : database :=
  Database
    (update_first textbook_id
                  (fun t => Textbook (tb_id t) (processing_status t) (Some n))
                  (textbooks db))
    (db_chapters db) (db_questions db)
    (session_chapters db) (session_questions db)
    (status_writes db).

Definition add_chapter (c : chapter) (db : database) : database :=
  Database (textbooks db) (db_chapters db) (db_questions db)
           (session_chapters db ++ [c]) (session_questions db)
           (status_writes db).

Definition add_question (q : question) (db : database) : database :=
  Database (textbooks db) (db_chapters db) (db_questions db)
           (session_chapters db) (session_questions db ++ [q])
           (status_writes db).

(** Primary keys are handed out in insertion order, from [next]. *)
Fixpoint assign_ids (next : Z) (cs : list chapter) : list chapter :=
  match cs with
  | [] => []
  | c :: cs' =>
      Chapter next (ch_textbook_id c) (ch_title c) (ch_chapter_number c)
              (ch_page_start c) (ch_level c)
      :: assign_ids (next + 1)%Z cs'
  end.

(** The id SQLite gives the next row of a table (INTEGER PRIMARY KEY
    without AUTOINCREMENT): 1 in an empty table, else one more than the
    greatest id in use.  A table whose greatest id is 2^63 - 1, where
    SQLite picks an unused id at random, is outside the model. *)
Definition next_id (ids : list Z) : Z :=
  match ids with
  | [] => 1%Z
  | i :: rest => (fold_left Z.max rest i + 1)%Z
  end.

(** db.commit(), when the flush succeeds: the pending objects are
    inserted. *)
Definition commit (db : database) : database :=
  Database (textbooks db)
           (db_chapters db ++
              assign_ids (next_id (map ch_id (db_chapters db)))
                         (session_chapters db))
           (db_questions db ++ session_questions db)
           [] []
           (status_writes db).

(** What sqlite3 binds as an INTEGER: a Python int outside 64 bits raises
    OverflowError when the statement is executed. *)
Definition fits_int64 (n : Z) : bool :=
  (- 2 ^ 63 <=? n)%Z && (n <? 2 ^ 63)%Z.

Definition label_fits (l : label) : bool :=
  match l with
  | LInt n => fits_int64 n
  | LStr _ => true
  end.

(** The integers of a chapter that can be of any size: the two that
    [int] reads from a contents line.  The other integers of a row are
    lengths, counters, page indices and ids of stored rows, which fit. *)
Definition chapter_fits (c : chapter) : bool :=
  label_fits (ch_chapter_number c) && fits_int64 (ch_page_start c).

(** The flush of db.commit() over the pending chapters: the INSERT of a
    chapter that does not fit raises.  It is the flush of the commit of
    [_store_chapters], the one commit of a run that inserts chapters the
    run has built. *)
Definition flush_chapters (db : database) : result unit :=
  if forallb chapter_fits (session_chapters db) then Ok tt
  else Raise OverflowError.

(** db.rollback(): the pending objects are expunged.  (Assignments to
    stored rows are written through by [set_status] and [set_total_pages];
    the code rolls back only where none is uncommitted.) *)
Definition rollback (db : database) : database :=
  Database (textbooks db) (db_chapters db) (db_questions db) [] []
           (status_writes db).

Definition status_of (textbook_id : Z) (db : database) : option status :=
  option_map processing_status (first_textbook textbook_id db).

End Db.

(** ** The pipeline: QuestionExtractor.extract_questions_from_text and
    PDFProcessor.process_pdf

    Two collaborators are kept abstract.  [order_by_page_start_desc] is
    the database's ORDER BY page_start DESC: the query names no second
    key, so the order of rows with equal [page_start] is the database's
    choice.  [extract_page] is the method [_extract_questions_from_page],
    so that the path of an exception leaving it can be followed;
    [QuestionExtractor._extract_questions_from_page] is its instance. *)

(** Stateful code that may raise: the database as it is when the
    computation returns or raises. *)
Definition M (A : Type) := database -> database * result A.

Definition ret {A} (a : A) : M A := fun db => (db, Ok a).

Definition bind {A B} (m : M A) (k : A -> M B) : M B :=
  fun db =>
    match m db with
    | (db', Ok a) => k a db'
    | (db', Raise e) => (db', Raise e)
    end.

Definition lift {A} (r : result A) : M A := fun db => (db, r).

Definition modify (f : database -> database) : M unit :=
  fun db => (f db, Ok tt).

Notation "x <- m ;; k" := (bind m (fun x => k))
  (at level 61, m at next level, right associativity).
Notation "m ;;; k" := (bind m (fun _ => k))
  (at level 61, right associativity).

Section Pipeline.
Import PyStr Db.

Variable order_by_page_start_desc : list chapter -> list chapter.
Variable extract_page : str -> Z -> result (list candidate).

(** [_find_chapter_for_page]: the query reads the committed rows (the
    session is created with autoflush off). *)
Definition _find_chapter_for_page (textbook_id page_num : Z) (db : database)
  : option chapter :=
  hd_error
    (order_by_page_start_desc
       (filter (fun c => (ch_textbook_id c =? textbook_id)%Z
                         && (ch_page_start c <=? page_num)%Z)
               (db_chapters db))).

Definition new_question (textbook_id : Z) (chapter : option chapter)
           (page_num : Z) (question_data : candidate) : question :=
  Question textbook_id (option_map ch_id chapter) (text question_data)
           (type question_data) page_num (context question_data) None.

(** "for page_data in pages_text", with the counter questions_found. *)
Fixpoint extract_pages (pages_text : list page_data) (textbook_id : Z)
         (questions_found : nat) : M nat :=
  match pages_text with
  | [] => ret questions_found
  | page_data :: rest =>
      let page_num := pd_page_number page_data in
      let t := pd_text page_data in
      match t with
      | [] => extract_pages rest textbook_id questions_found
      | _ :: _ =>
          fun db =>
            let chapter := _find_chapter_for_page textbook_id page_num db in
            (page_questions <- lift (extract_page t page_num) ;;
             modify (fun db =>
                       fold_left
                         (fun db question_data =>
                            add_question
                              (new_question textbook_id chapter page_num question_data)
                              db)
                         page_questions db) ;;;
             extract_pages rest textbook_id
                           (questions_found + List.length page_questions)) db
      end
  end.

Definition extract_questions_from_text (pages_text : list page_data)
           (textbook_id : Z) (start_page : Z) : M unit :=
  questions_found <- extract_pages pages_text textbook_id 0 ;;
  if 0 <? questions_found then modify commit else ret tt.

(** [_extract_text_chunk]: "for page_num in range(start_page, end_page)" *)
Fixpoint chunk_pages (pages : list page) (page_nums : list nat)
  : result (list page_data) :=
  match page_nums with
  | [] => Ok []
  | page_num :: rest =>
      if page_num <? List.length pages then
        match nth page_num pages (Ok None) with
        | Raise e => Raise e
        | Ok None => chunk_pages pages rest
        | Ok (Some t) =>
            match chunk_pages pages rest with
            | Raise e => Raise e
            | Ok pages_text =>
                match t with
                | [] => Ok pages_text
                | _ :: _ =>
                    Ok (PageData (Z.of_nat page_num + 1) (strip t) :: pages_text)
                end
            end
        end
      else chunk_pages pages rest
  end.

Definition _extract_text_chunk (file : pdf_file) (start_page end_page : nat)
  : result (list page_data) :=
  match plumber_pages file with
  | Raise e => Raise e
  | Ok pages => chunk_pages pages (List.seq start_page (end_page - start_page))
  end.

(** [_store_chapters]: the "try:" adds the chapters and commits; when
    the flush raises, the "except" rolls the session back. *)
Definition _store_chapters (toc_entries : list toc_entry) (textbook_id : Z)
           (db : database) : database :=
  let added :=
    fold_left
      (fun db entry =>
         add_chapter
           (Chapter 0 textbook_id (title entry) (chapter_number entry)
                    (page_start entry) (level entry))
           db)
      toc_entries db in
  match flush_chapters added with
  | Ok _ => commit added
  | Raise _ => rollback added
  end.

Definition chunk_size : nat := 10.

(** range(0, total_pages, chunk_size) *)
Definition chunk_starts (total_pages : nat) : list nat :=
  map (fun k => k * chunk_size) (List.seq 0 ((total_pages + 9) / chunk_size)).

Fixpoint process_chunks (file : pdf_file) (textbook_id : Z) (total_pages : nat)
         (starts : list nat) : M unit :=
  match starts with
  | [] => ret tt
  | start_page :: rest =>
      let end_page := Nat.min (start_page + chunk_size) total_pages in
      chunk_text <- lift (_extract_text_chunk file start_page end_page) ;;
      extract_questions_from_text chunk_text textbook_id
                                  (Z.of_nat start_page + 1) ;;;
      process_chunks file textbook_id total_pages rest
  end.

(** The body of the "try:" of [process_pdf]. *)
Definition process_pdf_try (file : pdf_file) (textbook_id : Z) : M bool :=
  fun db =>
    match first_textbook textbook_id db with
    | None => (db, Raise AttributeError)
    | Some _ =>
        (modify (fun db => commit (set_status textbook_id processing db)) ;;;
         total_pages <- lift (reader_page_count file) ;;
         modify (fun db => commit (set_total_pages textbook_id total_pages db)) ;;;
         let toc := Structure._extract_table_of_contents file in
         modify (fun db =>
                   match toc with
                   | [] => db
                   | _ :: _ => _store_chapters toc textbook_id db
                   end) ;;;
         process_chunks file textbook_id total_pages (chunk_starts total_pages) ;;;
         modify (fun db => commit (set_status textbook_id completed db)) ;;;
         ret true) db
    end.

(** [process_pdf]: the "try:" and its "except Exception". *)
Definition process_pdf (file : pdf_file) (textbook_id : Z) (db : database)
  : database * bool :=
  match process_pdf_try file textbook_id db with
  | (db', Ok b) => (db', b)
  | (db', Raise _) =>
      match first_textbook textbook_id db' with
      | Some _ => (commit (set_status textbook_id failed db'), false)
      | None => (db', false)
      end
  end.

End Pipeline.

(** * Properties *)

Unset Implicit Arguments.

(** ** Characters of a result come from the subject *)

Module PyStrFacts.
Import PyStr.

Lemma lstrip_incl (t : str) (c : ascii) : In c (lstrip t) -> In c t.
Proof.
  induction t as [|a t IH]; simpl; auto.
  destruct (is_space a); simpl; tauto.
Qed.

Lemma rstrip_incl (t : str) (c : ascii) : In c (rstrip t) -> In c t.
Proof.
  induction t as [|a t IH]; simpl; auto.
  destruct (rstrip t) as [|b r].
  - destruct (is_space a); simpl; tauto.
  - simpl. intros [H|H]; auto.
Qed.

Lemma strip_incl (t : str) (c : ascii) : In c (strip t) -> In c t.
Proof. intro H. apply rstrip_incl, lstrip_incl, H. Qed.

Lemma lstrip_head (t : str) (c : ascii) (r : str) :
  lstrip t = c :: r -> is_space c = false.
Proof.
  induction t as [|a t IH]; simpl; [discriminate|].
  destruct (is_space a) eqn:E; auto.
  intro H. injection H as -> _. exact E.
Qed.

Lemma strip_head (t : str) (c : ascii) (r : str) :
  strip t = c :: r -> is_space c = false.
Proof. apply lstrip_head. Qed.

Lemma lstrip_keeps (t : str) (c : ascii) :
  is_space c = false -> In c t -> In c (lstrip t).
Proof.
  intros Hc. induction t as [|a t IH]; simpl; auto.
  intros [->|H].
  - rewrite Hc. now left.
  - destruct (is_space a); [auto | now right].
Qed.

Lemma rstrip_keeps (t : str) (c : ascii) :
  is_space c = false -> In c t -> In c (rstrip t).
Proof.
  intros Hc. induction t as [|a t IH]; simpl; auto.
  intros [->|H].
  - destruct (rstrip t); [rewrite Hc|]; now left.
  - specialize (IH H). destruct (rstrip t); [destruct IH | now right].
Qed.

Lemma strip_keeps (t : str) (c : ascii) :
  is_space c = false -> In c t -> In c (strip t).
Proof. intros Hc H. apply lstrip_keeps, rstrip_keeps; auto. Qed.

(** What [rstrip] returns does not end in a blank ... *)
Lemma rstrip_fix (t : str) : rstrip (rstrip t) = rstrip t.
Proof.
  induction t as [|a t IH]; simpl; auto.
  destruct (rstrip t) as [|b r] eqn:E.
  - destruct (is_space a) eqn:Ea; simpl; auto. now rewrite Ea.
  - change (rstrip (a :: b :: r)) with
      (match rstrip (b :: r) with
       | [] => if is_space a then [] else [a]
       | x => a :: x
       end).
    rewrite IH. reflexivity.
Qed.

(** ... and neither does any non-empty suffix of it left by [lstrip]. *)
Lemma rstrip_lstrip_fix (t : str) :
  rstrip t = t -> rstrip (lstrip t) = lstrip t.
Proof.
  induction t as [|a t IH]; simpl; auto.
  destruct (rstrip t) as [|b r] eqn:E.
  - destruct (is_space a) eqn:Ea; [discriminate|].
    intro H. injection H as <-. simpl. now rewrite Ea.
  - intro H. injection H as H.
    destruct (is_space a) eqn:Ea.
    + apply IH. congruence.
    + simpl. rewrite E. congruence.
Qed.

Lemma lstrip_fix (t : str) : lstrip (lstrip t) = lstrip t.
Proof.
  induction t as [|a t IH]; simpl; auto.
  destruct (is_space a) eqn:Ea; auto. simpl. now rewrite Ea.
Qed.

Lemma strip_fix (t : str) : strip (strip t) = strip t.
Proof.
  unfold strip.
  rewrite (rstrip_lstrip_fix (rstrip t) (rstrip_fix t)).
  apply lstrip_fix.
Qed.

Lemma split_on_incl (d : ascii) (t l : str) (c : ascii) :
  In l (split_on d t) -> In c l -> In c t.
Proof.
  revert l. induction t as [|a t IH]; simpl; intros l.
  - intros [<-|[]] [].
  - destruct (Ascii.eqb a d).
    + intros [<-|H] Hc; [destruct Hc | right; eauto].
    + destruct (split_on d t) as [|l0 ls] eqn:E.
      * intros [<-|[]] [->|[]]. now left.
      * intros [<-|H] Hc.
        -- destruct Hc as [->|Hc]; [now left | right].
           apply (IH l0); simpl; auto.
        -- right. apply (IH l); simpl; auto.
Qed.

Lemma startswith_single (t : str) (c : ascii) :
  startswith t [c] = true -> exists r, t = c :: r.
Proof.
  destruct t as [|a t]; simpl; [discriminate|].
  rewrite andb_true_r. intro H. apply Ascii.eqb_eq in H. subst. eauto.
Qed.

Lemma contains_single (t : str) (c : ascii) :
  contains [c] t = true <-> In c t.
Proof.
  induction t as [|a t IH].
  - simpl. split; [discriminate | tauto].
  - change (contains [c] (a :: t))
      with (startswith (a :: t) [c] || contains [c] t).
    rewrite orb_true_iff, IH. simpl. rewrite andb_true_r, Ascii.eqb_eq.
    split; intros [H|H]; auto.
Qed.

Lemma endswith_single (t : str) (c : ascii) :
  endswith t [c] = true -> In c t.
Proof.
  unfold endswith. simpl. intro H.
  apply startswith_single in H. destruct H as [r H].
  apply in_rev. rewrite H. now left.
Qed.

Lemma slice_incl (a b : nat) (t : str) (c : ascii) :
  In c (slice a b t) -> In c t.
Proof.
  unfold slice. intro H.
  rewrite <- (firstn_skipn a t). apply in_or_app. right.
  rewrite <- (firstn_skipn (b - a) (skipn a t)). apply in_or_app. now left.
Qed.

Lemma count_pos (c : ascii) (t : str) : 0 < count c t -> In c t.
Proof.
  unfold count. intro H.
  destruct (filter (Ascii.eqb c) t) as [|a r] eqn:E; [simpl in H; lia|].
  assert (Ha : In a (filter (Ascii.eqb c) t)) by (rewrite E; now left).
  apply filter_In in Ha. destruct Ha as [Ha Hc].
  apply Ascii.eqb_eq in Hc. now subst.
Qed.

(** A text with a non-blank character has a word. *)
Lemma split_ws_nonempty (t : str) (c : ascii) :
  In c t -> is_space c = false -> split_ws t <> [].
Proof.
  intros Hin Hc. induction t as [|a t IH]; [destruct Hin|].
  simpl. destruct (is_space a) eqn:Ea.
  - apply IH. destruct Hin as [->|H]; [congruence | exact H].
  - destruct t as [|b t']; [discriminate|].
    destruct (is_space b); [discriminate|].
    destruct (split_ws (b :: t')); discriminate.
Qed.

End PyStrFacts.

(** ** Question extraction *)

Module QuestionFacts.
Import PyStr Re QuestionExtractor PyStrFacts.

Lemma group_incl (t : str) (m : mobj) (n : nat) (c : ascii) :
  In c (group t m n) -> In c t.
Proof.
  unfold group. destruct n.
  - apply slice_incl.
  - destruct (lookup (S n) (m_groups m)) as [[a b]|]; [apply slice_incl | intros []].
Qed.

Lemma question_mark_not_blank : is_space question_mark = false.
Proof. reflexivity. Qed.

(** Three question marks make a word: the divisor of the density is
    not zero. *)
Lemma words_of_questions (t : str) :
  0 < count question_mark t -> split_ws t <> [].
Proof.
  intro H. apply count_pos in H.
  exact (split_ws_nonempty t question_mark H question_mark_not_blank).
Qed.

(** C10: the exercise-section test returns a boolean on every page
    text; the division of its density branch is reached with at least
    three question marks, hence with a non-empty word list, and never
    raises ZeroDivisionError. *)
Theorem is_exercise_section_total (t : str) :
  exists b, _is_exercise_section t = Ok b.
Proof.
  unfold _is_exercise_section.
  destruct (existsb _ exercise_section_patterns); [eauto|].
  destruct (3 <=? count question_mark t) eqn:E3; simpl; [|eauto].
  destruct (0 <? List.length t); [|eauto].
  apply Nat.leb_le in E3.
  destruct (split_ws t) as [|w ws] eqn:Ew.
  - exfalso. apply (words_of_questions t); [lia | exact Ew].
  - simpl. eauto.
Qed.

(** The page is handled in one of the two modes. *)
Lemma exercise_mode_cases (t : str) :
  _is_exercise_section t = Ok true \/ _is_exercise_section t = Ok false.
Proof.
  unfold _is_exercise_section.
  destruct (existsb _ exercise_section_patterns); [auto|].
  destruct ((3 <=? count question_mark t) && (0 <? List.length t)) eqn:E;
    [|auto].
  apply andb_true_iff in E. destruct E as [E3 _]. apply Nat.leb_le in E3.
  pose proof (words_of_questions t) as Hw.
  destruct (split_ws t) as [|w ws]; [exfalso; apply Hw; [lia | reflexivity]|].
  simpl. destruct (_ <? _); auto.
Qed.

(** *** Pages without a question mark *)

Definition no_qmark (t : str) : Prop := ~ In question_mark t.

Lemma valid_has_qmark (t : str) :
  _is_valid_question t = true -> In question_mark t.
Proof.
  unfold _is_valid_question.
  destruct (negb (nonempty t) || (List.length t <? 10)); [discriminate|].
  destruct (endswith t [question_mark]) eqn:E; simpl; [|discriminate].
  intros _. now apply endswith_single.
Qed.

Lemma flat_map_nil {A B : Type} (f : A -> list B) (l : list A) :
  (forall x, In x l -> f x = []) -> flat_map f l = [].
Proof.
  induction l as [|x l IH]; simpl; intro H; auto.
  rewrite (H x), IH; auto.
Qed.

Lemma matches_of_no_qmark (t : str) (pattern : regex) :
  no_qmark t -> matches_of t pattern = [].
Proof.
  intro Hno. unfold matches_of. apply flat_map_nil. intros m _.
  destruct (_is_valid_question _) eqn:E; auto.
  exfalso. apply Hno. apply valid_has_qmark in E.
  apply strip_incl in E.
  destruct (has_groups pattern); eapply group_incl; eauto.
Qed.

Lemma scattered_no_qmark (t : str) (lines : list str) :
  no_qmark t -> _extract_scattered_questions t lines = [].
Proof.
  intro Hno. unfold _extract_scattered_questions.
  rewrite flat_map_nil; auto.
  intros p _. now apply matches_of_no_qmark.
Qed.

Lemma ex_flush_no_qmark (st : ex_state) :
  no_qmark (current_question st) -> ex_flush st = ex_questions st.
Proof.
  intro Hno. unfold ex_flush.
  destruct (contains [question_mark] (current_question st)) eqn:E.
  - apply contains_single in E. contradiction.
  - now rewrite andb_false_r.
Qed.

Lemma ex_step_no_qmark (st : ex_state) (line : str) :
  no_qmark line -> no_qmark (current_question st) -> ex_questions st = [] ->
  no_qmark (current_question (ex_step st line)) /\
  ex_questions (ex_step st line) = [].
Proof.
  intros Hl Hc Hq. unfold ex_step.
  assert (Hs : no_qmark (strip line)) by (intro H; apply Hl, strip_incl, H).
  destruct (negb (nonempty (strip line))); [auto|].
  destruct (re_match no_flags question_start (strip line)) as [m|].
  - simpl. rewrite (ex_flush_no_qmark st Hc). split; auto.
    intro H. apply Hs. apply (group_incl (strip line) m 2). exact H.
  - destruct (nonempty (current_question st)); simpl; auto.
    split; auto. intro H.
    apply in_app_or in H. destruct H as [H|H]; [auto|].
    destruct H as [H|H]; [discriminate | auto].
Qed.

Lemma exercise_no_qmark (t : str) (lines : list str) :
  (forall l, In l lines -> no_qmark l) ->
  _extract_from_exercise_section t lines = [].
Proof.
  intro Hl. unfold _extract_from_exercise_section.
  assert (G : forall st,
             no_qmark (current_question st) -> ex_questions st = [] ->
             ex_flush (fold_left ex_step lines st) = []).
  { induction lines as [|l ls IH]; intros st Hc Hq; simpl.
    - now rewrite (ex_flush_no_qmark st Hc).
    - destruct (ex_step_no_qmark st l) as [Hc' Hq']; auto.
      { apply Hl. now left. }
      apply IH; auto. intros l' Hin. apply Hl. now right. }
  apply G; auto. intros [].
Qed.

(** C9: on a page text without any question mark, question extraction
    returns the empty sequence, whichever of the two modes the page is
    handled in. *)
Theorem no_question_mark_no_candidates (t : str) (n : Z) :
  ~ In question_mark t -> _extract_questions_from_page t n = Ok [].
Proof.
  intro Hno. unfold _extract_questions_from_page.
  destruct (exercise_mode_cases t) as [-> | ->].
  - rewrite exercise_no_qmark; auto.
    intros l Hl H. apply Hno. eapply split_on_incl; eauto.
  - rewrite scattered_no_qmark; auto.
Qed.

Definition scenario_B : str := py "The cat sat. Random sentence.".

(** The instance named by C9 (Scenario B). *)
Lemma no_question_mark_no_candidates_witness :
  ~ In question_mark scenario_B /\
  _extract_questions_from_page scenario_B 1 = Ok [].
Proof.
  assert (H : ~ In question_mark scenario_B).
  { intro H. apply contains_single in H. vm_compute in H. discriminate. }
  split; [exact H | exact (no_question_mark_no_candidates scenario_B 1%Z H)].
Defined.

(** *** What a candidate's text looks like *)

(** A flushed buffer: the trimmed text of a buffer holding a question mark. *)
Definition flushed (q : raw_question) : Prop :=
  exists buffer, raw_text q = strip buffer /\ In question_mark buffer.

Lemma ex_flush_flushed (st : ex_state) :
  Forall flushed (ex_questions st) -> Forall flushed (ex_flush st).
Proof.
  intro H. unfold ex_flush.
  destruct (nonempty (current_question st)); simpl; auto.
  destruct (contains [question_mark] (current_question st)) eqn:E; auto.
  apply Forall_app. split; auto.
  constructor; [|constructor].
  exists (current_question st). split; [reflexivity|].
  now apply contains_single.
Qed.

Lemma ex_step_flushed (st : ex_state) (line : str) :
  Forall flushed (ex_questions st) ->
  Forall flushed (ex_questions (ex_step st line)).
Proof.
  intro H. unfold ex_step.
  destruct (negb (nonempty (strip line))); auto.
  destruct (re_match no_flags question_start (strip line)).
  - simpl. now apply ex_flush_flushed.
  - destruct (nonempty (current_question st)); auto.
Qed.

Lemma exercise_flushed (t : str) (lines : list str) :
  Forall flushed (_extract_from_exercise_section t lines).
Proof.
  unfold _extract_from_exercise_section.
  apply ex_flush_flushed.
  assert (G : forall st, Forall flushed (ex_questions st) ->
                         Forall flushed (ex_questions (fold_left ex_step lines st))).
  { induction lines as [|l ls IH]; intros st H; simpl; auto.
    apply IH. now apply ex_step_flushed. }
  apply G. constructor.
Qed.

Lemma unique_incl (seen : list str) (qs : list raw_question) (q : raw_question) :
  In q (unique seen qs) -> In q qs.
Proof.
  revert seen. induction qs as [|a qs IH]; simpl; intros seen; auto.
  destruct (existsb _ seen).
  - intro H. right. eapply IH; eauto.
  - intros [H|H]; [now left | right; eapply IH; eauto].
Qed.

Lemma matches_of_valid (t : str) (pattern : regex) (q : raw_question) :
  In q (matches_of t pattern) ->
  _is_valid_question (raw_text q) = true /\ strip (raw_text q) = raw_text q.
Proof.
  unfold matches_of. intro H.
  apply in_flat_map in H. destruct H as [m [_ H]].
  destruct (_is_valid_question _) eqn:E; [|destruct H].
  destruct H as [<-|[]]. simpl. split; [exact E | apply strip_fix].
Qed.

Lemma scattered_valid (t : str) (lines : list str) (q : raw_question) :
  In q (_extract_scattered_questions t lines) ->
  _is_valid_question (raw_text q) = true /\ strip (raw_text q) = raw_text q.
Proof.
  unfold _extract_scattered_questions. intro H.
  apply unique_incl in H. apply in_flat_map in H.
  destruct H as [p [_ H]]. eapply matches_of_valid; eauto.
Qed.

Lemma valid_shape (t : str) :
  _is_valid_question t = true ->
  endswith t [question_mark] = true /\ 10 <= List.length t.
Proof.
  unfold _is_valid_question.
  destruct (List.length t <? 10) eqn:El.
  - rewrite orb_true_r. discriminate.
  - apply Nat.ltb_ge in El.
    destruct (negb (nonempty t) || false); [discriminate|].
    destruct (endswith t [question_mark]); simpl; [auto | discriminate].
Qed.

(** C2 (as amended): every candidate's text is trimmed and holds a
    question mark; in scattered mode it passed the validity filter, so
    it ends with the question mark and has at least ten characters.  In
    exercise-section mode the buffer is only tested for holding a
    question mark. *)
Theorem candidate_text_shape (t : str) (n : Z) (qs : list candidate)
        (c : candidate) :
  _extract_questions_from_page t n = Ok qs ->
  In c qs ->
  strip (text c) = text c /\
  In question_mark (text c) /\
  (_is_exercise_section t = Ok false ->
   endswith (text c) [question_mark] = true /\ 10 <= List.length (text c)).
Proof.
  unfold _extract_questions_from_page.
  destruct (exercise_mode_cases t) as [Hb | Hb]; rewrite Hb;
    intros Hq Hc; injection Hq as <-;
    apply in_map_iff in Hc; destruct Hc as [q [<- Hq]]; simpl.
  - pose proof (exercise_flushed t (split_on newline t)) as HF.
    rewrite Forall_forall in HF. destruct (HF q Hq) as [buffer [-> Hin]].
    split; [apply strip_fix|]. split; [|discriminate].
    apply strip_keeps; auto.
  - destruct (scattered_valid _ _ _ Hq) as [Hv Hs].
    split; [exact Hs|]. split.
    + now apply valid_has_qmark.
    + intros _. now apply valid_shape.
Qed.

Definition scattered_page : str :=
  py "Introduction. 1. What is measured by a barometer? The answer follows.".

Definition barometer : candidate :=
  Candidate (py "What is measured by a barometer?") None scattered_page
            short_answer.

Lemma candidate_text_shape_witness :
  _extract_questions_from_page scattered_page 3 = Ok [barometer] /\
  In barometer [barometer] /\
  strip (text barometer) = text barometer /\
  In question_mark (text barometer) /\
  (_is_exercise_section scattered_page = Ok false ->
   endswith (text barometer) [question_mark] = true /\
   10 <= List.length (text barometer)).
Proof.
  assert (H : _extract_questions_from_page scattered_page 3 = Ok [barometer])
    by (vm_compute; reflexivity).
  split; [exact H|]. split; [now left|].
  exact (candidate_text_shape scattered_page 3 [barometer] barometer H
                              (or_introl eq_refl)).
Defined.

Definition short_exercise_page : str := py "Exercises
1. Why? no".

(** C2, as stated, fails in exercise-section mode: the candidate
    "Why? no" neither ends with a question mark nor has ten characters. *)
Lemma exercise_candidate_unvalidated :
  exists c,
    _is_exercise_section short_exercise_page = Ok true /\
    _extract_questions_from_page short_exercise_page 1 = Ok [c] /\
    text c = py "Why? no" /\
    endswith (strip (text c)) [question_mark] = false /\
    List.length (text c) < 10.
Proof.
  eexists. split; [vm_compute; reflexivity|].
  split; [vm_compute; reflexivity|].
  split; [reflexivity|]. split; [reflexivity | simpl; lia].
Qed.

(** *** Scenario A *)

Definition scenario_A : str := py "Exercises
1. What is gravity?
2. Explain inertia in detail.".

(** C3, as stated, fails: the page does not yield two candidates. *)
Lemma scenario_A_not_two_candidates :
  ~ (exists c1 c2,
        _extract_questions_from_page scenario_A 1 = Ok [c1; c2] /\
        text c1 = py "What is gravity?" /\ type c1 = short_answer /\
        text c2 = py "Explain inertia in detail." /\ type c2 = essay).
Proof.
  intros [c1 [c2 [H _]]]. vm_compute in H. discriminate.
Qed.

(** C3 (as amended): the page is in exercise-section mode and yields
    exactly one candidate, "What is gravity?", classified short_answer;
    the buffer "Explain inertia in detail." holds no question mark and
    is not flushed. *)
Theorem scenario_A_one_candidate :
  _is_exercise_section scenario_A = Ok true /\
  _extract_questions_from_page scenario_A 1 =
    Ok [Candidate (py "What is gravity?") (Some (py "1")) scenario_A
                  short_answer] /\
  _classify_question_type (py "Explain inertia in detail.") = essay.
Proof.
  repeat split; vm_compute; reflexivity.
Qed.

End QuestionFacts.

(** ** Structure recovery *)

(** A readable file whose pages all have a text. *)
Definition pdf_of_texts (texts : list str) : pdf_file :=
  PdfFile (Ok (List.length texts)) (Ok (map (fun t => Ok (Some t)) texts)).

Module StructureFacts.
Import PyStr Re Structure PyStrFacts.

(** *** Scenario C *)

Definition scenario_C : pdf_file :=
  pdf_of_texts [py "Chapter 2: Thermodynamics....45"].

(** C7: on the TOC line of Scenario C the entry has number 2, start
    page 45 and level 1, and its title is ": Thermodynamics": the
    colon after the number is not among the optional punctuation of
    the pattern and stays in the title group. *)
Theorem scenario_C_entry :
  _extract_table_of_contents scenario_C =
    [TocEntry (LInt 2) (py ": Thermodynamics") 45 1].
Proof. vm_compute. reflexivity. Qed.

(** *** Sub-level entries *)

(** The sub-level pattern starts with one or more blanks; the line it
    is matched against has been stripped. *)
Lemma subchapter_never_matches (line : str) :
  re_match no_flags subchapter_re (strip line) = None.
Proof.
  unfold re_match, match_at, subchapter_re, plus.
  cbn [seq run rest pos prev].
  destruct (strip line) as [|c r] eqn:E; [reflexivity|].
  apply strip_head in E.
  cbn [rep_greedy]. unfold in_cset. cbn [ignorecase no_flags in_plain].
  rewrite E. reflexivity.
Qed.

Definition level_1 (e : toc_entry) : Prop := level e = 1%Z.

(** The entries a contents line appends are those of its chapter match:
    the sub-level match never adds one. *)
Lemma subchapter_entry_none (line : str) :
  subchapter_entry (strip line) = Ok [].
Proof.
  unfold subchapter_entry. now rewrite subchapter_never_matches.
Qed.

Lemma toc_line_appends (toc_entries : list toc_entry) (line : str) :
  toc_line toc_entries line = (toc_entries, None) \/
  (exists e, toc_line toc_entries line = (toc_entries, Some e)) \/
  exists es,
    chapter_entry (strip line) = Ok es /\
    toc_line toc_entries line = (toc_entries ++ es, None).
Proof.
  unfold toc_line. destruct (negb (nonempty (strip line))); [now left|].
  rewrite subchapter_entry_none.
  destruct (chapter_entry (strip line)) as [es|e].
  - right. right. exists es. now rewrite app_nil_r.
  - right. left. now exists e.
Qed.

Section Entries.
Variable P : toc_entry -> Prop.
Hypothesis chapter_entry_P :
  forall line es, chapter_entry line = Ok es -> Forall P es.

Lemma toc_line_forall (toc_entries : list toc_entry) (line : str) :
  Forall P toc_entries -> Forall P (fst (toc_line toc_entries line)).
Proof.
  intro H.
  destruct (toc_line_appends toc_entries line) as [E|[[e E]|[es [Hes E]]]];
    rewrite E; cbn [fst]; auto.
  apply Forall_app. split; eauto.
Qed.

Lemma toc_lines_forall (lines : list str) (toc_entries : list toc_entry) :
  Forall P toc_entries -> Forall P (fst (toc_lines lines toc_entries)).
Proof.
  revert toc_entries.
  induction lines as [|l ls IH]; intros toc_entries H; cbn [toc_lines fst]; auto.
  pose proof (toc_line_forall toc_entries l H) as Hl.
  destruct (toc_line toc_entries l) as [es [e|]]; cbn [fst] in *; auto.
Qed.

Lemma toc_pages_forall (pages : list page) (toc_found : bool)
      (toc_entries : list toc_entry) :
  Forall P toc_entries ->
  Forall P (fst (toc_pages pages toc_found toc_entries)).
Proof.
  revert toc_found toc_entries.
  induction pages as [|p ps IH]; intros toc_found toc_entries H;
    cbn [toc_pages fst]; auto.
  destruct p as [[t|]|e]; cbn [fst]; auto.
  destruct (negb (nonempty t)); auto.
  assert (He : Forall P
                 (fst (if is_toc_page t
                       then toc_lines (split_on "010" t) toc_entries
                       else (toc_entries, None)))).
  { destruct (is_toc_page t); cbn [fst]; auto. now apply toc_lines_forall. }
  destruct (if is_toc_page t then _ else _) as [es [e|]]; cbn [fst] in *; auto.
  destruct (_ && _); cbn [fst]; auto.
Qed.

End Entries.

Lemma chapter_entry_level (line : str) (es : list toc_entry) :
  chapter_entry line = Ok es -> Forall level_1 es.
Proof.
  unfold chapter_entry.
  destruct (re_match no_flags chapter_re (lower line)) as [m|].
  - destruct (int_of _); [|discriminate].
    destruct (int_of _); [|discriminate].
    intro H. injection H as <-. repeat constructor.
  - intro H. injection H as <-. constructor.
Qed.

Lemma toc_pages_level (pages : list page) (toc_found : bool)
      (toc_entries : list toc_entry) :
  Forall level_1 toc_entries ->
  Forall level_1 (fst (toc_pages pages toc_found toc_entries)).
Proof. apply toc_pages_forall. exact chapter_entry_level. Qed.

Lemma heading_line_level (n : nat) (st : h_state) (line : str) :
  Forall level_1 (chapters st) ->
  Forall level_1 (chapters (heading_line n st line)).
Proof.
  intro H. unfold heading_line.
  destruct (_ || _); auto.
  destruct (is_heading (strip line)); auto.
  simpl. apply Forall_app. split; auto. repeat constructor.
Qed.

Lemma heading_lines_level (n : nat) (lines : list str) (st : h_state) :
  Forall level_1 (chapters st) ->
  Forall level_1 (chapters (fold_left (heading_line n) lines st)).
Proof.
  revert st. induction lines as [|l ls IH]; intros st H; simpl; auto.
  apply IH, heading_line_level, H.
Qed.

Lemma heading_pages_level (pages : list page) (n : nat) (st : h_state) :
  Forall level_1 (chapters st) ->
  Forall level_1 (heading_pages pages n st).
Proof.
  revert n st. induction pages as [|p ps IH]; intros n st H; simpl; auto.
  destruct p as [[t|]|e]; auto.
  destruct (negb (nonempty t)); auto.
  apply IH, heading_lines_level, H.
Qed.

Lemma infer_level (file : pdf_file) :
  Forall level_1 (_infer_chapters_from_headings file).
Proof.
  unfold _infer_chapters_from_headings.
  destruct (plumber_pages file); [|constructor].
  apply heading_pages_level. constructor.
Qed.

(** C4: no file makes structure recovery emit a level-2 entry; every
    entry of every outline has level 1.  Each line is stripped before
    it is matched, and the sub-level pattern requires leading blanks. *)
Theorem no_level_2_entry (file : pdf_file) :
  Forall (fun e => level e = 1%Z) (_extract_table_of_contents file).
Proof.
  unfold _extract_table_of_contents.
  destruct (plumber_pages file) as [pages|]; [|constructor].
  pose proof (toc_pages_level (firstn 20 pages) false [] (Forall_nil _)) as H.
  destruct (toc_pages (firstn 20 pages) false []) as [entries [e|]];
    simpl in H.
  - exact H.
  - destruct entries; [apply infer_level | exact H].
Qed.

Definition sub_level_page : pdf_file :=
  pdf_of_texts [py "Contents
  1.1 Basics....7"].

(** The sub-level line of a contents page is read by the top-level
    pattern alone. *)
Example sub_level_line_entry :
  _extract_table_of_contents sub_level_page =
    [TocEntry (LInt 1) (py "1 Basics") 7 1].
Proof. vm_compute. reflexivity. Qed.

(** *** Start pages *)

Definition nondecreasing (es : list toc_entry) : Prop :=
  Sorted (fun a b => (page_start a <= page_start b)%Z) es.

Definition outline_ok (es : list toc_entry) : Prop :=
  Forall (fun e => (1 <= page_start e)%Z) es /\ nondecreasing es.

Lemma Sorted_snoc {A : Type} (R : A -> A -> Prop) (l : list A) (y : A) :
  Sorted R l -> Forall (fun x => R x y) l -> Sorted R (l ++ [y]).
Proof.
  induction 1 as [|a l Hs IH Hh]; intro HF; simpl.
  - repeat constructor.
  - inversion HF as [|? ? Hay HF']; subst.
    constructor; [auto|].
    destruct Hh; simpl; constructor; auto.
Qed.

Lemma digits_value_nonneg (t : str) : (0 <= digits_value t)%Z.
Proof.
  unfold digits_value.
  assert (G : forall acc, (0 <= acc)%Z ->
              (0 <= fold_left
                      (fun acc c => 10 * acc + Z.of_nat (code c - 48)) t acc)%Z).
  { induction t as [|c t IH]; intros acc Hacc; cbn [fold_left]; auto.
    apply IH. lia. }
  apply G. lia.
Qed.

Lemma int_of_nonneg (t : str) (n : Z) : int_of t = Ok n -> (0 <= n)%Z.
Proof.
  unfold int_of. destruct (_ <? _); [discriminate|].
  intro H. injection H as <-. apply digits_value_nonneg.
Qed.

Definition from_0 (e : toc_entry) : Prop := (0 <= page_start e)%Z.

Lemma chapter_entry_from_0 (line : str) (es : list toc_entry) :
  chapter_entry line = Ok es -> Forall from_0 es.
Proof.
  unfold chapter_entry.
  destruct (re_match no_flags chapter_re (lower line)) as [m|].
  - destruct (int_of _); [|discriminate].
    destruct (int_of _) as [page_start|] eqn:E; [|discriminate].
    intro H. injection H as <-. repeat constructor.
    unfold from_0. simpl.
    exact (int_of_nonneg _ _ E).
  - intro H. injection H as <-. constructor.
Qed.

Lemma toc_pages_from_0 (pages : list page) (toc_found : bool)
      (toc_entries : list toc_entry) :
  Forall from_0 toc_entries ->
  Forall from_0 (fst (toc_pages pages toc_found toc_entries)).
Proof. apply toc_pages_forall. exact chapter_entry_from_0. Qed.

(** The chapters found up to page index [n]: start pages between 1 and
    n + 1, in non-decreasing order. *)
Definition upto (n : nat) (es : list toc_entry) : Prop :=
  Forall (fun e => (1 <= page_start e <= Z.of_nat n + 1)%Z) es /\
  nondecreasing es.

Lemma upto_next (n : nat) (es : list toc_entry) : upto n es -> upto (S n) es.
Proof.
  intros [H1 H2]. split; auto.
  eapply Forall_impl; [|exact H1]. simpl. intros e He. lia.
Qed.

Lemma heading_line_upto (n : nat) (st : h_state) (line : str) :
  upto n (chapters st) -> upto n (chapters (heading_line n st line)).
Proof.
  intros [H1 H2]. unfold heading_line.
  destruct (_ || _); [split; auto|].
  destruct (is_heading (strip line)); [|split; auto].
  simpl. split.
  - apply Forall_app. split; auto. repeat constructor; simpl; lia.
  - apply Sorted_snoc; auto.
    eapply Forall_impl; [|exact H1]. simpl. intros e He. lia.
Qed.

Lemma heading_lines_upto (n : nat) (lines : list str) (st : h_state) :
  upto n (chapters st) ->
  upto n (chapters (fold_left (heading_line n) lines st)).
Proof.
  revert st. induction lines as [|l ls IH]; intros st H; simpl; auto.
  apply IH, heading_line_upto, H.
Qed.

Lemma heading_pages_ok (pages : list page) (n : nat) (st : h_state) :
  upto n (chapters st) -> outline_ok (heading_pages pages n st).
Proof.
  revert n st. induction pages as [|p ps IH]; intros n st H; simpl.
  - destruct H as [H1 H2]. split; auto.
    eapply Forall_impl; [|exact H1]. simpl. intros e He. lia.
  - assert (Hst : outline_ok (chapters st)).
    { destruct H as [H1 H2]. split; auto.
      eapply Forall_impl; [|exact H1]. simpl. intros e He. lia. }
    destruct p as [[t|]|e]; auto.
    + destruct (negb (nonempty t)).
      * apply IH, upto_next, H.
      * apply IH, upto_next, heading_lines_upto, H.
    + apply IH, upto_next, H.
Qed.

(** When the contents scan ends without an entry, the outline is the
    one inferred from the headings. *)
Lemma outline_falls_back (file : pdf_file) (pages : list page) :
  plumber_pages file = Ok pages ->
  toc_pages (firstn 20 pages) false [] = ([], None) ->
  _extract_table_of_contents file = _infer_chapters_from_headings file.
Proof.
  intros Hp Ht. unfold _extract_table_of_contents. now rewrite Hp, Ht.
Qed.

(** C8 (as amended): every entry of every outline has a start page of
    at least 0, the number parsed from the contents line being taken as
    it is; the outline inferred from headings, which is the result when
    the contents scan finds no entry, has start pages of at least 1 in
    non-decreasing order. *)
Theorem outline_start_pages (file : pdf_file) :
  Forall (fun e => (0 <= page_start e)%Z) (_extract_table_of_contents file) /\
  Forall (fun e => (1 <= page_start e)%Z) (_infer_chapters_from_headings file) /\
  Sorted (fun a b => (page_start a <= page_start b)%Z)
         (_infer_chapters_from_headings file).
Proof.
  assert (Hinf : outline_ok (_infer_chapters_from_headings file)).
  { unfold _infer_chapters_from_headings.
    destruct (plumber_pages file); [|split; constructor].
    apply heading_pages_ok. split; constructor. }
  split; [|exact Hinf].
  unfold _extract_table_of_contents.
  destruct (plumber_pages file) as [pages|] eqn:Hp; [|constructor].
  pose proof (toc_pages_from_0 (firstn 20 pages) false [] (Forall_nil _)) as H.
  destruct (toc_pages (firstn 20 pages) false []) as [entries [e|]];
    simpl in H.
  - exact H.
  - destruct entries; [|exact H].
    destruct Hinf as [H1 _].
    eapply Forall_impl; [|exact H1]. simpl. intros e He. lia.
Qed.

Definition unordered_contents : pdf_file :=
  pdf_of_texts [py "Contents
1. Alpha....9
2. Beta....0"].

(** C8, as stated, fails on a contents page whose page numbers go
    down to 0: neither bound nor order holds. *)
Lemma contents_start_pages_unchecked :
  _extract_table_of_contents unordered_contents =
    [TocEntry (LInt 1) (py "Alpha") 9 1; TocEntry (LInt 2) (py "Beta") 0 1] /\
  ~ Forall (fun e => (1 <= page_start e)%Z)
           (_extract_table_of_contents unordered_contents) /\
  ~ Sorted (fun a b => (page_start a <= page_start b)%Z)
           (_extract_table_of_contents unordered_contents).
Proof.
  assert (E : _extract_table_of_contents unordered_contents =
              [TocEntry (LInt 1) (py "Alpha") 9 1;
               TocEntry (LInt 2) (py "Beta") 0 1])
    by (vm_compute; reflexivity).
  rewrite E. split; [reflexivity|]. split; intro H.
  - inversion H as [|? ? _ H']; subst.
    inversion H' as [|? ? H0 _]; subst. simpl in H0. lia.
  - inversion H as [|? ? _ Hh]; subst.
    inversion Hh as [|? ? H0]; subst. simpl in H0. lia.
Qed.

End StructureFacts.

(** ** The page-to-chapter resolver *)

Module ResolverFacts.

(** ORDER BY page_start DESC: [a] may come before [b]. *)
Definition by_start_desc (a b : chapter) : Prop :=
  (ch_page_start b <= ch_page_start a)%Z.

Lemma by_start_desc_trans (a b c : chapter) :
  by_start_desc a b -> by_start_desc b c -> by_start_desc a c.
Proof. unfold by_start_desc. lia. Qed.

(** An instance of the ordering: rows with equal keys keep their
    insertion order. *)
Fixpoint insert_desc (c : chapter) (l : list chapter) : list chapter :=
  match l with
  | [] => [c]
  | d :: l' =>
      if (ch_page_start d <=? ch_page_start c)%Z then c :: l
      else d :: insert_desc c l'
  end.

Definition sort_desc (l : list chapter) : list chapter :=
  fold_right insert_desc [] l.

Lemma insert_desc_perm (c : chapter) (l : list chapter) :
  Permutation (c :: l) (insert_desc c l).
Proof.
  induction l as [|d l IH]; simpl; auto.
  destruct (ch_page_start d <=? ch_page_start c)%Z; auto.
  eapply perm_trans; [apply perm_swap|]. now constructor.
Qed.

Lemma sort_desc_perm (l : list chapter) : Permutation l (sort_desc l).
Proof.
  induction l as [|c l IH]; simpl; auto.
  eapply perm_trans; [|apply insert_desc_perm]. now constructor.
Qed.

Lemma insert_desc_sorted (c : chapter) (l : list chapter) :
  Sorted by_start_desc l -> Sorted by_start_desc (insert_desc c l).
Proof.
  induction 1 as [|d l Hs IH Hh]; simpl.
  - repeat constructor.
  - destruct (ch_page_start d <=? ch_page_start c)%Z eqn:E.
    + apply Z.leb_le in E. repeat constructor; auto.
    + apply Z.leb_gt in E. constructor; auto.
      destruct Hh as [|e l' He]; simpl.
      * constructor. unfold by_start_desc. lia.
      * destruct (ch_page_start e <=? ch_page_start c)%Z;
          constructor; auto. unfold by_start_desc. lia.
Qed.

Lemma sort_desc_sorted (l : list chapter) : Sorted by_start_desc (sort_desc l).
Proof.
  induction l as [|c l IH]; simpl; [constructor|].
  now apply insert_desc_sorted.
Qed.

(** The head of a sorted list is before every element of it. *)
Lemma sorted_head (c : chapter) (l : list chapter) :
  Sorted by_start_desc (c :: l) ->
  forall c', In c' (c :: l) -> by_start_desc c c'.
Proof.
  intros H. apply Sorted_StronglySorted in H.
  - inversion H as [|? ? _ HF]; subst.
    intros c' [<-|Hin].
    + unfold by_start_desc. lia.
    + rewrite Forall_forall in HF. auto.
  - intros x y z. apply by_start_desc_trans.
Qed.

Definition qualifies (textbook_id page_num : Z) (c : chapter) : bool :=
  (ch_textbook_id c =? textbook_id)%Z && (ch_page_start c <=? page_num)%Z.

Lemma qualifies_spec (textbook_id page_num : Z) (c : chapter) :
  qualifies textbook_id page_num c = true <->
  ch_textbook_id c = textbook_id /\ (ch_page_start c <= page_num)%Z.
Proof.
  unfold qualifies. rewrite andb_true_iff, Z.eqb_eq, Z.leb_le. tauto.
Qed.

(** The outline of Scenario D, stored for textbook 1. *)
Definition ch_1 : chapter := Chapter 1 1 (py "One") (LInt 1) 1 1.
Definition ch_50 : chapter := Chapter 2 1 (py "Two") (LInt 2) 50 1.
Definition ch_120 : chapter := Chapter 3 1 (py "Three") (LInt 3) 120 1.

Definition scenario_D : database :=
  Database [Textbook 1 completed (Some 200)] [ch_1; ch_50; ch_120] [] [] [] [].

Section Ordering.
Variable order : list chapter -> list chapter.
Hypothesis order_perm : forall l, Permutation l (order l).
Hypothesis order_sorted : forall l, Sorted by_start_desc (order l).

Lemma resolver_some (textbook_id page_num : Z) (db : database) (c : chapter) :
  _find_chapter_for_page order textbook_id page_num db = Some c ->
  In c (db_chapters db) /\
  ch_textbook_id c = textbook_id /\
  (ch_page_start c <= page_num)%Z /\
  (forall c', In c' (db_chapters db) ->
              ch_textbook_id c' = textbook_id ->
              (ch_page_start c' <= page_num)%Z ->
              (ch_page_start c' <= ch_page_start c)%Z).
Proof.
  unfold _find_chapter_for_page.
  fold (qualifies textbook_id page_num).
  set (rows := filter (qualifies textbook_id page_num) (db_chapters db)).
  intro H.
  destruct (order rows) as [|c0 rest] eqn:E; [discriminate|].
  injection H as ->.
  assert (Hc : In c rows).
  { eapply Permutation_in; [apply Permutation_sym, order_perm|].
    rewrite E. now left. }
  apply filter_In in Hc. destruct Hc as [Hin Hq].
  apply qualifies_spec in Hq. destruct Hq as [Ht Hp].
  repeat split; auto.
  intros c' Hin' Ht' Hp'.
  assert (Hc' : In c' (c :: rest)).
  { rewrite <- E. eapply Permutation_in; [apply order_perm|].
    apply filter_In. split; auto. apply qualifies_spec. auto. }
  apply (sorted_head c rest); auto.
  rewrite <- E. apply order_sorted.
Qed.

Lemma resolver_none (textbook_id page_num : Z) (db : database) :
  _find_chapter_for_page order textbook_id page_num db = None ->
  forall c', In c' (db_chapters db) ->
             ch_textbook_id c' = textbook_id ->
             ~ (ch_page_start c' <= page_num)%Z.
Proof.
  unfold _find_chapter_for_page.
  fold (qualifies textbook_id page_num).
  set (rows := filter (qualifies textbook_id page_num) (db_chapters db)).
  intros H c' Hin Ht Hp.
  destruct (order rows) as [|c0 rest] eqn:E; [|discriminate].
  assert (Hc' : In c' (order rows)).
  { eapply Permutation_in; [apply order_perm|].
    apply filter_In. split; auto. apply qualifies_spec. auto. }
  rewrite E in Hc'. destruct Hc'.
Qed.

(** C5 (as amended): the resolver returns an entry of the textbook's
    outline whose start page is at most the page and is the greatest
    such start page, and returns none, without raising, when no entry
    qualifies; which of several entries with that same start page is
    returned is the database's choice.  On the outline with start
    pages 1, 50 and 120, page 75 resolves to the entry starting at 50. *)
Theorem resolver_greatest_start (textbook_id page_num : Z) (db : database) :
  match _find_chapter_for_page order textbook_id page_num db with
  | Some c =>
      In c (db_chapters db) /\
      ch_textbook_id c = textbook_id /\
      (ch_page_start c <= page_num)%Z /\
      (forall c', In c' (db_chapters db) ->
                  ch_textbook_id c' = textbook_id ->
                  (ch_page_start c' <= page_num)%Z ->
                  (ch_page_start c' <= ch_page_start c)%Z)
  | None =>
      forall c', In c' (db_chapters db) ->
                 ch_textbook_id c' = textbook_id ->
                 ~ (ch_page_start c' <= page_num)%Z
  end /\
  _find_chapter_for_page order 1 75 scenario_D = Some ch_50.
Proof.
  split.
  - destruct (_find_chapter_for_page order textbook_id page_num db) eqn:E.
    + now apply resolver_some.
    + now apply resolver_none.
  - destruct (_find_chapter_for_page order 1 75 scenario_D) as [c|] eqn:E.
    + apply resolver_some in E. destruct E as [Hin [_ [Hp Hmax]]].
      assert (H50 : (50 <= ch_page_start c)%Z).
      { apply (Hmax ch_50); simpl; auto. lia. }
      simpl in Hin. destruct Hin as [<-|[<-|[<-|[]]]]; simpl in *;
        solve [reflexivity | lia].
    + exfalso. apply (resolver_none 1 75 scenario_D E ch_1); simpl; auto. lia.
Qed.

End Ordering.

Lemma resolver_greatest_start_witness :
  (forall l, Permutation l (sort_desc l)) /\
  (forall l, Sorted by_start_desc (sort_desc l)) /\
  _find_chapter_for_page sort_desc 1 75 scenario_D = Some ch_50.
Proof.
  split; [exact sort_desc_perm|]. split; [exact sort_desc_sorted|].
  exact (proj2 (resolver_greatest_start sort_desc sort_desc_perm
                                        sort_desc_sorted 1 75 scenario_D)).
Defined.

(** The resolver in the words of the specification: among the entries
    starting at or before the page, the greatest start page, the last
    such entry in recovery order winning a tie. *)
Definition resolve_spec (outline : list chapter) (page_num : Z) : option chapter :=
  fold_left
    (fun best c =>
       if (ch_page_start c <=? page_num)%Z then
         match best with
         | Some b =>
             if (ch_page_start b <=? ch_page_start c)%Z then Some c else best
         | None => Some c
         end
       else best)
    outline None.

Definition tie_first : chapter := Chapter 1 1 (py "Motion") (LInt 1) 5 1.
Definition tie_last : chapter := Chapter 2 1 (py "Forces") (LInt 2) 5 1.

Definition tied_outline : database :=
  Database [Textbook 1 completed (Some 40)] [tie_first; tie_last] [] [] [] [].

(** C5, as stated, fails on a tie: with an ordering that keeps equal
    keys in insertion order, the first entry at the start page is
    returned, not the last. *)
Lemma tie_not_broken_toward_last :
  (forall l, Permutation l (sort_desc l)) /\
  (forall l, Sorted by_start_desc (sort_desc l)) /\
  _find_chapter_for_page sort_desc 1 5 tied_outline = Some tie_first /\
  resolve_spec (db_chapters tied_outline) 5 = Some tie_last /\
  _find_chapter_for_page sort_desc 1 5 tied_outline <>
    resolve_spec (db_chapters tied_outline) 5.
Proof.
  split; [exact sort_desc_perm|]. split; [exact sort_desc_sorted|].
  split; [reflexivity|]. split; [reflexivity|].
  vm_compute. discriminate.
Qed.

End ResolverFacts.

(** ** The pipeline and its processing state *)

Module PipelineFacts.
Import PyStr Db.

(** The rows of [textbooks] are the same documents, and no value has
    been assigned to a [processing_status]. *)
Definition keeps (db db' : database) : Prop :=
  map tb_id (textbooks db') = map tb_id (textbooks db) /\
  status_writes db' = status_writes db.

Lemma keeps_refl (db : database) : keeps db db.
Proof. split; reflexivity. Qed.

Lemma keeps_trans (a b c : database) : keeps a b -> keeps b c -> keeps a c.
Proof. intros [H1 H2] [H3 H4]. split; congruence. Qed.

Definition framed {A : Type} (m : M A) : Prop :=
  forall db, keeps db (fst (m db)).

Lemma framed_ret {A : Type} (a : A) : framed (ret a).
Proof. intro db. apply keeps_refl. Qed.

Lemma framed_lift {A : Type} (r : result A) : framed (lift r).
Proof. intro db. apply keeps_refl. Qed.

Lemma framed_modify (f : database -> database) :
  (forall db, keeps db (f db)) -> framed (modify f).
Proof. intros H db. apply H. Qed.

Lemma framed_bind {A B : Type} (m : M A) (k : A -> M B) :
  framed m -> (forall a, framed (k a)) -> framed (bind m k).
Proof.
  intros Hm Hk db. unfold bind.
  specialize (Hm db). destruct (m db) as [db' [a|e]]; simpl in *; auto.
  eapply keeps_trans; [exact Hm | apply Hk].
Qed.

Lemma commit_keeps (db : database) : keeps db (commit db).
Proof. split; reflexivity. Qed.

Lemma add_question_keeps (q : question) (db : database) :
  keeps db (add_question q db).
Proof. split; reflexivity. Qed.

Lemma add_chapter_keeps (c : chapter) (db : database) :
  keeps db (add_chapter c db).
Proof. split; reflexivity. Qed.

Lemma fold_keeps {A : Type} (f : database -> A -> database) (l : list A) :
  (forall db a, keeps db (f db a)) ->
  forall db, keeps db (fold_left f l db).
Proof.
  intro H. induction l as [|a l IH]; intro db; simpl.
  - apply keeps_refl.
  - eapply keeps_trans; [apply H | apply IH].
Qed.

Lemma update_first_ids (textbook_id : Z) (f : textbook -> textbook)
      (ts : list textbook) :
  (forall t, tb_id (f t) = tb_id t) ->
  map tb_id (update_first textbook_id f ts) = map tb_id ts.
Proof.
  intro Hf. induction ts as [|t ts IH]; simpl; auto.
  destruct (has_id textbook_id t); simpl; [now rewrite Hf | now rewrite IH].
Qed.

Lemma set_total_pages_keeps (textbook_id : Z) (n : nat) (db : database) :
  keeps db (set_total_pages textbook_id n db).
Proof.
  split; [|reflexivity]. simpl. now apply update_first_ids.
Qed.

Lemma set_status_ids (textbook_id : Z) (s : status) (db : database) :
  map tb_id (textbooks (set_status textbook_id s db)) =
  map tb_id (textbooks db).
Proof. simpl. now apply update_first_ids. Qed.

(** The row of a document is found exactly when its id is stored. *)
Lemma first_textbook_known (textbook_id : Z) (db : database) :
  first_textbook textbook_id db <> None <->
  In textbook_id (map tb_id (textbooks db)).
Proof.
  unfold first_textbook. induction (textbooks db) as [|t ts IH]; simpl.
  - split; [congruence | tauto].
  - unfold has_id at 1. destruct (tb_id t =? textbook_id)%Z eqn:E.
    + apply Z.eqb_eq in E. split; [auto | discriminate].
    + apply Z.eqb_neq in E. rewrite IH. split; [auto | intros [H|H]; tauto].
Qed.

Lemma status_after_write (textbook_id : Z) (s : status) (db : database) :
  first_textbook textbook_id db <> None ->
  status_of textbook_id (commit (set_status textbook_id s db)) = Some s.
Proof.
  unfold status_of, first_textbook. simpl.
  induction (textbooks db) as [|t ts IH]; simpl; [congruence|].
  destruct (has_id textbook_id t) eqn:E; simpl.
  - unfold has_id in *. simpl. now rewrite E.
  - rewrite E. exact IH.
Qed.

Section Run.
Variable order : list chapter -> list chapter.
Variable extract_page : str -> Z -> result (list candidate).

Lemma extract_pages_framed (pages_text : list page_data) (textbook_id : Z) :
  forall found, framed (extract_pages order extract_page pages_text textbook_id found).
Proof.
  induction pages_text as [|pd rest IH]; intro found; simpl.
  - apply framed_ret.
  - destruct (pd_text pd) as [|c t] eqn:E; [apply IH|].
    intro db. apply framed_bind; [apply framed_lift|].
    intro qs. apply framed_bind; [|intros _; apply IH].
    apply framed_modify. apply fold_keeps.
    intros; apply add_question_keeps.
Qed.

Lemma extract_questions_from_text_framed (pages_text : list page_data)
      (textbook_id start_page : Z) :
  framed (extract_questions_from_text order extract_page pages_text
                                      textbook_id start_page).
Proof.
  unfold extract_questions_from_text.
  apply framed_bind; [apply extract_pages_framed|].
  intro found. destruct (0 <? found).
  - apply framed_modify, commit_keeps.
  - apply framed_ret.
Qed.

Lemma process_chunks_framed (file : pdf_file) (textbook_id : Z)
      (total : nat) (starts : list nat) :
  framed (process_chunks order extract_page file textbook_id total starts).
Proof.
  induction starts as [|s rest IH]; simpl.
  - apply framed_ret.
  - apply framed_bind; [apply framed_lift|]. intro chunk_text.
    apply framed_bind; [apply extract_questions_from_text_framed|].
    intros _. exact IH.
Qed.

Lemma store_chapters_keeps (toc : list toc_entry) (textbook_id : Z)
      (db : database) :
  keeps db (_store_chapters toc textbook_id db).
Proof.
  unfold _store_chapters.
  set (added := fold_left _ toc db).
  assert (K : keeps db added).
  { apply fold_keeps. intros; apply add_chapter_keeps. }
  destruct (flush_chapters added).
  - eapply keeps_trans; [exact K | apply commit_keeps].
  - eapply keeps_trans; [exact K | split; reflexivity].
Qed.

(** What the "try:" of [process_pdf] leaves behind. *)
Lemma try_outcome (file : pdf_file) (textbook_id : Z) (db : database) :
  match process_pdf_try order extract_page file textbook_id db with
  | (db', Ok b) =>
      b = true /\
      first_textbook textbook_id db <> None /\
      map tb_id (textbooks db') = map tb_id (textbooks db) /\
      status_writes db' =
        status_writes db ++ [(textbook_id, processing); (textbook_id, completed)]
  | (db', Raise _) =>
      (first_textbook textbook_id db = None /\ db' = db) \/
      (first_textbook textbook_id db <> None /\
       map tb_id (textbooks db') = map tb_id (textbooks db) /\
       status_writes db' = status_writes db ++ [(textbook_id, processing)])
  end.
Proof.
  unfold process_pdf_try.
  destruct (first_textbook textbook_id db) as [tb|] eqn:Ef; [|left; auto].
  unfold bind, modify, lift, ret.
  set (db1 := commit (set_status textbook_id processing db)).
  assert (H1 : map tb_id (textbooks db1) = map tb_id (textbooks db) /\
               status_writes db1 = status_writes db ++ [(textbook_id, processing)]).
  { split; [apply set_status_ids | reflexivity]. }
  destruct H1 as [I1 W1].
  destruct (reader_page_count file) as [total|e].
  2:{ right. split; [congruence|]. split; assumption. }
  set (db2 := commit (set_total_pages textbook_id total db1)).
  assert (K2 : keeps db1 db2).
  { eapply keeps_trans; [apply set_total_pages_keeps | apply commit_keeps]. }
  set (db3 := match Structure._extract_table_of_contents file with
              | [] => db2
              | _ :: _ =>
                  _store_chapters (Structure._extract_table_of_contents file)
                                  textbook_id db2
              end).
  assert (K3 : keeps db2 db3).
  { unfold db3. destruct (Structure._extract_table_of_contents file).
    - apply keeps_refl.
    - apply store_chapters_keeps. }
  pose proof (process_chunks_framed file textbook_id total
                                    (chunk_starts total) db3) as K4.
  destruct (process_chunks order extract_page file textbook_id total
                           (chunk_starts total) db3) as [db4 [u|e]];
    simpl in K4.
  - destruct (keeps_trans _ _ _ (keeps_trans _ _ _ K2 K3) K4) as [I4 W4].
    split; [reflexivity|]. split; [congruence|]. split.
    + simpl. rewrite update_first_ids by reflexivity. congruence.
    + simpl. rewrite W4, W1, <- app_assoc. reflexivity.
  - destruct (keeps_trans _ _ _ (keeps_trans _ _ _ K2 K3) K4) as [I4 W4].
    right. split; [congruence|]. split; congruence.
Qed.

(** *** The processing-state machine *)

Inductive forward : status -> status -> Prop :=
| begin_processing : forward pending processing
| complete : forward processing completed
| fail : forward processing failed.

(** The values written one after the other, from state [s]. *)
Fixpoint chain (s : status) (written : list status) : Prop :=
  match written with
  | [] => True
  | w :: rest => forward s w /\ chain w rest
  end.

Lemma completed_terminal (s : status) : ~ forward completed s.
Proof. inversion 1. Qed.

Lemma failed_terminal (s : status) : ~ forward failed s.
Proof. inversion 1. Qed.

(** C6: the values [process_pdf] assigns to the document's processing
    state are none (no such textbook row), or processing then
    completed, or processing then failed: from pending they only move
    forward, and nothing is written after completed or failed. *)
Theorem status_moves_forward (file : pdf_file) (textbook_id : Z)
        (db : database) :
  exists written,
    status_writes (fst (process_pdf order extract_page file textbook_id db)) =
      status_writes db ++ map (pair textbook_id) written /\
    (written = [] \/ written = [processing; completed] \/
     written = [processing; failed]) /\
    chain pending written.
Proof.
  unfold process_pdf.
  pose proof (try_outcome file textbook_id db) as H.
  destruct (process_pdf_try order extract_page file textbook_id db)
    as [db' [b|e]].
  - destruct H as [_ [_ [_ W]]].
    exists [processing; completed]. simpl. split; [exact W|].
    split; [auto|]. repeat constructor.
  - destruct H as [[Hn ->]|[Hk [I W]]].
    + rewrite Hn. exists []. simpl. rewrite app_nil_r.
      split; [reflexivity|]. split; [auto | exact I].
    + assert (Hk' : first_textbook textbook_id db' <> None).
      { apply first_textbook_known. rewrite I.
        now apply first_textbook_known. }
      destruct (first_textbook textbook_id db'); [|congruence].
      exists [processing; failed]. simpl. rewrite W, <- app_assoc.
      split; [reflexivity|]. split; [auto|]. repeat constructor.
Qed.

End Run.

(** *** A document of three pages, and its row *)

Definition plain_page : str := py "A page without any question.".

Definition three_pages : pdf_file :=
  pdf_of_texts [py "Motion is a change of position over time.";
                plain_page;
                py "Summary. 1. What is the unit of force in the metric system? Read on."].

Definition uploaded : database :=
  Database [Textbook 1 pending None] [] [] [] [] [].

End PipelineFacts.

(** * Further properties of the extraction code *)

(** ** Duplicate removal in scattered mode *)

Module DedupFacts.
Import PyStr Re QuestionExtractor.

(** The key under which a question is remembered as seen. *)
Definition dedup_key (t : str) : str := lower (firstn 50 t).

Lemma str_eqb_eq (a b : str) : str_eqb a b = true <-> a = b.
Proof.
  unfold str_eqb. destruct (list_eq_dec ascii_dec a b); split; congruence.
Qed.

Lemma seen_spec (key : str) (seen : list str) :
  existsb (str_eqb key) seen = true <-> In key seen.
Proof.
  rewrite existsb_exists. split.
  - intros [x [Hin Hx]]. apply str_eqb_eq in Hx. now subst.
  - intro H. exists key. split; [exact H | now apply str_eqb_eq].
Qed.

Lemma unique_cons (seen : list str) (a : raw_question) (qs : list raw_question) :
  unique seen (a :: qs) =
    if existsb (str_eqb (dedup_key (raw_text a))) seen then unique seen qs
    else a :: unique (dedup_key (raw_text a) :: seen) qs.
Proof. reflexivity. Qed.

Lemma unique_fresh (seen : list str) (qs : list raw_question) (q : raw_question) :
  In q (unique seen qs) -> ~ In (dedup_key (raw_text q)) seen.
Proof.
  revert seen. induction qs as [|a qs IH]; intros seen; [simpl; tauto|].
  rewrite unique_cons.
  destruct (existsb (str_eqb (dedup_key (raw_text a))) seen) eqn:E.
  - apply IH.
  - intros [<-|H].
    + intro Hin. apply seen_spec in Hin. congruence.
    + intro Hin. apply (IH _ H). now right.
Qed.

Lemma unique_keys_nodup (seen : list str) (qs : list raw_question) :
  NoDup (map (fun q => dedup_key (raw_text q)) (unique seen qs)).
Proof.
  revert seen. induction qs as [|a qs IH]; intros seen; [constructor|].
  rewrite unique_cons.
  destruct (existsb (str_eqb (dedup_key (raw_text a))) seen); [apply IH|].
  cbn [map]. constructor; [|apply IH].
  intro Hin. apply in_map_iff in Hin. destruct Hin as [q [Hk Hq]].
  apply unique_fresh in Hq. apply Hq. rewrite Hk. now left.
Qed.

(** A list without repeated or seen keys is left as it is. *)
Lemma unique_fixed (seen : list str) (qs : list raw_question) :
  NoDup (map (fun q => dedup_key (raw_text q)) qs) ->
  (forall q, In q qs -> ~ In (dedup_key (raw_text q)) seen) ->
  unique seen qs = qs.
Proof.
  revert seen. induction qs as [|a qs IH]; intros seen Hnd Hseen; auto.
  rewrite unique_cons.
  destruct (existsb (str_eqb (dedup_key (raw_text a))) seen) eqn:E.
  - apply seen_spec in E. exfalso. apply (Hseen a); [now left | exact E].
  - f_equal. cbn [map] in Hnd. inversion Hnd as [|? ? Hnot Hnd']; subst.
    apply IH; auto.
    intros q Hq [Hk|Hin].
    + apply Hnot. apply in_map_iff. exists q. split; [now symmetry | exact Hq].
    + apply (Hseen q); [now right | exact Hin].
Qed.

(** X1: the questions returned by scattered-mode extraction have pairwise
    different keys, the key of a question being the lower-cased first 50
    characters of its text. *)
Theorem scattered_keys_distinct (t : str) (lines : list str) :
  NoDup (map (fun q => lower (firstn 50 (raw_text q)))
             (_extract_scattered_questions t lines)).
Proof.
  unfold _extract_scattered_questions.
  exact (unique_keys_nodup [] (flat_map (matches_of t) question_patterns)).
Qed.

(** X2: duplicate removal is idempotent: removing duplicates from a list
    that went through it changes nothing. *)
Theorem unique_idempotent (qs : list raw_question) :
  unique [] (unique [] qs) = unique [] qs.
Proof.
  apply unique_fixed.
  - apply unique_keys_nodup.
  - intros q _ [].
Qed.

(** A question is dropped only when an earlier one has its key. *)
Lemma unique_keeps_first (seen : list str) (qs : list raw_question)
      (q : raw_question) :
  In q qs ->
  In (dedup_key (raw_text q)) seen \/
  In (dedup_key (raw_text q))
     (map (fun q => dedup_key (raw_text q)) (unique seen qs)).
Proof.
  revert seen. induction qs as [|a qs IH]; intros seen; [simpl; tauto|].
  rewrite unique_cons.
  intros [->|Hin].
  - destruct (existsb (str_eqb (dedup_key (raw_text q))) seen) eqn:E.
    + left. now apply seen_spec.
    + right. cbn [map]. now left.
  - destruct (existsb (str_eqb (dedup_key (raw_text a))) seen) eqn:E.
    + apply IH, Hin.
    + destruct (IH (dedup_key (raw_text a) :: seen) Hin) as [[H|H]|H].
      * right. cbn [map]. left. exact H.
      * now left.
      * right. cbn [map]. right. exact H.
Qed.

(** X3: duplicate removal loses no key: every validated match of
    scattered mode has its key among the keys of the questions returned. *)
Theorem scattered_keeps_every_key (t : str) (lines : list str)
        (q : raw_question) :
  In q (flat_map (matches_of t) question_patterns) ->
  In (lower (firstn 50 (raw_text q)))
     (map (fun q => lower (firstn 50 (raw_text q)))
          (_extract_scattered_questions t lines)).
Proof.
  intro H. unfold _extract_scattered_questions.
  destruct (unique_keeps_first [] _ q H) as [[]|H']. exact H'.
Qed.

Definition repeated_question_page : str :=
  py "Start. 1. What is the unit of force? Later on, 2. what is the UNIT of force? End.".

Lemma scattered_keeps_every_key_witness :
  In (RawQ (py "what is the UNIT of force?") None)
     (flat_map (matches_of repeated_question_page) question_patterns) /\
  _extract_scattered_questions repeated_question_page [] =
    [RawQ (py "What is the unit of force?") None] /\
  In (lower (firstn 50 (py "what is the UNIT of force?")))
     (map (fun q => lower (firstn 50 (raw_text q)))
          (_extract_scattered_questions repeated_question_page [])).
Proof.
  assert (H : In (RawQ (py "what is the UNIT of force?") None)
                 (flat_map (matches_of repeated_question_page) question_patterns)).
  { vm_compute. right. left. reflexivity. }
  split; [exact H|]. split; [vm_compute; reflexivity|].
  exact (scattered_keeps_every_key repeated_question_page []
           (RawQ (py "what is the UNIT of force?") None) H).
Defined.

End DedupFacts.

(** ** The context of a question *)

Module ContextFacts.
Import PyStr QuestionExtractor PyStrFacts.

Lemma startswith_app (t p : str) :
  startswith t p = true -> exists r, t = p ++ r.
Proof.
  revert t. induction p as [|a p IH]; intros t; simpl.
  - intros _. now exists t.
  - destruct t as [|b t]; [discriminate|].
    intro H. apply andb_true_iff in H. destruct H as [Hab Hp].
    apply Ascii.eqb_eq in Hab. subst b.
    destruct (IH t Hp) as [r ->]. now exists r.
Qed.

Lemma contains_nil (sub : str) : contains sub [] = startswith [] sub.
Proof. simpl. apply orb_false_r. Qed.

Lemma contains_cons (sub : str) (a : ascii) (t : str) :
  contains sub (a :: t) = startswith (a :: t) sub || contains sub t.
Proof. reflexivity. Qed.

Lemma find_from_nil (i : Z) (sub : str) :
  find_from i sub [] = if startswith [] sub then i else (-1)%Z.
Proof. reflexivity. Qed.

Lemma find_from_cons (i : Z) (sub : str) (a : ascii) (t : str) :
  find_from i sub (a :: t) =
    if startswith (a :: t) sub then i else find_from (i + 1)%Z sub t.
Proof. reflexivity. Qed.

Lemma find_from_absent (t : str) (i : Z) (sub : str) :
  contains sub t = false -> find_from i sub t = (-1)%Z.
Proof.
  revert i. induction t as [|a t IH]; intros i.
  - rewrite contains_nil, find_from_nil. now intros ->.
  - rewrite contains_cons, find_from_cons. intro H.
    apply orb_false_iff in H. destruct H as [-> H]. now apply IH.
Qed.

(** [find] returns the offset of an occurrence. *)
Lemma find_from_found (t : str) (i : Z) (sub : str) :
  contains sub t = true ->
  exists k rest,
    find_from i sub t = (i + Z.of_nat k)%Z /\
    k <= List.length t /\
    skipn k t = sub ++ rest.
Proof.
  revert i. induction t as [|a t IH]; intros i.
  - rewrite contains_nil, find_from_nil. intro H. rewrite H.
    destruct (startswith_app [] sub H) as [r Hr].
    exists 0, r. repeat split; [lia | simpl; lia | exact Hr].
  - rewrite contains_cons, find_from_cons.
    destruct (startswith (a :: t) sub) eqn:E.
    + intros _. destruct (startswith_app _ _ E) as [r Hr].
      exists 0, r. repeat split; [lia | simpl; lia | exact Hr].
    + simpl. intro H. destruct (IH (i + 1)%Z H) as [k [r [Hf [Hk Hs]]]].
      exists (S k), r. repeat split; [lia | simpl; lia | exact Hs].
Qed.

Lemma lstrip_length (t : str) : List.length (lstrip t) <= List.length t.
Proof.
  induction t as [|a t IH]; simpl; auto.
  destruct (is_space a); simpl; lia.
Qed.

Lemma rstrip_length (t : str) : List.length (rstrip t) <= List.length t.
Proof.
  induction t as [|a t IH]; simpl; auto.
  destruct (rstrip t); [destruct (is_space a)|]; simpl in *; lia.
Qed.

Lemma rstrip_cons (a : ascii) (t : str) :
  rstrip (a :: t) =
    match rstrip t with
    | [] => if is_space a then [] else [a]
    | r => a :: r
    end.
Proof. reflexivity. Qed.

(** Blanks after a text that ends in a non-blank are all that goes. *)
Lemma rstrip_after (y b : str) :
  y <> [] -> rstrip y = y -> rstrip (y ++ b) = y ++ rstrip b.
Proof.
  induction y as [|a y IH]; [congruence|]. intros _ Hy.
  rewrite rstrip_cons in Hy. cbn [app]. rewrite rstrip_cons.
  destruct y as [|a' y'].
  - simpl in Hy. destruct (is_space a) eqn:Ea; [discriminate|].
    simpl. destruct (rstrip b); reflexivity.
  - destruct (rstrip (a' :: y')) as [|r0 r] eqn:Er.
    + destruct (is_space a); discriminate.
    + injection Hy as Hy. rewrite IH; [|discriminate | congruence].
      reflexivity.
Qed.

Lemma rstrip_before (x w : str) :
  rstrip w <> [] -> rstrip (x ++ w) = x ++ rstrip w.
Proof.
  intro Hw. induction x as [|a x IH]; [reflexivity|].
  cbn [app]. rewrite rstrip_cons, IH.
  destruct (x ++ rstrip w) eqn:E; [|reflexivity].
  apply app_eq_nil in E. tauto.
Qed.

Lemma lstrip_before (x z : str) (c : ascii) :
  is_space c = false -> lstrip (x ++ c :: z) = lstrip x ++ c :: z.
Proof.
  intro Hc. induction x as [|a x IH]; simpl.
  - now rewrite Hc.
  - destruct (is_space a); [exact IH | reflexivity].
Qed.

Lemma strip_around (x q y : str) :
  q <> [] -> strip q = q ->
  strip (x ++ q ++ y) = lstrip x ++ q ++ rstrip y.
Proof.
  intros Hne Hq.
  assert (Hr : rstrip q = q).
  { rewrite <- Hq at 2. unfold strip.
    rewrite <- (rstrip_lstrip_fix (rstrip q) (rstrip_fix q)).
    fold (strip q). now rewrite Hq. }
  destruct q as [|c z] eqn:Eq; [congruence|].
  assert (Hc : is_space c = false) by (apply (strip_head (c :: z) c z Hq)).
  unfold strip.
  rewrite rstrip_before.
  - rewrite rstrip_after by (auto; discriminate).
    cbn [app]. now rewrite lstrip_before.
  - rewrite rstrip_after by (auto; discriminate). discriminate.
Qed.

(** The slice taken around an occurrence at offset [k]. *)
Lemma slice_around (full q rest : str) (k : nat) :
  k <= List.length full ->
  skipn k full = q ++ rest ->
  exists x y,
    slice (k - 200) (Nat.min (List.length full) (k + List.length q + 200)) full =
      x ++ q ++ y /\
    List.length x <= 200 /\ List.length y <= 200.
Proof.
  intros Hk Hs.
  assert (Hfull : full = firstn k full ++ q ++ rest).
  { rewrite <- Hs. symmetry. apply firstn_skipn. }
  assert (Hlen : List.length full = k + List.length q + List.length rest).
  { rewrite Hfull at 1. rewrite !length_app, firstn_length_le by exact Hk. lia. }
  set (A := firstn k full) in *.
  assert (HA : List.length A = k) by (apply firstn_length_le; exact Hk).
  set (b := Nat.min (List.length full) (k + List.length q + 200)).
  exists (skipn (k - 200) A), (firstn (b - k - List.length q) rest).
  split; [|split].
  - unfold slice. rewrite Hfull at 1.
    rewrite skipn_app.
    replace (k - 200 - List.length A) with 0 by lia. cbn [skipn].
    rewrite firstn_app, length_skipn.
    rewrite (firstn_all2 (n := b - (k - 200)))
      by (rewrite length_skipn; unfold b; lia).
    f_equal.
    rewrite firstn_app.
    rewrite (firstn_all2 (n := b - (k - 200) - (List.length A - (k - 200))))
      by (unfold b; lia).
    f_equal. f_equal. unfold b. lia.
  - rewrite length_skipn. lia.
  - pose proof (firstn_le_length (b - k - List.length q) rest). unfold b in *. lia.
Qed.

Lemma context_of_found (q full : str) :
  q <> [] -> strip q = q -> contains q full = true ->
  exists before after,
    _get_question_context q full = before ++ q ++ after /\
    List.length before <= 200 /\ List.length after <= 200.
Proof.
  intros Hne Hq Hc.
  destruct (find_from_found full 0 q Hc) as [k [rest [Hf [Hk Hs]]]].
  unfold _get_question_context, find. rewrite Hf.
  replace ((0 + Z.of_nat k =? -1)%Z) with false by (symmetry; apply Z.eqb_neq; lia).
  replace (Z.to_nat (Z.max 0 (0 + Z.of_nat k - 200))) with (k - 200) by lia.
  replace (Z.to_nat (Z.min (Z.of_nat (List.length full))
                           (0 + Z.of_nat k + Z.of_nat (List.length q) + 200)))
    with (Nat.min (List.length full) (k + List.length q + 200)) by lia.
  destruct (slice_around full q rest k Hk Hs) as [x [y [-> [Hx Hy]]]].
  rewrite strip_around by assumption.
  exists (lstrip x), (rstrip y). split; [reflexivity|].
  pose proof (lstrip_length x). pose proof (rstrip_length y). lia.
Qed.

(** X4: when a trimmed, non-empty question text occurs in the page, its
    context is the question with at most 200 characters before it and at
    most 200 after it. *)
Theorem context_window (q full : str) :
  q <> [] -> strip q = q -> contains q full = true ->
  exists before after,
    _get_question_context q full = before ++ q ++ after /\
    List.length before <= 200 /\ List.length after <= 200.
Proof.
  intros Hne Hq Hc. exact (context_of_found q full Hne Hq Hc).
Qed.

Definition tide_question : str := py "Why do tides follow the moon?".
Definition tide_page : str :=
  py "   Oceans rise and fall twice a day. Why do tides follow the moon? Gravity.   ".

Lemma context_window_witness :
  tide_question <> [] /\
  strip tide_question = tide_question /\
  contains tide_question tide_page = true /\
  exists before after,
    _get_question_context tide_question tide_page =
      before ++ tide_question ++ after /\
    List.length before <= 200 /\ List.length after <= 200.
Proof.
  assert (H1 : tide_question <> []) by (vm_compute; discriminate).
  assert (H2 : strip tide_question = tide_question) by (vm_compute; reflexivity).
  assert (H3 : contains tide_question tide_page = true) by (vm_compute; reflexivity).
  split; [exact H1|]. split; [exact H2|]. split; [exact H3|].
  exact (context_window tide_question tide_page H1 H2 H3).
Defined.

(** X5: the context of a trimmed, non-empty question text is empty
    exactly when the text does not occur in the page (as for an exercise
    question joined from several lines). *)
Theorem context_empty_iff_absent (q full : str) :
  q <> [] -> strip q = q ->
  (_get_question_context q full = [] <-> contains q full = false).
Proof.
  intros Hne Hq. split.
  - intro He. destruct (contains q full) eqn:Hc; [|reflexivity].
    destruct (context_of_found q full Hne Hq Hc) as [x [y [E _]]].
    rewrite He in E. symmetry in E.
    apply app_eq_nil in E. destruct E as [_ E].
    apply app_eq_nil in E. destruct E as [E _]. congruence.
  - intro Hc. unfold _get_question_context, find.
    now rewrite (find_from_absent full 0 q Hc).
Qed.

Definition two_line_page : str := py "Exercises
1. Why do tides
follow the moon?".

Lemma context_empty_iff_absent_witness :
  py "Why do tides follow the moon?" <> [] /\
  strip (py "Why do tides follow the moon?") = py "Why do tides follow the moon?" /\
  _extract_questions_from_page two_line_page 1 =
    Ok [Candidate (py "Why do tides follow the moon?") (Some (py "1")) []
                  short_answer] /\
  (_get_question_context (py "Why do tides follow the moon?") two_line_page = [] <->
   contains (py "Why do tides follow the moon?") two_line_page = false).
Proof.
  assert (H1 : py "Why do tides follow the moon?" <> []) by (vm_compute; discriminate).
  assert (H2 : strip (py "Why do tides follow the moon?") =
               py "Why do tides follow the moon?") by (vm_compute; reflexivity).
  split; [exact H1|]. split; [exact H2|]. split; [vm_compute; reflexivity|].
  exact (context_empty_iff_absent (py "Why do tides follow the moon?")
                                  two_line_page H1 H2).
Defined.

End ContextFacts.

(** ** Exercise-section mode: numbered lines *)

Module ExerciseFacts.
Import PyStr Re QuestionExtractor.

(** A line that opens a question: "<number>. " or "<number>) ". *)
Definition opens_question (line : str) : bool :=
  match re_match no_flags question_start (strip line) with
  | Some _ => true
  | None => false
  end.

Lemma ex_step_unnumbered (st : ex_state) (line : str) :
  opens_question line = false ->
  current_question st = [] ->
  ex_step st line = st.
Proof.
  unfold opens_question, ex_step. intros Hm Hc.
  destruct (negb (nonempty (strip line))); [reflexivity|].
  destruct (re_match no_flags question_start (strip line)); [discriminate|].
  now rewrite Hc.
Qed.

Lemma exercise_unnumbered (t : str) (lines : list str) :
  (forall l, In l lines -> opens_question l = false) ->
  _extract_from_exercise_section t lines = [].
Proof.
  intro H. unfold _extract_from_exercise_section.
  assert (G : fold_left ex_step lines (ExState [] [] None) = ExState [] [] None).
  { induction lines as [|l ls IH]; [reflexivity|].
    cbn [fold_left]. rewrite ex_step_unnumbered; auto; [|apply H; now left].
    apply IH. intros l' Hl. apply H. now right. }
  rewrite G. reflexivity.
Qed.

(** X6: a page handled in exercise-section mode on which no line opens
    with a number followed by "." or ")" and a blank yields no candidate,
    whatever questions its lines hold. *)
Theorem unnumbered_exercise_page_yields_nothing (t : str) (n : Z) :
  _is_exercise_section t = Ok true ->
  (forall l, In l (split_on newline t) -> opens_question l = false) ->
  _extract_questions_from_page t n = Ok [].
Proof.
  intros Hm Hl. unfold _extract_questions_from_page. rewrite Hm.
  now rewrite exercise_unnumbered.
Qed.

Definition unnumbered_page : str := py "Review Questions
What is gravity?
Why do objects fall?".

Lemma unnumbered_exercise_page_yields_nothing_witness :
  _is_exercise_section unnumbered_page = Ok true /\
  (forall l, In l (split_on newline unnumbered_page) -> opens_question l = false) /\
  _extract_questions_from_page unnumbered_page 4 = Ok [].
Proof.
  assert (H1 : _is_exercise_section unnumbered_page = Ok true)
    by (vm_compute; reflexivity).
  assert (H2 : forall l, In l (split_on newline unnumbered_page) ->
                         opens_question l = false).
  { intros l Hl. vm_compute in Hl.
    destruct Hl as [<-|[<-|[<-|[]]]]; vm_compute; reflexivity. }
  split; [exact H1|]. split; [exact H2|].
  exact (unnumbered_exercise_page_yields_nothing unnumbered_page 4 H1 H2).
Defined.

(** The number and the rest of a line that opens a question: groups 1
    and 2 of the match. *)
Definition line_number (line : str) : option str :=
  match re_match no_flags question_start (strip line) with
  | Some m => Some (group (strip line) m 1)
  | None => None
  end.

Definition line_rest (line : str) : str :=
  match re_match no_flags question_start (strip line) with
  | Some m => group (strip line) m 2
  | None => []
  end.

(** The buffer after the lines that follow the opening line and open no
    question themselves: a blank line is skipped, another is joined with
    a space, to a buffer that is not empty. *)
Definition continue_with (current_question : str) (lines : list str) : str :=
  fold_left
    (fun current_question line =>
       let line := strip line in
       if negb (nonempty line) then current_question
       else if nonempty current_question
            then current_question ++ py " " ++ line
            else current_question)
    lines current_question.

(** The lines from [l] to the next line that opens a question, or to
    the end of the page: [l] opens a question and [conts] are the lines
    after it that belong to the same question. *)
Definition block (lines : list str) (l : str) (conts : list str) : Prop :=
  exists before after,
    lines = before ++ l :: conts ++ after /\
    opens_question l = true /\
    Forall (fun x => opens_question x = false) conts /\
    (after = [] \/ exists l' r, after = l' :: r /\ opens_question l' = true).

(** A question made of a block of the page. *)
Definition made_of (lines : list str) (q : raw_question) : Prop :=
  exists l conts,
    block lines l conts /\
    raw_number q = line_number l /\
    raw_number q <> None /\
    raw_text q = strip (continue_with (line_rest l) conts).

Lemma blank_opens_nothing : re_match no_flags question_start [] = None.
Proof. reflexivity. Qed.

Lemma ex_step_opening (st : ex_state) (line : str) :
  opens_question line = true ->
  ex_step st line = ExState (ex_flush st) (line_rest line) (line_number line).
Proof.
  unfold opens_question, ex_step, line_rest, line_number. intro H.
  destruct (strip line) as [|c r] eqn:E.
  - rewrite blank_opens_nothing in H. discriminate.
  - cbn [nonempty negb].
    destruct (re_match no_flags question_start (c :: r)); [reflexivity|].
    discriminate.
Qed.

Lemma ex_step_continuing (st : ex_state) (line : str) :
  opens_question line = false ->
  ex_step st line =
    ExState (ex_questions st) (continue_with (current_question st) [line])
            (question_number st).
Proof.
  unfold opens_question, ex_step, continue_with. intro H. cbn [fold_left].
  destruct st as [qs cur num]. cbn [ex_questions current_question question_number].
  destruct (negb (nonempty (strip line))); [reflexivity|].
  destruct (re_match no_flags question_start (strip line)); [discriminate|].
  destruct (nonempty cur); reflexivity.
Qed.

Lemma continue_with_snoc (cur : str) (conts : list str) (x : str) :
  continue_with (continue_with cur conts) [x] = continue_with cur (conts ++ [x]).
Proof. unfold continue_with. now rewrite fold_left_app. Qed.

Lemma continue_with_empty (x : str) : continue_with [] [x] = [].
Proof.
  unfold continue_with. cbn [fold_left nonempty].
  now destruct (negb (nonempty (strip x))).
Qed.

Lemma opening_numbered (l : str) :
  opens_question l = true -> line_number l <> None.
Proof.
  unfold opens_question, line_number.
  destruct (re_match no_flags question_start (strip l)); discriminate.
Qed.

(** A question whose block has been closed by a later opening line. *)
Definition closed (processed : list str) (q : raw_question) : Prop :=
  exists before l conts l' r,
    processed = before ++ l :: conts ++ l' :: r /\
    opens_question l = true /\
    Forall (fun x => opens_question x = false) conts /\
    opens_question l' = true /\
    raw_number q = line_number l /\
    raw_text q = strip (continue_with (line_rest l) conts).

(** The buffer, when it is not empty, is that of the last opening line
    met and of the lines after it. *)
Definition open_block (processed : list str) (st : ex_state) : Prop :=
  current_question st <> [] ->
  exists before l conts,
    processed = before ++ l :: conts /\
    opens_question l = true /\
    Forall (fun x => opens_question x = false) conts /\
    question_number st = line_number l /\
    current_question st = continue_with (line_rest l) conts.

Definition tracked (processed : list str) (st : ex_state) : Prop :=
  Forall (closed processed) (ex_questions st) /\ open_block processed st.

Lemma closed_later (processed : list str) (x : str) (q : raw_question) :
  closed processed q -> closed (processed ++ [x]) q.
Proof.
  intros [before [l [conts [l' [r [E H]]]]]].
  exists before, l, conts, l', (r ++ [x]). split; [|exact H].
  rewrite E, <- !app_assoc. cbn [app]. rewrite <- app_assoc. reflexivity.
Qed.

Lemma ex_flush_closed (processed : list str) (st : ex_state) (x : str) :
  tracked processed st -> opens_question x = true ->
  Forall (closed (processed ++ [x])) (ex_flush st).
Proof.
  intros [Hq Hc] Hx.
  assert (Hq' : Forall (closed (processed ++ [x])) (ex_questions st)).
  { eapply Forall_impl; [|exact Hq]. intro q. apply closed_later. }
  unfold ex_flush.
  destruct (nonempty (current_question st)) eqn:En; [|exact Hq'].
  destruct (contains [question_mark] (current_question st)); [|exact Hq'].
  cbn [andb]. apply Forall_app. split; [exact Hq'|].
  constructor; [|constructor].
  assert (Hne : current_question st <> []).
  { intro E. rewrite E in En. discriminate. }
  destruct (Hc Hne) as [before [l [conts [E [Hl [Hn [Hnum Hcur]]]]]]].
  exists before, l, conts, x, []. cbn [raw_number raw_text].
  split; [rewrite E, <- app_assoc; reflexivity|].
  split; [exact Hl|]. split; [exact Hn|]. split; [exact Hx|].
  split; [exact Hnum | now rewrite Hcur].
Qed.

Lemma ex_step_tracked (processed : list str) (st : ex_state) (x : str) :
  tracked processed st -> tracked (processed ++ [x]) (ex_step st x).
Proof.
  intro H. destruct (opens_question x) eqn:Hx.
  - rewrite (ex_step_opening st x Hx). split.
    + cbn [ex_questions]. now apply ex_flush_closed.
    + intros _. exists processed, x, []. repeat split; auto.
  - rewrite (ex_step_continuing st x Hx). destruct H as [Hq Hc]. split.
    + cbn [ex_questions]. eapply Forall_impl; [|exact Hq].
      intro q. apply closed_later.
    + intro Hne. cbn [current_question question_number] in *.
      assert (Hne0 : current_question st <> []).
      { intro E0. rewrite E0, continue_with_empty in Hne. now apply Hne. }
      destruct (Hc Hne0) as [before [l [conts [E [Hl [Hn [Hnum Hcur]]]]]]].
      exists before, l, (conts ++ [x]).
      split; [rewrite E, <- app_assoc; reflexivity|].
      split; [exact Hl|].
      split; [apply Forall_app; split; [exact Hn | now constructor]|].
      split; [exact Hnum|].
      rewrite Hcur. apply continue_with_snoc.
Qed.

Lemma fold_tracked (lines : list str) :
  forall processed st,
    tracked processed st ->
    tracked (processed ++ lines) (fold_left ex_step lines st).
Proof.
  induction lines as [|x lines IH]; intros processed st H; cbn [fold_left].
  - now rewrite app_nil_r.
  - replace (processed ++ x :: lines) with ((processed ++ [x]) ++ lines)
      by (now rewrite <- app_assoc).
    apply IH, ex_step_tracked, H.
Qed.

(** Every question of exercise-section mode is made of a block of the
    page: it has the number of the line that opens the block. *)
Lemma exercise_made_of (t : str) (lines : list str) :
  Forall (made_of lines) (_extract_from_exercise_section t lines).
Proof.
  unfold _extract_from_exercise_section.
  assert (H : tracked lines (fold_left ex_step lines (ExState [] [] None))).
  { apply (fold_tracked lines [] (ExState [] [] None)).
    split; [constructor|]. intro Hne. exfalso. now apply Hne. }
  destruct H as [Hq Hc].
  assert (Hq' : Forall (made_of lines)
                       (ex_questions (fold_left ex_step lines (ExState [] [] None)))).
  { eapply Forall_impl; [|exact Hq].
    intros q [before [l [conts [l' [r [E [Hl [Hn [Hl' [Hnum Htext]]]]]]]]]].
    exists l, conts. split; [|split; [exact Hnum|split; [|exact Htext]]].
    - exists before, (l' :: r). split; [exact E|]. split; [exact Hl|].
      split; [exact Hn|]. right. now exists l', r.
    - rewrite Hnum. now apply opening_numbered. }
  unfold ex_flush.
  destruct (nonempty (current_question _)) eqn:En; [|exact Hq'].
  destruct (contains [question_mark] (current_question _)); [|exact Hq'].
  cbn [andb]. apply Forall_app. split; [exact Hq'|].
  constructor; [|constructor].
  assert (Hne : current_question
                  (fold_left ex_step lines (ExState [] [] None)) <> []).
  { intro E. rewrite E in En. discriminate. }
  destruct (Hc Hne) as [before [l [conts [E [Hl [Hn [Hnum Hcur]]]]]]].
  exists l, conts. cbn [raw_number raw_text].
  split; [|split; [exact Hnum|split; [|now rewrite Hcur]]].
  - exists before, []. split; [now rewrite app_nil_r|].
    split; [exact Hl|]. split; [exact Hn|]. now left.
  - rewrite Hnum. now apply opening_numbered.
Qed.

Lemma matches_unnumbered (t : str) (pattern : regex) (q : raw_question) :
  In q (matches_of t pattern) -> raw_number q = None.
Proof.
  unfold matches_of. intro H. apply in_flat_map in H.
  destruct H as [m [_ H]].
  destruct (_is_valid_question _); [|destruct H].
  destruct H as [<-|[]]. reflexivity.
Qed.

(** X7: a candidate of a page handled in exercise-section mode carries
    the number of the line that opened it: the page has a line that opens
    a question, followed by lines that open none up to the next opening
    line or the end of the page, such that the candidate has the number
    of that line and, as its text, the rest of that line joined with the
    lines that follow.  A candidate of a page handled in scattered mode
    carries no number. *)
Theorem candidate_numbers (t : str) (n : Z) (qs : list candidate)
        (c : candidate) :
  _extract_questions_from_page t n = Ok qs ->
  In c qs ->
  (_is_exercise_section t = Ok true ->
   exists l conts,
     block (split_on newline t) l conts /\
     number c = line_number l /\
     number c <> None /\
     text c = strip (continue_with (line_rest l) conts)) /\
  (_is_exercise_section t = Ok false -> number c = None).
Proof.
  unfold _extract_questions_from_page.
  destruct (_is_exercise_section t) as [[|]|e]; [| |discriminate];
    intros Hq Hc; injection Hq as <-;
    apply in_map_iff in Hc; destruct Hc as [q [<- Hq]]; simpl.
  - split; [|discriminate]. intros _.
    pose proof (exercise_made_of t (split_on newline t)) as HF.
    rewrite Forall_forall in HF. exact (HF q Hq).
  - split; [discriminate|]. intros _.
    unfold _extract_scattered_questions in Hq.
    apply QuestionFacts.unique_incl in Hq. apply in_flat_map in Hq.
    destruct Hq as [p [_ Hq]]. eapply matches_unnumbered; eauto.
Qed.

Definition two_line_question : str := py "Exercises
1. What is gravity
and why do objects fall?
2. Explain inertia in detail.".

Lemma candidate_numbers_witness :
  _extract_questions_from_page two_line_question 1 =
    Ok [Candidate (py "What is gravity and why do objects fall?")
                  (Some (py "1")) [] short_answer] /\
  _is_exercise_section two_line_question = Ok true /\
  exists l conts,
    block (split_on newline two_line_question) l conts /\
    Some (py "1") = line_number l /\
    Some (py "1") <> None /\
    py "What is gravity and why do objects fall?" =
      strip (continue_with (line_rest l) conts).
Proof.
  assert (H : _extract_questions_from_page two_line_question 1 =
              Ok [Candidate (py "What is gravity and why do objects fall?")
                            (Some (py "1")) [] short_answer])
    by (vm_compute; reflexivity).
  assert (Hm : _is_exercise_section two_line_question = Ok true)
    by (vm_compute; reflexivity).
  split; [exact H|]. split; [exact Hm|].
  exact (proj1 (candidate_numbers two_line_question 1 _
                  (Candidate (py "What is gravity and why do objects fall?")
                             (Some (py "1")) [] short_answer)
                  H (or_introl eq_refl)) Hm).
Defined.

End ExerciseFacts.

(** ** The matcher only moves forward *)

Module ReFacts.
Import PyStr Re.

Section Forward.
(** A property of the text still to be read that is kept when a
    character is consumed. *)
Variable P : str -> Prop.
Hypothesis P_tail : forall c t, P (c :: t) -> P t.

Definition fails_on (K : kont) : Prop :=
  forall st cs, P (rest st) -> K st cs = None.

Lemma rep_greedy_fails (f : flags) (k : cset) (K : kont) :
  fails_on K ->
  forall t min p pv cs, P t -> rep_greedy f k min t p pv cs K = None.
Proof.
  intro HK. induction t as [|c t IH]; intros min p pv cs Ht; simpl.
  - destruct (min =? 0); [apply HK; exact Ht | reflexivity].
  - assert (Hstop : (if min =? 0 then K (MState p pv (c :: t)) cs else None) = None).
    { destruct (min =? 0); [apply HK; exact Ht | reflexivity]. }
    destruct (in_cset f k c); [|exact Hstop].
    rewrite IH by (eapply P_tail; eauto). exact Hstop.
Qed.

Lemma rep_lazy_fails (f : flags) (k : cset) (K : kont) :
  fails_on K ->
  forall t min p pv cs, P t -> rep_lazy f k min t p pv cs K = None.
Proof.
  intro HK. induction t as [|c t IH]; intros min p pv cs Ht; simpl.
  - destruct (min =? 0); [|reflexivity].
    rewrite (HK (MState p pv []) cs Ht). reflexivity.
  - assert (Hmore : (if in_cset f k c
                     then rep_lazy f k (Nat.pred min) t (S p) (Some c) cs K
                     else None) = None).
    { destruct (in_cset f k c); [|reflexivity].
      apply IH. eapply P_tail; eauto. }
    destruct (min =? 0); [|exact Hmore].
    rewrite (HK (MState p pv (c :: t)) cs Ht). exact Hmore.
Qed.

(** If the continuation fails wherever the property holds, so does the
    pattern followed by the continuation. *)
Lemma run_fails (f : flags) (r : regex) :
  forall K, fails_on K -> fails_on (fun st cs => run f r st cs K).
Proof.
  induction r as [|k|r1 IH1 r2 IH2|r IH|k min greedy|n r IH| | |];
    intros K HK st cs Hst; simpl.
  - now apply HK.
  - destruct (rest st) as [|c t] eqn:E; [reflexivity|].
    destruct (in_cset f k c); [|reflexivity].
    apply HK. simpl. eapply P_tail; eauto.
  - apply (IH1 (fun st' cs' => run f r2 st' cs' K)); [|exact Hst].
    apply IH2, HK.
  - rewrite (IH K HK st cs Hst). now apply HK.
  - destruct greedy.
    + now apply rep_greedy_fails.
    + now apply rep_lazy_fails.
  - apply (IH (fun st' cs' => K st' ((n, (pos st, pos st')) :: cs'))); [|exact Hst].
    intros st' cs' Hst'. now apply HK.
  - destruct (at_bol f st); [now apply HK | reflexivity].
  - destruct (at_eol f st); [now apply HK | reflexivity].
  - destruct (at_wordb st); [now apply HK | reflexivity].
Qed.

(** A pattern fails where what follows its first part fails. *)
Lemma cat_fails (f : flags) (r1 r2 : regex) (K : kont) :
  fails_on (fun st cs => run f r2 st cs K) ->
  fails_on (fun st cs => run f (Cat r1 r2) st cs K).
Proof.
  intros H st cs Hst. cbn [run].
  exact (run_fails f r1 (fun st' cs' => run f r2 st' cs' K) H st cs Hst).
Qed.

End Forward.

(** No upper-case letter is left in a lower-cased text. *)
Definition no_upper (t : str) : Prop := Forall (fun c => is_upper c = false) t.

Lemma lower_c_not_upper (c : ascii) : is_upper (lower_c c) = false.
Proof.
  destruct c as [[] [] [] [] [] [] [] []]; reflexivity.
Qed.

Lemma lower_no_upper (t : str) : no_upper (lower t).
Proof.
  unfold no_upper, lower. apply Forall_map.
  apply Forall_forall. intros c _. apply lower_c_not_upper.
Qed.

Lemma no_upper_tail (c : ascii) (t : str) : no_upper (c :: t) -> no_upper t.
Proof. intro H. now inversion H. Qed.

(** The item [A-Z], read without IGNORECASE, fails on such a text. *)
Lemma upper_range_fails (r : regex) (K : kont) :
  fails_on no_upper
           (fun st cs => run no_flags (Cat (Chr (Range "A" "Z")) r) st cs K).
Proof.
  intros st cs Hst. simpl.
  destruct (rest st) as [|c t]; [reflexivity|].
  inversion Hst as [|? ? Hc _]; subst.
  unfold in_cset. cbn [ignorecase no_flags in_plain].
  change (between (code "A") (code "Z") c) with (is_upper c).
  now rewrite Hc.
Qed.

End ReFacts.

(** ** Heading inference *)

Module HeadingFacts.
Import PyStr Re Structure ReFacts.

(** The second heading pattern: a number, a full stop, blanks, a capital
    letter and a title without full stop. *)
Definition numbered_title_re : regex :=
  seq [Bol; star Space; Grp 1 (plus Digit); Chr (Ch "."); plus Space;
       Chr (Range "A" "Z"); star (NoneOf ["."]%char); Eol].

Lemma numbered_title_listed : nth_error chapter_patterns 1 = Some numbered_title_re.
Proof. reflexivity. Qed.

Lemma numbered_title_fails (line : str) :
  re_match no_flags numbered_title_re (lower line) = None.
Proof.
  unfold re_match, match_at, numbered_title_re.
  cbn [seq].
  assert (H : run no_flags
                  (Cat Bol
                     (Cat (star Space)
                        (Cat (Grp 1 (plus Digit))
                           (Cat (Chr (Ch "."))
                              (Cat (plus Space)
                                 (Cat (Chr (Range "A" "Z"))
                                    (Cat (star (NoneOf ["."%char])) Eol)))))))
                  (MState 0 None (lower line)) [] accept = None).
  { apply (cat_fails no_upper no_upper_tail no_flags Bol); [|apply lower_no_upper].
    apply (cat_fails no_upper no_upper_tail no_flags (star Space)).
    apply (cat_fails no_upper no_upper_tail no_flags (Grp 1 (plus Digit))).
    apply (cat_fails no_upper no_upper_tail no_flags (Chr (Ch "."))).
    apply (cat_fails no_upper no_upper_tail no_flags (plus Space)).
    apply upper_range_fails. }
  rewrite H. reflexivity.
Qed.

(** X8: the heading pattern for lines like "3. Title" never matches: the
    line is lower-cased before matching and the pattern, read without
    IGNORECASE, asks for a capital letter after the number.  A line is a
    heading exactly when, lower-cased, it matches one of the three other
    patterns ("chapter N", "unit N", "section N"). *)
Theorem numbered_title_never_matches (line : str) :
  nth_error chapter_patterns 1 = Some numbered_title_re /\
  re_match no_flags numbered_title_re (lower line) = None /\
  is_heading line =
    existsb (fun pattern =>
               match re_match no_flags pattern (lower line) with
               | Some _ => true
               | None => false
               end)
            [nth 0 chapter_patterns Eps; nth 2 chapter_patterns Eps;
             nth 3 chapter_patterns Eps].
Proof.
  split; [reflexivity|]. split; [apply numbered_title_fails|].
  unfold is_heading, chapter_patterns. cbn [existsb nth].
  fold numbered_title_re.
  rewrite (numbered_title_fails line).
  reflexivity.
Qed.

End HeadingFacts.

(** ** The outline: numbering, and the pages it is read from *)

Module OutlineFacts.
Import PyStr Re Structure.

(** The running counter is the number of chapters found, and the
    chapters are numbered by it. *)
Definition counted (st : h_state) : Prop :=
  chapter_num st = Z.of_nat (List.length (chapters st)) /\
  map chapter_number (chapters st) =
    map (fun k => LInt (Z.of_nat k)) (List.seq 1 (List.length (chapters st))).

Lemma heading_line_counted (n : nat) (st : h_state) (line : str) :
  counted st -> counted (heading_line n st line).
Proof.
  intros [Hn Hm]. unfold heading_line.
  destruct (_ || _); [split; assumption|].
  destruct (is_heading (strip line)); [|split; assumption].
  split; cbn [chapters chapter_num].
  - rewrite length_app, Hn. simpl. lia.
  - rewrite map_app, length_app, Hm. cbn [List.length map].
    replace (List.length (chapters st) + 1) with (S (List.length (chapters st)))
      by lia.
    rewrite seq_S, map_app. cbn [map chapter_number].
    do 3 f_equal. rewrite Hn. lia.
Qed.

Lemma heading_lines_counted (n : nat) (lines : list str) (st : h_state) :
  counted st -> counted (fold_left (heading_line n) lines st).
Proof.
  revert st. induction lines as [|l ls IH]; intros st H; [exact H|].
  cbn [fold_left]. apply IH, heading_line_counted, H.
Qed.

Lemma heading_pages_counted (pages : list page) (n : nat) (st : h_state) :
  counted st ->
  map chapter_number (heading_pages pages n st) =
    map (fun k => LInt (Z.of_nat k))
        (List.seq 1 (List.length (heading_pages pages n st))).
Proof.
  revert n st. induction pages as [|p ps IH]; intros n st H; simpl.
  - apply H.
  - destruct p as [[t|]|e]; [| apply IH, H | apply H].
    destruct (negb (nonempty t)); [apply IH, H|].
    apply IH, heading_lines_counted, H.
Qed.

(** X9: heading inference numbers the chapters 1, 2, 3, ... in the
    order the headings are met; the number written in a heading plays no
    part. *)
Theorem inferred_chapters_numbered (file : pdf_file) :
  map chapter_number (_infer_chapters_from_headings file) =
    map (fun k => LInt (Z.of_nat k))
        (List.seq 1 (List.length (_infer_chapters_from_headings file))).
Proof.
  unfold _infer_chapters_from_headings.
  destruct (plumber_pages file) as [pages|]; [|reflexivity].
  apply heading_pages_counted. split; reflexivity.
Qed.

Lemma firstn_firstn_le {A : Type} (i j : nat) (l : list A) :
  i <= j -> firstn i (firstn j l) = firstn i l.
Proof.
  intro H. rewrite firstn_firstn. f_equal. lia.
Qed.

(** X10: the outline depends on the first 50 pages only (the contents
    scan on the first 20): two files that pdfplumber opens with the same
    first 50 pages have the same outline. *)
Theorem outline_reads_first_50_pages (file file' : pdf_file)
        (pages pages' : list page) :
  plumber_pages file = Ok pages ->
  plumber_pages file' = Ok pages' ->
  firstn 50 pages = firstn 50 pages' ->
  _extract_table_of_contents file = _extract_table_of_contents file'.
Proof.
  intros Hp Hp' H50.
  assert (H20 : firstn 20 pages = firstn 20 pages').
  { rewrite <- (firstn_firstn_le 20 50 pages) by lia.
    rewrite <- (firstn_firstn_le 20 50 pages') by lia. now rewrite H50. }
  unfold _extract_table_of_contents, _infer_chapters_from_headings.
  rewrite Hp, Hp', H20, H50. reflexivity.
Qed.

Definition long_book (tail : list page) : pdf_file :=
  PdfFile (Ok (50 + List.length tail))
          (Ok (Ok (Some (py "Chapter 1 Motion")) :: repeat (Ok None) 49 ++ tail)).

Lemma outline_reads_first_50_pages_witness :
  plumber_pages (long_book [Ok (Some (py "Chapter 2 Forces"))]) =
    Ok (Ok (Some (py "Chapter 1 Motion")) :: repeat (Ok None) 49
          ++ [Ok (Some (py "Chapter 2 Forces"))]) /\
  _extract_table_of_contents (long_book [Ok (Some (py "Chapter 2 Forces"))]) =
    _extract_table_of_contents (long_book [Raise (OtherError "unreadable")]).
Proof.
  split; [reflexivity|].
  exact (outline_reads_first_50_pages
           (long_book [Ok (Some (py "Chapter 2 Forces"))])
           (long_book [Raise (OtherError "unreadable")])
           _ _ eq_refl eq_refl eq_refl).
Defined.




(** A page number of 4301 digits on the second line of a contents page:
    [int] refuses it, and the outline is the entry of the first line. *)
Definition refused_contents : pdf_file :=
  pdf_of_texts [py "Contents
1. Alpha....3
2. Beta...." ++ repeat "9"%char 4301 ++ py "
3. Gamma....7"].

Example refused_number_cuts_outline :
  _extract_table_of_contents refused_contents =
    [TocEntry (LInt 1) (py "Alpha") 3 1].
Proof. vm_compute. reflexivity. Qed.

End OutlineFacts.

(** ** Reading the document in chunks *)

Module ChunkFacts.
Import PyStr.

(** The page indices of the chunk that starts at [start_page]. *)
Definition chunk_range (total_pages start_page : nat) : list nat :=
  List.seq start_page (Nat.min (start_page + chunk_size) total_pages - start_page).

Lemma chunks_upto (total n : nat) :
  flat_map (chunk_range total) (map (fun k => k * chunk_size) (List.seq 0 n)) =
    List.seq 0 (Nat.min (n * chunk_size) total).
Proof.
  unfold chunk_size. induction n as [|n IH]; [reflexivity|].
  rewrite seq_S, map_app, flat_map_app, IH. cbn [map flat_map plus].
  rewrite app_nil_r. unfold chunk_range, chunk_size.
  destruct (Nat.le_gt_cases total (n * 10)) as [Hle|Hgt].
  - replace (Nat.min (n * 10 + 10) total - n * 10) with 0 by lia.
    cbn [List.seq]. rewrite app_nil_r. f_equal. lia.
  - replace (Nat.min (n * 10) total) with (n * 10) by lia.
    rewrite <- seq_app. f_equal. lia.
Qed.

(** X12: the chunks of [process_pdf] cover the document exactly: put
    end to end, the page ranges of the successive chunks are the page
    indices 0, 1, ..., total_pages - 1, each once and in order. *)
Theorem chunks_cover_document (total_pages : nat) :
  flat_map
    (fun start_page =>
       List.seq start_page
                (Nat.min (start_page + chunk_size) total_pages - start_page))
    (chunk_starts total_pages) =
  List.seq 0 total_pages.
Proof.
  unfold chunk_starts.
  change (flat_map (chunk_range total_pages)
                   (map (fun k => k * chunk_size)
                        (List.seq 0 ((total_pages + 9) / chunk_size))) =
          List.seq 0 total_pages).
  rewrite chunks_upto. f_equal. unfold chunk_size.
  pose proof (Nat.div_mod_eq (total_pages + 9) 10) as D.
  pose proof (Nat.mod_upper_bound (total_pages + 9) 10) as M.
  lia.
Qed.

(** What one page of the range adds to the chunk. *)
Definition page_entry (pages : list page) (page_num : nat) : list page_data :=
  match nth_error pages page_num with
  | Some (Ok (Some (c :: t))) =>
      [PageData (Z.of_nat page_num + 1) (strip (c :: t))]
  | _ => []
  end.

Lemma chunk_pages_entries (pages : list page) (page_nums : list nat)
      (pages_text : list page_data) :
  chunk_pages pages page_nums = Ok pages_text ->
  pages_text = flat_map (page_entry pages) page_nums.
Proof.
  revert pages_text.
  induction page_nums as [|i rest IH]; intros pages_text; simpl.
  - intro H. now injection H as <-.
  - unfold page_entry at 1.
    destruct (i <? List.length pages) eqn:El.
    + apply Nat.ltb_lt in El.
      destruct (nth_error pages i) as [p|] eqn:En;
        [|apply nth_error_None in En; lia].
      rewrite (nth_error_nth pages i (Ok None) En).
      destruct p as [[t|]|e]; [| apply IH | discriminate].
      destruct (chunk_pages pages rest) as [pts|e]; [|discriminate].
      destruct t as [|c t]; intro H; injection H as <-;
        cbn [app]; f_equal; now apply IH.
    + apply Nat.ltb_ge in El.
      destruct (nth_error pages i) as [p|] eqn:En.
      * assert (i < List.length pages) by (apply nth_error_Some; congruence). lia.
      * apply IH.
Qed.

(** X13: when [_extract_text_chunk] returns, the chunk holds, in page
    order, one entry for each page of the range that exists in the file
    and has a non-empty text, with the 1-based page number and the
    stripped text; pages without text are left out. *)
Theorem text_chunk_entries (file : pdf_file) (pages : list page)
        (start_page end_page : nat) (pages_text : list page_data) :
  plumber_pages file = Ok pages ->
  _extract_text_chunk file start_page end_page = Ok pages_text ->
  pages_text =
    flat_map
      (fun page_num =>
         match nth_error pages page_num with
         | Some (Ok (Some (c :: t))) =>
             [PageData (Z.of_nat page_num + 1) (strip (c :: t))]
         | _ => []
         end)
      (List.seq start_page (end_page - start_page)).
Proof.
  intros Hp. unfold _extract_text_chunk. rewrite Hp.
  apply chunk_pages_entries.
Qed.

Definition sparse_file : pdf_file :=
  PdfFile (Ok 4)
          (Ok [Ok (Some (py "  Motion  ")); Ok None; Ok (Some []);
               Ok (Some (py "Forces"))]).

Lemma text_chunk_entries_witness :
  plumber_pages sparse_file =
    Ok [Ok (Some (py "  Motion  ")); Ok None; Ok (Some []);
        Ok (Some (py "Forces"))] /\
  _extract_text_chunk sparse_file 0 4 =
    Ok [PageData 1 (py "Motion"); PageData 4 (py "Forces")] /\
  [PageData 1 (py "Motion"); PageData 4 (py "Forces")] =
    flat_map
      (fun page_num =>
         match nth_error [Ok (Some (py "  Motion  ")); Ok None; Ok (Some []);
                          Ok (Some (py "Forces"))] page_num with
         | Some (Ok (Some (c :: t))) =>
             [PageData (Z.of_nat page_num + 1) (strip (c :: t))]
         | _ => []
         end)
      (List.seq 0 (4 - 0)).
Proof.
  assert (H : _extract_text_chunk sparse_file 0 4 =
              Ok [PageData 1 (py "Motion"); PageData 4 (py "Forces")])
    by (vm_compute; reflexivity).
  split; [reflexivity|]. split; [exact H|].
  exact (text_chunk_entries sparse_file _ 0 4 _ eq_refl H).
Defined.

(** A page that raises within the range makes the chunk raise. *)
Lemma chunk_pages_raises (pages : list page) (page_nums : list nat)
      (i : nat) (e : exn) :
  In i page_nums ->
  nth_error pages i = Some (Raise e) ->
  exists e', chunk_pages pages page_nums = Raise e'.
Proof.
  intros Hin Hn. induction page_nums as [|a rest IH]; [destruct Hin|].
  simpl. destruct (Nat.eq_dec a i) as [->|Hai].
  - assert (Hlt : (i <? List.length pages) = true).
    { apply Nat.ltb_lt. apply nth_error_Some. congruence. }
    rewrite Hlt, (nth_error_nth pages i (Ok None) Hn). eauto.
  - destruct Hin as [Hin|Hin]; [contradiction|].
    destruct (IH Hin) as [e' He'].
    destruct (a <? List.length pages); [|eauto].
    destruct (nth a pages (Ok None)) as [[t|]|e0]; [| eauto | eauto].
    rewrite He'. eauto.
Qed.

Lemma chunk_pages_cases (pages : list page) (page_nums : list nat) :
  (exists pages_text, chunk_pages pages page_nums = Ok pages_text) \/
  (exists i e, In i page_nums /\ nth_error pages i = Some (Raise e)).
Proof.
  induction page_nums as [|a rest IH]; simpl; [left; eauto|].
  destruct IH as [[pts Hpts]|[i [e [Hi Hn]]]];
    [|right; exists i, e; split; [now right | exact Hn]].
  destruct (a <? List.length pages) eqn:El; [|left; eauto].
  apply Nat.ltb_lt in El.
  destruct (nth_error pages a) as [p|] eqn:En;
    [|apply nth_error_None in En; lia].
  rewrite (nth_error_nth pages a (Ok None) En).
  destruct p as [[t|]|e]; [| left; eauto |].
  - left. rewrite Hpts. destruct t; eauto.
  - right. exists a, e. split; [now left | exact En].
Qed.

(** X14: reading a chunk raises exactly when pdfplumber cannot open the
    file or [extract_text] raises on a page of the range. *)
Theorem text_chunk_raises_iff (file : pdf_file) (start_page end_page : nat) :
  (exists e, _extract_text_chunk file start_page end_page = Raise e) <->
  ((exists e, plumber_pages file = Raise e) \/
   exists pages i e,
     plumber_pages file = Ok pages /\
     start_page <= i < end_page /\
     nth_error pages i = Some (Raise e)).
Proof.
  unfold _extract_text_chunk.
  destruct (plumber_pages file) as [pages|e0] eqn:Hp.
  - split.
    + intros [e He]. right.
      destruct (chunk_pages_cases pages
                  (List.seq start_page (end_page - start_page))) as [H|H].
      * destruct H as [pts Hpts]. congruence.
      * destruct H as [i [e' [Hi Hn]]]. exists pages, i, e'.
        apply in_seq in Hi. repeat split; [lia | lia | exact Hn].
    + intros [[e He]|[pages' [i [e [Hpages [Hi Hn]]]]]]; [discriminate|].
      injection Hpages as <-.
      apply (chunk_pages_raises pages _ i e); [|exact Hn].
      apply in_seq. lia.
  - split; [intros _; left; eauto | intros _; eauto].
Qed.

End ChunkFacts.

(** ** Runs of the pipeline *)

Module RunFacts.
Import PyStr Db.

(** *** Relations kept by the statements of a chunk *)

Section Frame.
Variable R : database -> database -> Prop.
Hypothesis R_refl : forall db, R db db.
Hypothesis R_trans : forall a b c, R a b -> R b c -> R a c.
Hypothesis R_add_question : forall q db, R db (add_question q db).
Hypothesis R_commit : forall db, R db (commit db).

Variable order : list chapter -> list chapter.
Variable extract_page : str -> Z -> result (list candidate).

Definition framed_by {A : Type} (m : M A) : Prop :=
  forall db, R db (fst (m db)).

Lemma bind_framed_by {A B : Type} (m : M A) (k : A -> M B) :
  framed_by m -> (forall a, framed_by (k a)) -> framed_by (bind m k).
Proof.
  intros Hm Hk db. unfold bind.
  specialize (Hm db). destruct (m db) as [db' [a|e]]; simpl in *; auto.
  eapply R_trans; [exact Hm | apply Hk].
Qed.

Lemma add_questions_framed_by (f : candidate -> question) (qs : list candidate) :
  forall db,
    R db (fold_left (fun db question_data => add_question (f question_data) db)
                    qs db).
Proof.
  induction qs as [|q qs IH]; intro db; simpl; [apply R_refl|].
  eapply R_trans; [apply R_add_question | apply IH].
Qed.

Lemma extract_pages_framed_by (pages_text : list page_data) (textbook_id : Z) :
  forall found,
    framed_by (extract_pages order extract_page pages_text textbook_id found).
Proof.
  induction pages_text as [|pd rest IH]; intro found; simpl.
  - intro db. apply R_refl.
  - destruct (pd_text pd) as [|c t]; [apply IH|].
    intro db. apply bind_framed_by; [intro db0; apply R_refl|].
    intro qs. apply bind_framed_by; [|intros _; apply IH].
    intro db0. apply add_questions_framed_by.
Qed.

Lemma extract_questions_framed_by (pages_text : list page_data)
      (textbook_id start_page : Z) :
  framed_by (extract_questions_from_text order extract_page pages_text
                                         textbook_id start_page).
Proof.
  unfold extract_questions_from_text.
  apply bind_framed_by; [apply extract_pages_framed_by|].
  intro found. destruct (0 <? found); intro db; [apply R_commit | apply R_refl].
Qed.

Lemma process_chunks_framed_by (file : pdf_file) (textbook_id : Z)
      (total : nat) (starts : list nat) :
  framed_by (process_chunks order extract_page file textbook_id total starts).
Proof.
  induction starts as [|s rest IH]; simpl.
  - intro db. apply R_refl.
  - apply bind_framed_by; [intro db; apply R_refl|]. intro chunk_text.
    apply bind_framed_by; [apply extract_questions_framed_by|].
    intros _. exact IH.
Qed.

End Frame.

(** The rows of [textbooks] are left as they are. *)
Definition same_textbooks (db db' : database) : Prop :=
  textbooks db' = textbooks db.

(** With no chapter pending in the session, none is stored or added. *)
Definition same_chapters (db db' : database) : Prop :=
  session_chapters db = [] ->
  session_chapters db' = [] /\ db_chapters db' = db_chapters db.

Lemma same_chapters_trans (a b c : database) :
  same_chapters a b -> same_chapters b c -> same_chapters a c.
Proof.
  intros H1 H2 Ha. destruct (H1 Ha) as [Hb E1].
  destruct (H2 Hb) as [Hc E2]. split; congruence.
Qed.

Lemma same_chapters_commit (db : database) : same_chapters db (commit db).
Proof.
  intro H. split; [reflexivity|]. simpl. rewrite H. simpl. apply app_nil_r.
Qed.

Lemma chunks_same_textbooks (order : list chapter -> list chapter)
      (extract_page : str -> Z -> result (list candidate))
      (file : pdf_file) (textbook_id : Z) (total : nat) (starts : list nat)
      (db : database) :
  same_textbooks db
    (fst (process_chunks order extract_page file textbook_id total starts db)).
Proof.
  apply (process_chunks_framed_by same_textbooks); unfold same_textbooks;
    try reflexivity; congruence.
Qed.

Lemma chunks_same_chapters (order : list chapter -> list chapter)
      (extract_page : str -> Z -> result (list candidate))
      (file : pdf_file) (textbook_id : Z) (total : nat) (starts : list nat)
      (db : database) :
  same_chapters db
    (fst (process_chunks order extract_page file textbook_id total starts db)).
Proof.
  apply (process_chunks_framed_by same_chapters).
  - intros d H. split; [exact H | reflexivity].
  - apply same_chapters_trans.
  - intros q d H. split; [exact H | reflexivity].
  - apply same_chapters_commit.
Qed.

(** The row of a document after an assignment to one of its columns. *)
Lemma first_textbook_update (textbook_id : Z) (f : textbook -> textbook)
      (ts : list textbook) :
  (forall t, tb_id (f t) = tb_id t) ->
  List.find (has_id textbook_id) (update_first textbook_id f ts) =
    option_map f (List.find (has_id textbook_id) ts).
Proof.
  intro Hf. induction ts as [|t ts IH]; simpl; [reflexivity|].
  destruct (has_id textbook_id t) eqn:E; simpl.
  - unfold has_id in *. rewrite Hf, E. reflexivity.
  - rewrite E. exact IH.
Qed.

Section Run.
Variable order : list chapter -> list chapter.
Variable extract_page : str -> Z -> result (list candidate).

(** X15: for a textbook id without a row, [process_pdf] returns False
    and leaves the database as it is: no state is written, nothing is
    stored. *)
Theorem unknown_textbook_untouched (file : pdf_file) (textbook_id : Z)
        (db : database) :
  first_textbook textbook_id db = None ->
  process_pdf order extract_page file textbook_id db = (db, false).
Proof.
  intro H. unfold process_pdf, process_pdf_try. rewrite H. now rewrite H.
Qed.

(** The database when the page loop starts. *)
Definition before_chunks (file : pdf_file) (textbook_id : Z) (total : nat)
           (db : database) : database :=
  let db2 :=
    commit (set_total_pages textbook_id total
                            (commit (set_status textbook_id processing db))) in
  match Structure._extract_table_of_contents file with
  | [] => db2
  | _ :: _ =>
      _store_chapters (Structure._extract_table_of_contents file) textbook_id db2
  end.

Lemma try_readable (file : pdf_file) (textbook_id : Z) (total : nat)
      (db : database) :
  first_textbook textbook_id db <> None ->
  reader_page_count file = Ok total ->
  process_pdf_try order extract_page file textbook_id db =
    match process_chunks order extract_page file textbook_id total
                         (chunk_starts total)
                         (before_chunks file textbook_id total db) with
    | (db4, Ok _) => (commit (set_status textbook_id completed db4), Ok true)
    | (db4, Raise e) => (db4, Raise e)
    end.
Proof.
  intros Hk Hr. unfold process_pdf_try, before_chunks.
  destruct (first_textbook textbook_id db); [|congruence].
  unfold bind, modify, lift, ret. rewrite Hr.
  destruct (process_chunks _ _ _ _ _ _ _) as [db4 [u|e]]; reflexivity.
Qed.

Lemma try_unreadable (file : pdf_file) (textbook_id : Z) (e : exn)
      (db : database) :
  first_textbook textbook_id db <> None ->
  reader_page_count file = Raise e ->
  process_pdf_try order extract_page file textbook_id db =
    (commit (set_status textbook_id processing db), Raise e).
Proof.
  intros Hk Hr. unfold process_pdf_try.
  destruct (first_textbook textbook_id db); [|congruence].
  unfold bind, modify, lift. now rewrite Hr.
Qed.

Lemma known_after_status (textbook_id : Z) (s : status) (db : database) :
  first_textbook textbook_id db <> None ->
  first_textbook textbook_id (commit (set_status textbook_id s db)) <> None.
Proof.
  intro H. apply PipelineFacts.first_textbook_known.
  cbn [commit textbooks]. rewrite PipelineFacts.set_status_ids.
  now apply PipelineFacts.first_textbook_known.
Qed.

Lemma known_before_chunks (file : pdf_file) (textbook_id : Z) (total : nat)
      (db : database) :
  first_textbook textbook_id db <> None ->
  first_textbook textbook_id (before_chunks file textbook_id total db) <> None.
Proof.
  intro H. apply PipelineFacts.first_textbook_known.
  assert (K : PipelineFacts.keeps
                (commit (set_status textbook_id processing db))
                (before_chunks file textbook_id total db)).
  { unfold before_chunks.
    eapply PipelineFacts.keeps_trans;
      [eapply PipelineFacts.keeps_trans;
       [apply PipelineFacts.set_total_pages_keeps
       | apply PipelineFacts.commit_keeps]|].
    destruct (Structure._extract_table_of_contents file).
    - apply PipelineFacts.keeps_refl.
    - apply PipelineFacts.store_chapters_keeps. }
  destruct K as [K _]. rewrite K.
  apply PipelineFacts.first_textbook_known. now apply known_after_status.
Qed.

Lemma known_after_chunks (file : pdf_file) (textbook_id : Z) (total : nat)
      (starts : list nat) (db : database) :
  first_textbook textbook_id db <> None ->
  first_textbook textbook_id
    (fst (process_chunks order extract_page file textbook_id total starts db))
    <> None.
Proof.
  intro H. unfold first_textbook. rewrite chunks_same_textbooks. exact H.
Qed.

(** A run on a stored row ends with the assignment of completed or of
    failed. *)
Lemma run_cases (file : pdf_file) (textbook_id : Z) (db : database) :
  first_textbook textbook_id db <> None ->
  exists db4,
    first_textbook textbook_id db4 <> None /\
    (process_pdf order extract_page file textbook_id db =
       (commit (set_status textbook_id completed db4), true) \/
     process_pdf order extract_page file textbook_id db =
       (commit (set_status textbook_id failed db4), false)).
Proof.
  intro Hk. unfold process_pdf.
  destruct (reader_page_count file) as [total|e] eqn:Hr.
  - rewrite (try_readable file textbook_id total db Hk Hr).
    pose proof (known_after_chunks file textbook_id total (chunk_starts total)
                  _ (known_before_chunks file textbook_id total db Hk)) as H4.
    destruct (process_chunks _ _ _ _ _ _ _) as [db4 [u|e]]; simpl in H4;
      exists db4; split; auto.
    right. destruct (first_textbook textbook_id db4); [reflexivity|congruence].
  - rewrite (try_unreadable file textbook_id e db Hk Hr).
    pose proof (known_after_status textbook_id processing db Hk) as H1.
    exists (commit (set_status textbook_id processing db)). split; [exact H1|].
    right.
    destruct (first_textbook textbook_id
                (commit (set_status textbook_id processing db)));
      [reflexivity|congruence].
Qed.

(** X16: on a stored row, [process_pdf] returns True exactly when it
    leaves the document completed, and False exactly when it leaves it
    failed; it never leaves it pending or processing. *)
Theorem result_tells_final_state (file : pdf_file) (textbook_id : Z)
        (db : database) :
  first_textbook textbook_id db <> None ->
  let run := process_pdf order extract_page file textbook_id db in
  (snd run = true <-> status_of textbook_id (fst run) = Some completed) /\
  (snd run = false <-> status_of textbook_id (fst run) = Some failed).
Proof.
  intros Hk run. subst run.
  destruct (run_cases file textbook_id db Hk) as [db4 [H4 [E|E]]];
    rewrite E; cbn [fst snd];
    rewrite (PipelineFacts.status_after_write textbook_id _ db4 H4);
    split; split; intro H; try reflexivity; try discriminate.
Qed.

(** X17: when PyPDF2 cannot read the file, the document ends failed and
    [process_pdf] returns False; the states written are processing then
    failed, the page count of the row is not set, and with nothing
    pending in the session no chapter and no question is stored. *)
Theorem unreadable_file_fails (file : pdf_file) (textbook_id : Z)
        (db : database) (e : exn) :
  first_textbook textbook_id db <> None ->
  reader_page_count file = Raise e ->
  let run := process_pdf order extract_page file textbook_id db in
  snd run = false /\
  status_of textbook_id (fst run) = Some failed /\
  status_writes (fst run) =
    status_writes db ++ [(textbook_id, processing); (textbook_id, failed)] /\
  option_map total_pages (first_textbook textbook_id (fst run)) =
    option_map total_pages (first_textbook textbook_id db) /\
  (session_chapters db = [] -> db_chapters (fst run) = db_chapters db) /\
  (session_questions db = [] -> db_questions (fst run) = db_questions db).
Proof.
  intros Hk Hr run.
  assert (E : run = (commit (set_status textbook_id failed
                              (commit (set_status textbook_id processing db))),
                     false)).
  { subst run. unfold process_pdf.
    rewrite (try_unreadable file textbook_id e db Hk Hr).
    pose proof (known_after_status textbook_id processing db Hk) as H1.
    destruct (first_textbook textbook_id
                (commit (set_status textbook_id processing db)));
      [reflexivity|congruence]. }
  rewrite E. cbn [fst snd]. split; [reflexivity|]. split.
  { apply PipelineFacts.status_after_write.
    now apply known_after_status. }
  split; [simpl; now rewrite <- app_assoc|]. split.
  { unfold first_textbook. cbn [commit set_status textbooks].
    rewrite !first_textbook_update by reflexivity.
    destruct (List.find (has_id textbook_id) (textbooks db)); reflexivity. }
  split; intro Hs; simpl; rewrite Hs; simpl; now rewrite !app_nil_r.
Qed.

End Run.

Definition unreadable : pdf_file :=
  PdfFile (Raise (OtherError "PdfReadError")) (Raise (OtherError "PdfReadError")).

Lemma unknown_textbook_untouched_witness :
  first_textbook 7 PipelineFacts.uploaded = None /\
  process_pdf ResolverFacts.sort_desc
              QuestionExtractor._extract_questions_from_page
              PipelineFacts.three_pages 7 PipelineFacts.uploaded =
    (PipelineFacts.uploaded, false).
Proof.
  split; [reflexivity|].
  exact (unknown_textbook_untouched
           ResolverFacts.sort_desc
           QuestionExtractor._extract_questions_from_page
           PipelineFacts.three_pages 7 PipelineFacts.uploaded eq_refl).
Defined.

Lemma result_tells_final_state_witness :
  first_textbook 1 PipelineFacts.uploaded <> None /\
  snd (process_pdf ResolverFacts.sort_desc
                   QuestionExtractor._extract_questions_from_page
                   PipelineFacts.three_pages 1 PipelineFacts.uploaded) = true /\
  status_of 1 (fst (process_pdf ResolverFacts.sort_desc
                                QuestionExtractor._extract_questions_from_page
                                PipelineFacts.three_pages 1
                                PipelineFacts.uploaded)) = Some completed.
Proof.
  assert (H : first_textbook 1 PipelineFacts.uploaded <> None)
    by (vm_compute; discriminate).
  split; [exact H|].
  assert (R : snd (process_pdf ResolverFacts.sort_desc
                     QuestionExtractor._extract_questions_from_page
                     PipelineFacts.three_pages 1 PipelineFacts.uploaded) = true)
    by (vm_compute; reflexivity).
  split; [exact R|].
  exact (proj1 (proj1 (result_tells_final_state
                         ResolverFacts.sort_desc
                         QuestionExtractor._extract_questions_from_page
                         PipelineFacts.three_pages 1 PipelineFacts.uploaded H))
               R).
Defined.

Lemma unreadable_file_fails_witness :
  first_textbook 1 PipelineFacts.uploaded <> None /\
  reader_page_count unreadable = Raise (OtherError "PdfReadError") /\
  snd (process_pdf ResolverFacts.sort_desc
                   QuestionExtractor._extract_questions_from_page
                   unreadable 1 PipelineFacts.uploaded) = false /\
  status_of 1 (fst (process_pdf ResolverFacts.sort_desc
                                QuestionExtractor._extract_questions_from_page
                                unreadable 1 PipelineFacts.uploaded)) =
    Some failed.
Proof.
  assert (H : first_textbook 1 PipelineFacts.uploaded <> None)
    by (vm_compute; discriminate).
  split; [exact H|]. split; [reflexivity|].
  destruct (unreadable_file_fails
              ResolverFacts.sort_desc
              QuestionExtractor._extract_questions_from_page
              unreadable 1 PipelineFacts.uploaded (OtherError "PdfReadError")
              H eq_refl) as [H1 [H2 _]].
  split; [exact H1 | exact H2].
Defined.

(** *** What a run stores *)

(** The chapter row made for an outline entry, before its id is given. *)
Definition chapter_draft (textbook_id : Z) (entry : toc_entry) : chapter :=
  Chapter 0 textbook_id (title entry) (chapter_number entry)
          (page_start entry) (level entry).

Lemma add_chapters_session (textbook_id : Z) (toc : list toc_entry)
      (db : database) :
  let db' :=
    fold_left (fun db entry => add_chapter (chapter_draft textbook_id entry) db)
              toc db in
  session_chapters db' = session_chapters db ++ map (chapter_draft textbook_id) toc /\
  db_chapters db' = db_chapters db.
Proof.
  revert db. induction toc as [|e toc IH]; intro db; cbn [fold_left map].
  - split; [now rewrite app_nil_r | reflexivity].
  - destruct (IH (add_chapter (chapter_draft textbook_id e) db)) as [H1 H2].
    split; [|exact H2]. rewrite H1. simpl. now rewrite <- app_assoc.
Qed.

Lemma add_chapters_textbooks (f : toc_entry -> chapter) (toc : list toc_entry) :
  forall db,
    textbooks (fold_left (fun db entry => add_chapter (f entry) db) toc db) =
    textbooks db.
Proof.
  induction toc as [|e toc IH]; intro db; cbn [fold_left]; [reflexivity|].
  now rewrite IH.
Qed.

Lemma store_chapters_textbooks (toc : list toc_entry) (textbook_id : Z)
      (db : database) :
  textbooks (_store_chapters toc textbook_id db) = textbooks db.
Proof.
  unfold _store_chapters.
  destruct (flush_chapters _); cbn [commit rollback textbooks];
    apply (add_chapters_textbooks
             (fun entry =>
                Chapter 0 textbook_id (title entry) (chapter_number entry)
                        (page_start entry) (level entry))).
Qed.

(** Whether the numbers of every entry fit SQLite's INTEGER. *)
Definition outline_fits (toc : list toc_entry) : bool :=
  forallb (fun entry => label_fits (chapter_number entry)
                        && fits_int64 (page_start entry)) toc.

Lemma drafts_fit (textbook_id : Z) (toc : list toc_entry) :
  forallb chapter_fits (map (chapter_draft textbook_id) toc) = outline_fits toc.
Proof.
  induction toc as [|e toc IH]; [reflexivity|].
  cbn [map forallb outline_fits]. now rewrite IH.
Qed.

Lemma add_chapters_questions (f : toc_entry -> chapter) (toc : list toc_entry) :
  forall db,
    session_questions
      (fold_left (fun db entry => add_chapter (f entry) db) toc db) =
      session_questions db /\
    db_questions
      (fold_left (fun db entry => add_chapter (f entry) db) toc db) =
      db_questions db.
Proof.
  induction toc as [|e toc IH]; intro db; cbn [fold_left]; [split; reflexivity|].
  destruct (IH (add_chapter (f e) db)) as [Q1 Q2].
  split; [rewrite Q1 | rewrite Q2]; reflexivity.
Qed.

(** [_store_chapters] on a session without pending objects: the rows of
    the entries are inserted, or none is and the session is empty again. *)
Lemma store_chapters_cases (toc : list toc_entry) (textbook_id : Z)
      (db : database) :
  session_chapters db = [] ->
  session_questions db = [] ->
  _store_chapters toc textbook_id db =
    if outline_fits toc
    then Database (textbooks db)
                  (db_chapters db ++
                     assign_ids (next_id (map ch_id (db_chapters db)))
                                (map (chapter_draft textbook_id) toc))
                  (db_questions db) [] [] (status_writes db)
    else db.
Proof.
  intros Hs Hq. unfold _store_chapters.
  change (fun (db0 : database) (entry : toc_entry) =>
            add_chapter
              (Chapter 0 textbook_id (title entry) (chapter_number entry)
                       (page_start entry) (level entry)) db0)
    with (fun (db0 : database) (entry : toc_entry) =>
            add_chapter (chapter_draft textbook_id entry) db0).
  destruct (add_chapters_session textbook_id toc db) as [H1 H3].
  cbn zeta in H1, H3.
  pose proof (PipelineFacts.fold_keeps
                (fun db0 entry => add_chapter (chapter_draft textbook_id entry) db0)
                toc (fun d a => PipelineFacts.add_chapter_keeps _ d) db) as [_ W].
  pose proof (add_chapters_textbooks (chapter_draft textbook_id) toc db) as T.
  destruct (add_chapters_questions (chapter_draft textbook_id) toc db)
    as [Q1 Q2].
  unfold flush_chapters. rewrite H1, Hs. cbn [app].
  rewrite drafts_fit.
  destruct (outline_fits toc).
  - unfold commit. rewrite H1, H3, T, W, Q1, Q2, Hs, Hq.
    cbn [app]. now rewrite app_nil_r.
  - unfold rollback. rewrite H3, T, W, Q2.
    destruct db; cbn in *; now subst.
Qed.

Section Stored.
Variable order : list chapter -> list chapter.
Variable extract_page : str -> Z -> result (list candidate).

Lemma before_chunks_chapters (file : pdf_file) (textbook_id : Z) (total : nat)
      (db : database) :
  session_chapters db = [] ->
  session_chapters (before_chunks file textbook_id total db) = [] /\
  db_chapters (before_chunks file textbook_id total db) =
    if outline_fits (Structure._extract_table_of_contents file)
    then db_chapters db ++
           assign_ids (next_id (map ch_id (db_chapters db)))
                      (map (chapter_draft textbook_id)
                           (Structure._extract_table_of_contents file))
    else db_chapters db.
Proof.
  intro Hs. unfold before_chunks.
  set (db2 := commit (set_total_pages textbook_id total
                        (commit (set_status textbook_id processing db)))).
  assert (H2 : session_chapters db2 = [] /\ db_chapters db2 = db_chapters db).
  { split; [reflexivity|]. simpl. rewrite Hs. simpl. now rewrite !app_nil_r. }
  destruct H2 as [S2 C2].
  destruct (Structure._extract_table_of_contents file) as [|e0 es] eqn:Et.
  - split; [exact S2|]. rewrite C2. simpl. now rewrite app_nil_r.
  - rewrite (store_chapters_cases (e0 :: es) textbook_id db2 S2 eq_refl).
    destruct (outline_fits (e0 :: es)).
    + cbn [session_chapters db_chapters]. rewrite C2. split; reflexivity.
    + split; assumption.
Qed.

(** X18: the outline is stored before the pages are read, in one
    commit, and what that commit leaves stays whatever happens to the
    pages.  On a stored row, with a readable page count and no chapter
    pending: when the numbers of every entry fit a 64-bit INTEGER, the
    chapters after the run are the chapters before it followed by one row
    per outline entry, in outline order, with the ids that follow the
    greatest id of the table; when a number does not fit, the commit
    raises, the session is rolled back and no chapter is stored. *)
Theorem outline_is_stored (file : pdf_file) (textbook_id : Z) (total : nat)
        (db : database) :
  first_textbook textbook_id db <> None ->
  reader_page_count file = Ok total ->
  session_chapters db = [] ->
  let toc := Structure._extract_table_of_contents file in
  let stored :=
    db_chapters (fst (process_pdf order extract_page file textbook_id db)) in
  (outline_fits toc = true ->
   (next_id (map ch_id (db_chapters db)) + Z.of_nat (List.length toc)
    <= 2 ^ 63)%Z ->
   stored =
     db_chapters db ++
       assign_ids (next_id (map ch_id (db_chapters db)))
                  (map (fun entry =>
                          Chapter 0 textbook_id (title entry)
                                  (chapter_number entry) (page_start entry)
                                  (level entry))
                       toc)) /\
  (outline_fits toc = false -> stored = db_chapters db).
Proof.
  intros Hk Hr Hs toc stored.
  assert (E : stored =
              if outline_fits toc
              then db_chapters db ++
                     assign_ids (next_id (map ch_id (db_chapters db)))
                                (map (chapter_draft textbook_id) toc)
              else db_chapters db).
  { subst stored toc. unfold process_pdf.
    rewrite (try_readable order extract_page file textbook_id total db Hk Hr).
    destruct (before_chunks_chapters file textbook_id total db Hs) as [S3 C3].
    pose proof (chunks_same_chapters order extract_page file textbook_id total
                  (chunk_starts total)
                  (before_chunks file textbook_id total db) S3) as [S4 C4].
    destruct (process_chunks order extract_page file textbook_id total
                             (chunk_starts total)
                             (before_chunks file textbook_id total db))
      as [db4 [u|e]]; cbn [fst] in *.
    - cbn [commit set_status db_chapters session_chapters].
      rewrite S4, C4, C3. cbn [assign_ids]. now rewrite app_nil_r.
    - destruct (first_textbook textbook_id db4); cbn [fst].
      + cbn [commit set_status db_chapters session_chapters].
        rewrite S4, C4, C3. cbn [assign_ids]. now rewrite app_nil_r.
      + now rewrite C4, C3. }
  rewrite E. split; intro Hf; rewrite Hf; [intros _|]; reflexivity.
Qed.

End Stored.

Definition two_chapters : pdf_file :=
  pdf_of_texts [py "Contents
1. Motion....3
2. Forces....9"].

Lemma outline_is_stored_witness :
  first_textbook 1 PipelineFacts.uploaded <> None /\
  reader_page_count two_chapters = Ok 1 /\
  session_chapters PipelineFacts.uploaded = [] /\
  outline_fits (Structure._extract_table_of_contents two_chapters) = true /\
  db_chapters (fst (process_pdf ResolverFacts.sort_desc
                                QuestionExtractor._extract_questions_from_page
                                two_chapters 1 PipelineFacts.uploaded)) =
    [Chapter 1 1 (py "Motion") (LInt 1) 3 1;
     Chapter 2 1 (py "Forces") (LInt 2) 9 1].
Proof.
  assert (H : first_textbook 1 PipelineFacts.uploaded <> None)
    by (vm_compute; discriminate).
  assert (Hf : outline_fits (Structure._extract_table_of_contents two_chapters)
               = true) by (vm_compute; reflexivity).
  assert (Hi : (next_id (map ch_id (db_chapters PipelineFacts.uploaded)) +
                Z.of_nat (List.length
                            (Structure._extract_table_of_contents two_chapters))
                <= 2 ^ 63)%Z) by (vm_compute; discriminate).
  split; [exact H|]. split; [reflexivity|]. split; [reflexivity|].
  split; [exact Hf|].
  rewrite (proj1 (outline_is_stored ResolverFacts.sort_desc
                    QuestionExtractor._extract_questions_from_page
                    two_chapters 1 1 PipelineFacts.uploaded H eq_refl eq_refl)
                 Hf Hi).
  vm_compute. reflexivity.
Defined.

(** A page number beyond 64 bits: the commit of the outline raises, no
    chapter is stored, and the run goes on to completion. *)
Definition overflowing_contents : pdf_file :=
  pdf_of_texts [py "Contents
1. Alpha....99999999999999999999"].

Example overflowing_outline_not_stored :
  Structure._extract_table_of_contents overflowing_contents =
    [TocEntry (LInt 1) (py "Alpha") 99999999999999999999 1] /\
  process_pdf ResolverFacts.sort_desc
              QuestionExtractor._extract_questions_from_page
              overflowing_contents 1 PipelineFacts.uploaded =
    (Database [Textbook 1 completed (Some 1)] [] [] [] []
              [(1%Z, processing); (1%Z, completed)], true).
Proof.
  split; vm_compute; reflexivity.
Qed.

(** *** Runs that complete *)

Section Completes.
Variable order : list chapter -> list chapter.
Variable extract_page : str -> Z -> result (list candidate).

(** The page parser returns on every page. *)
Hypothesis parser_returns :
  forall t n, exists qs, extract_page t n = Ok qs.

Lemma extract_pages_returns (pages_text : list page_data) (textbook_id : Z) :
  forall found db, exists db' k,
    extract_pages order extract_page pages_text textbook_id found db =
      (db', Ok k).
Proof.
  induction pages_text as [|pd rest IH]; intros found db; simpl.
  - unfold ret. eauto.
  - destruct (pd_text pd) as [|c t]; [apply IH|].
    unfold bind at 1, lift.
    destruct (parser_returns (c :: t) (pd_page_number pd)) as [qs ->].
    unfold bind, modify. apply IH.
Qed.

Lemma extract_questions_returns (pages_text : list page_data)
      (textbook_id start_page : Z) (db : database) :
  exists db',
    extract_questions_from_text order extract_page pages_text textbook_id
                                start_page db = (db', Ok tt).
Proof.
  unfold extract_questions_from_text, bind.
  destruct (extract_pages_returns pages_text textbook_id 0 db) as [db' [k ->]].
  destruct (0 <? k); unfold modify, ret; eauto.
Qed.

Lemma process_chunks_returns (file : pdf_file) (textbook_id : Z)
      (pages : list page) (total : nat) (starts : list nat) :
  plumber_pages file = Ok pages ->
  (forall i e, nth_error pages i <> Some (Raise e)) ->
  forall db, exists db',
    process_chunks order extract_page file textbook_id total starts db =
      (db', Ok tt).
Proof.
  intros Hp Hok. induction starts as [|s rest IH]; intro db; simpl.
  - unfold ret. eauto.
  - unfold bind at 1, lift, _extract_text_chunk. rewrite Hp.
    destruct (ChunkFacts.chunk_pages_cases pages
                (List.seq s (Nat.min (s + chunk_size) total - s)))
      as [[pts ->]|[i [e [_ Hn]]]]; [|exfalso; exact (Hok i e Hn)].
    unfold bind at 1.
    destruct (extract_questions_returns pts textbook_id (Z.of_nat s + 1) db)
      as [db1 ->].
    apply IH.
Qed.

Lemma readable_run (file : pdf_file) (textbook_id : Z) (pages : list page)
      (total : nat) (db : database) :
  first_textbook textbook_id db <> None ->
  reader_page_count file = Ok total ->
  plumber_pages file = Ok pages ->
  (forall i e, nth_error pages i <> Some (Raise e)) ->
  let run := process_pdf order extract_page file textbook_id db in
  snd run = true /\
  status_of textbook_id (fst run) = Some completed /\
  option_map total_pages (first_textbook textbook_id (fst run)) =
    Some (Some total).
Proof.
  intros Hk Hr Hp Hok run. subst run. unfold process_pdf.
  rewrite (try_readable order extract_page file textbook_id total db Hk Hr).
  pose proof (known_before_chunks file textbook_id total db Hk) as H3.
  pose proof (chunks_same_textbooks order extract_page file textbook_id total
                (chunk_starts total) (before_chunks file textbook_id total db))
    as T4.
  destruct (process_chunks_returns file textbook_id pages total
              (chunk_starts total) Hp Hok
              (before_chunks file textbook_id total db)) as [db4 E].
  rewrite E in *. cbn [fst snd] in *.
  assert (H4 : first_textbook textbook_id db4 <> None).
  { unfold first_textbook. rewrite T4. exact H3. }
  split; [reflexivity|]. split.
  - now apply PipelineFacts.status_after_write.
  - unfold first_textbook. cbn [commit set_status textbooks].
    rewrite first_textbook_update by reflexivity.
    unfold same_textbooks in T4. rewrite T4.
    assert (Tb : textbooks (before_chunks file textbook_id total db) =
                 update_first textbook_id
                   (fun t => Textbook (tb_id t) (processing_status t) (Some total))
                   (update_first textbook_id
                      (fun t => Textbook (tb_id t) processing (total_pages t))
                      (textbooks db))).
    { unfold before_chunks.
      destruct (Structure._extract_table_of_contents file) as [|e0 es];
        [reflexivity|].
      now rewrite store_chapters_textbooks. }
    rewrite Tb, !first_textbook_update by reflexivity.
    unfold first_textbook in Hk.
    destruct (List.find (has_id textbook_id) (textbooks db)); [reflexivity|congruence].
Qed.

End Completes.

Lemma page_parser_returns (t : str) (n : Z) :
  exists qs, QuestionExtractor._extract_questions_from_page t n = Ok qs.
Proof.
  unfold QuestionExtractor._extract_questions_from_page.
  destruct (QuestionFacts.exercise_mode_cases t) as [-> | ->]; eauto.
Qed.

(** X19: a document that both libraries can read, none of whose pages
    makes [extract_text] raise, always completes: [process_pdf] returns
    True, the final state is completed and the row holds the page count. *)
Theorem readable_document_completes (order : list chapter -> list chapter)
        (file : pdf_file) (textbook_id : Z) (pages : list page) (total : nat)
        (db : database) :
  first_textbook textbook_id db <> None ->
  reader_page_count file = Ok total ->
  plumber_pages file = Ok pages ->
  (forall i e, nth_error pages i <> Some (Raise e)) ->
  let run :=
    process_pdf order QuestionExtractor._extract_questions_from_page
                file textbook_id db in
  snd run = true /\
  status_of textbook_id (fst run) = Some completed /\
  option_map total_pages (first_textbook textbook_id (fst run)) =
    Some (Some total).
Proof.
  intros Hk Hr Hp Hok.
  exact (readable_run order QuestionExtractor._extract_questions_from_page
                      page_parser_returns file textbook_id pages total db
                      Hk Hr Hp Hok).
Qed.

Lemma readable_document_completes_witness :
  first_textbook 1 PipelineFacts.uploaded <> None /\
  reader_page_count PipelineFacts.three_pages = Ok 3 /\
  snd (process_pdf ResolverFacts.sort_desc
                   QuestionExtractor._extract_questions_from_page
                   PipelineFacts.three_pages 1 PipelineFacts.uploaded) = true /\
  status_of 1 (fst (process_pdf ResolverFacts.sort_desc
                                QuestionExtractor._extract_questions_from_page
                                PipelineFacts.three_pages 1
                                PipelineFacts.uploaded)) = Some completed.
Proof.
  assert (H : first_textbook 1 PipelineFacts.uploaded <> None)
    by (vm_compute; discriminate).
  split; [exact H|]. split; [reflexivity|].
  destruct (readable_document_completes
              ResolverFacts.sort_desc PipelineFacts.three_pages 1
              _ 3 PipelineFacts.uploaded H eq_refl eq_refl) as [H1 [H2 _]].
  - intros i e.
    destruct i as [|[|[|i]]]; simpl; try discriminate.
    destruct i; discriminate.
  - split; [exact H1 | exact H2].
Defined.

(** *** The questions a run adds *)

(** The questions of the table and of the session. *)
Definition all_questions (db : database) : list question :=
  db_questions db ++ session_questions db.

Definition adds (G : question -> Prop) (db db' : database) : Prop :=
  exists new, all_questions db' = all_questions db ++ new /\ Forall G new.

Lemma adds_refl (G : question -> Prop) (db : database) : adds G db db.
Proof. exists []. split; [now rewrite app_nil_r | constructor]. Qed.

Lemma adds_same (G : question -> Prop) (db db' : database) :
  all_questions db' = all_questions db -> adds G db db'.
Proof. intro H. exists []. split; [now rewrite app_nil_r | constructor]. Qed.

Lemma adds_trans (G : question -> Prop) (a b c : database) :
  adds G a b -> adds G b c -> adds G a c.
Proof.
  intros [n1 [E1 F1]] [n2 [E2 F2]]. exists (n1 ++ n2). split.
  - rewrite E2, E1. now rewrite app_assoc.
  - apply Forall_app. auto.
Qed.

Lemma adds_weaken (G G' : question -> Prop) (db db' : database) :
  (forall q, G q -> G' q) -> adds G db db' -> adds G' db db'.
Proof.
  intros H [new [E F]]. exists new. split; [exact E|].
  eapply Forall_impl; eauto.
Qed.

Lemma all_questions_commit (db : database) :
  all_questions (commit db) = all_questions db.
Proof. unfold all_questions. simpl. now rewrite app_nil_r. Qed.

Lemma all_questions_add (f : candidate -> question) (qs : list candidate) :
  forall db,
    all_questions
      (fold_left (fun db question_data => add_question (f question_data) db)
                 qs db) =
    all_questions db ++ map f qs.
Proof.
  induction qs as [|q qs IH]; intro db; cbn [fold_left map].
  - now rewrite app_nil_r.
  - rewrite IH. unfold all_questions. simpl. now rewrite <- !app_assoc.
Qed.

Lemma all_questions_add_chapters (f : toc_entry -> chapter) (toc : list toc_entry) :
  forall db,
    all_questions (fold_left (fun db entry => add_chapter (f entry) db) toc db) =
    all_questions db.
Proof.
  induction toc as [|e toc IH]; intro db; cbn [fold_left]; [reflexivity|].
  now rewrite IH.
Qed.

Section Questions.
Variable order : list chapter -> list chapter.
Variable extract_page : str -> Z -> result (list candidate).

(** What the page parser guarantees of its candidates. *)
Variable Q : candidate -> Prop.
Hypothesis parser_Q :
  forall t n qs, extract_page t n = Ok qs -> Forall Q qs.

(** A question made from a candidate of a page numbered in (lo, hi]. *)
Definition from_page (textbook_id lo hi : Z) (q : question) : Prop :=
  q_textbook_id q = textbook_id /\
  (lo < q_page_number q <= hi)%Z /\
  q_answer q = None /\
  exists c, Q c /\ question_text q = text c /\ question_type q = type c /\
            q_context q = context c.

Lemma extract_pages_adds (textbook_id lo hi : Z) (pages_text : list page_data) :
  (forall pd, In pd pages_text -> (lo < pd_page_number pd <= hi)%Z) ->
  forall found db,
    adds (from_page textbook_id lo hi) db
         (fst (extract_pages order extract_page pages_text textbook_id found db)).
Proof.
  induction pages_text as [|pd rest IH]; intros Hb found db; simpl.
  - apply adds_refl.
  - assert (Hrest : forall pd0, In pd0 rest ->
                                (lo < pd_page_number pd0 <= hi)%Z)
      by (intros pd0 H0; apply Hb; now right).
    destruct (pd_text pd) as [|c t] eqn:Et; [now apply IH|].
    unfold bind at 1, lift.
    destruct (extract_page (c :: t) (pd_page_number pd)) as [qs|e] eqn:Ep;
      [|apply adds_refl].
    unfold bind, modify.
    eapply adds_trans; [|apply IH; exact Hrest].
    eexists. split; [apply all_questions_add|].
    apply Forall_map. apply parser_Q in Ep.
    eapply Forall_impl; [|exact Ep]. intros cand Hc.
    unfold from_page, new_question. cbn.
    split; [reflexivity|]. split; [apply Hb; now left|].
    split; [reflexivity|]. exists cand. auto.
Qed.

Lemma extract_questions_adds (textbook_id lo hi start_page : Z)
      (pages_text : list page_data) (db : database) :
  (forall pd, In pd pages_text -> (lo < pd_page_number pd <= hi)%Z) ->
  adds (from_page textbook_id lo hi) db
       (fst (extract_questions_from_text order extract_page pages_text
                                         textbook_id start_page db)).
Proof.
  intro Hb. unfold extract_questions_from_text, bind.
  pose proof (extract_pages_adds textbook_id lo hi pages_text Hb 0 db) as H.
  destruct (extract_pages order extract_page pages_text textbook_id 0 db)
    as [db' [k|e]]; cbn [fst] in *; [|exact H].
  destruct (0 <? k); unfold modify, ret; cbn [fst]; [|exact H].
  eapply adds_trans; [exact H|]. apply adds_same, all_questions_commit.
Qed.

Lemma chunk_page_numbers (pages : list page) (s e : nat)
      (pages_text : list page_data) :
  chunk_pages pages (List.seq s (e - s)) = Ok pages_text ->
  forall pd, In pd pages_text ->
             (Z.of_nat s < pd_page_number pd <= Z.of_nat e)%Z.
Proof.
  intros Hc pd Hin.
  rewrite (ChunkFacts.chunk_pages_entries _ _ _ Hc) in Hin.
  apply in_flat_map in Hin. destruct Hin as [i [Hi Hpd]].
  apply in_seq in Hi. unfold ChunkFacts.page_entry in Hpd.
  destruct (nth_error pages i) as [[[[|c t]|]|]|]; try contradiction.
  destruct Hpd as [<-|[]]. simpl. lia.
Qed.

Lemma process_chunks_adds (file : pdf_file) (textbook_id : Z) (total : nat)
      (starts : list nat) :
  forall db,
    adds (from_page textbook_id 0 (Z.of_nat total)) db
         (fst (process_chunks order extract_page file textbook_id total starts db)).
Proof.
  induction starts as [|s rest IH]; intro db; simpl.
  - apply adds_refl.
  - unfold bind at 1, lift, _extract_text_chunk.
    destruct (plumber_pages file) as [pages|e]; [|apply adds_refl].
    destruct (chunk_pages pages _) as [pts|e] eqn:Ec; [|apply adds_refl].
    unfold bind at 1.
    pose proof (extract_questions_adds textbook_id (Z.of_nat s)
                  (Z.of_nat (Nat.min (s + chunk_size) total))
                  (Z.of_nat s + 1) pts db
                  (chunk_page_numbers pages s _ pts Ec)) as H.
    assert (H' : adds (from_page textbook_id 0 (Z.of_nat total)) db
                      (fst (extract_questions_from_text order extract_page pts
                              textbook_id (Z.of_nat s + 1) db))).
    { eapply adds_weaken; [|exact H].
      intros q [H1 [H2 H3]]. split; [exact H1|]. split; [lia | exact H3]. }
    destruct (extract_questions_from_text order extract_page pts textbook_id
                                          (Z.of_nat s + 1) db)
      as [db1 [u|e]]; cbn [fst] in *; [|exact H'].
    eapply adds_trans; [exact H' | apply IH].
Qed.

Lemma before_chunks_questions (file : pdf_file) (textbook_id : Z) (total : nat)
      (db : database) :
  all_questions (before_chunks file textbook_id total db) = all_questions db.
Proof.
  unfold before_chunks.
  destruct (Structure._extract_table_of_contents file) as [|e0 es].
  - unfold all_questions. simpl. now rewrite !app_nil_r.
  - rewrite (store_chapters_cases
               (e0 :: es) textbook_id
               (commit (set_total_pages textbook_id total
                          (commit (set_status textbook_id processing db))))
               eq_refl eq_refl).
    destruct (outline_fits (e0 :: es)); unfold all_questions; simpl;
      now rewrite !app_nil_r.
Qed.

Lemma run_adds (file : pdf_file) (textbook_id : Z) (total : nat)
      (db : database) :
  first_textbook textbook_id db <> None ->
  reader_page_count file = Ok total ->
  adds (from_page textbook_id 0 (Z.of_nat total)) db
       (fst (process_pdf order extract_page file textbook_id db)).
Proof.
  intros Hk Hr. unfold process_pdf.
  rewrite (try_readable order extract_page file textbook_id total db Hk Hr).
  pose proof (process_chunks_adds file textbook_id total (chunk_starts total)
                (before_chunks file textbook_id total db)) as H.
  eapply adds_trans;
    [apply adds_same, (before_chunks_questions file textbook_id total db)|].
  destruct (process_chunks order extract_page file textbook_id total
                           (chunk_starts total)
                           (before_chunks file textbook_id total db))
    as [db4 [u|e]]; cbn [fst] in *.
  - eapply adds_trans; [exact H|].
    apply adds_same. now rewrite all_questions_commit.
  - destruct (first_textbook textbook_id db4); cbn [fst]; [|exact H].
    eapply adds_trans; [exact H|].
    apply adds_same. now rewrite all_questions_commit.
Qed.

End Questions.

(** What [_extract_questions_from_page] guarantees of a candidate. *)
Definition parsed (c : candidate) : Prop :=
  In QuestionExtractor.question_mark (text c) /\
  type c = QuestionExtractor._classify_question_type (text c).

Lemma page_parser_parsed (t : str) (n : Z) (qs : list candidate) :
  QuestionExtractor._extract_questions_from_page t n = Ok qs ->
  Forall parsed qs.
Proof.
  unfold QuestionExtractor._extract_questions_from_page.
  destruct (QuestionFacts.exercise_mode_cases t) as [Hb | Hb]; rewrite Hb;
    intro H; injection H as <-; apply Forall_map, Forall_forall;
    intros q Hq; split; try reflexivity; simpl.
  - pose proof (QuestionFacts.exercise_flushed
                  t (split_on QuestionExtractor.newline t)) as HF.
    rewrite Forall_forall in HF. destruct (HF q Hq) as [buffer [-> Hin]].
    apply PyStrFacts.strip_keeps; auto.
  - destruct (QuestionFacts.scattered_valid _ _ _ Hq) as [Hv _].
    now apply QuestionFacts.valid_has_qmark.
Qed.

(** X20: every question a run adds, to the table or to the session,
    belongs to the textbook, has a page number between 1 and the page
    count, no answer, a text holding a question mark and the type that
    the classifier gives to its text; the questions present before the
    run are kept, in place. *)
Theorem added_questions_wellformed (order : list chapter -> list chapter)
        (file : pdf_file) (textbook_id : Z) (total : nat) (db : database) :
  first_textbook textbook_id db <> None ->
  reader_page_count file = Ok total ->
  let run :=
    process_pdf order QuestionExtractor._extract_questions_from_page
                file textbook_id db in
  exists added,
    db_questions (fst run) ++ session_questions (fst run) =
      (db_questions db ++ session_questions db) ++ added /\
    Forall (fun q =>
              q_textbook_id q = textbook_id /\
              (1 <= q_page_number q <= Z.of_nat total)%Z /\
              q_answer q = None /\
              In QuestionExtractor.question_mark (question_text q) /\
              question_type q =
                QuestionExtractor._classify_question_type (question_text q))
           added.
Proof.
  intros Hk Hr run. subst run.
  destruct (run_adds order QuestionExtractor._extract_questions_from_page
                     parsed page_parser_parsed file textbook_id total db Hk Hr)
    as [added [E F]].
  exists added. split; [exact E|].
  eapply Forall_impl; [|exact F].
  intros q [H1 [H2 [H3 [c [[Hc1 Hc2] [Ht [Hy _]]]]]]].
  split; [exact H1|]. split; [lia|]. split; [exact H3|].
  rewrite Ht, Hy. split; assumption.
Qed.

Lemma added_questions_wellformed_witness :
  first_textbook 1 PipelineFacts.uploaded <> None /\
  reader_page_count PipelineFacts.three_pages = Ok 3 /\
  map question_text
      (db_questions (fst (process_pdf ResolverFacts.sort_desc
                            QuestionExtractor._extract_questions_from_page
                            PipelineFacts.three_pages 1 PipelineFacts.uploaded))) =
    [py "What is the unit of force in the metric system?"] /\
  exists added,
    db_questions (fst (process_pdf ResolverFacts.sort_desc
                         QuestionExtractor._extract_questions_from_page
                         PipelineFacts.three_pages 1 PipelineFacts.uploaded)) ++
    session_questions (fst (process_pdf ResolverFacts.sort_desc
                              QuestionExtractor._extract_questions_from_page
                              PipelineFacts.three_pages 1 PipelineFacts.uploaded)) =
      (db_questions PipelineFacts.uploaded ++
       session_questions PipelineFacts.uploaded) ++ added /\
    Forall (fun q =>
              q_textbook_id q = 1%Z /\
              (1 <= q_page_number q <= Z.of_nat 3)%Z /\
              q_answer q = None /\
              In QuestionExtractor.question_mark (question_text q) /\
              question_type q =
                QuestionExtractor._classify_question_type (question_text q))
           added.
Proof.
  assert (H : first_textbook 1 PipelineFacts.uploaded <> None)
    by (vm_compute; discriminate).
  split; [exact H|]. split; [reflexivity|]. split; [vm_compute; reflexivity|].
  exact (added_questions_wellformed ResolverFacts.sort_desc
           PipelineFacts.three_pages 1 3 PipelineFacts.uploaded H eq_refl).
Defined.

(** *** Chunks and documents without questions *)

Lemma extract_pages_nothing (order : list chapter -> list chapter)
      (extract_page : str -> Z -> result (list candidate))
      (pages_text : list page_data) (textbook_id : Z) :
  (forall pd, In pd pages_text ->
              pd_text pd = [] \/
              extract_page (pd_text pd) (pd_page_number pd) = Ok []) ->
  forall found db,
    extract_pages order extract_page pages_text textbook_id found db =
      (db, Ok found).
Proof.
  induction pages_text as [|pd rest IH]; intros H found db; simpl;
    [reflexivity|].
  assert (Hrest : forall pd0, In pd0 rest ->
                   pd_text pd0 = [] \/
                   extract_page (pd_text pd0) (pd_page_number pd0) = Ok [])
    by (intros pd0 H0; apply H; now right).
  destruct (H pd (or_introl eq_refl)) as [Ht|Hp].
  - rewrite Ht. now apply IH.
  - destruct (pd_text pd) as [|c t]; [now apply IH|].
    unfold bind at 1, lift. rewrite Hp. unfold bind, modify. simpl.
    rewrite IH by exact Hrest. now rewrite Nat.add_0_r.
Qed.

Lemma no_qmark_no_candidates (t : str) (n : Z) :
  ~ In QuestionExtractor.question_mark t ->
  QuestionExtractor._extract_questions_from_page t n = Ok [].
Proof.
  intro Hno. unfold QuestionExtractor._extract_questions_from_page.
  destruct (QuestionFacts.exercise_mode_cases t) as [-> | ->].
  - rewrite QuestionFacts.exercise_no_qmark; auto.
    intros l Hl H. apply Hno. eapply PyStrFacts.split_on_incl; eauto.
  - rewrite QuestionFacts.scattered_no_qmark; auto.
Qed.

(** X21: a chunk none of whose pages holds a question mark leaves the
    database exactly as it is: nothing is added to the session and
    nothing is committed. *)
Theorem chunk_without_questions_untouched
        (order : list chapter -> list chapter)
        (pages_text : list page_data) (textbook_id start_page : Z)
        (db : database) :
  (forall pd, In pd pages_text ->
              ~ In QuestionExtractor.question_mark (pd_text pd)) ->
  extract_questions_from_text order
                              QuestionExtractor._extract_questions_from_page
                              pages_text textbook_id start_page db =
    (db, Ok tt).
Proof.
  intro H. unfold extract_questions_from_text, bind.
  rewrite extract_pages_nothing; [reflexivity|].
  intros pd Hpd. right. apply no_qmark_no_candidates, H, Hpd.
Qed.

Definition pending_session : database :=
  Database [Textbook 1 processing (Some 2)] [] []
           [Chapter 0 1 (py "Motion") (LInt 1) 1 1] [] [(1%Z, processing)].

Lemma chunk_without_questions_untouched_witness :
  (forall pd, In pd [PageData 1 (py "Motion is a change of position.");
                     PageData 2 []] ->
              ~ In QuestionExtractor.question_mark (pd_text pd)) /\
  extract_questions_from_text ResolverFacts.sort_desc
                              QuestionExtractor._extract_questions_from_page
                              [PageData 1 (py "Motion is a change of position.");
                               PageData 2 []] 1 1 pending_session =
    (pending_session, Ok tt).
Proof.
  assert (H : forall pd,
             In pd [PageData 1 (py "Motion is a change of position.");
                    PageData 2 []] ->
             ~ In QuestionExtractor.question_mark (pd_text pd)).
  { intros pd [<-|[<-|[]]] Hin.
    - apply PyStrFacts.contains_single in Hin. vm_compute in Hin. discriminate.
    - destruct Hin. }
  split; [exact H|].
  exact (chunk_without_questions_untouched ResolverFacts.sort_desc _ 1 1
                                           pending_session H).
Defined.

(** A page without text: [extract_text] gives None or the empty string. *)
Definition textless (p : page) : Prop := p = Ok None \/ p = Ok (Some []).

Lemma textless_firstn (n : nat) (pages : list page) :
  Forall textless pages -> Forall textless (firstn n pages).
Proof.
  intro H. revert n. induction H as [|p ps Hp Hps IH]; intro n.
  - rewrite firstn_nil. constructor.
  - destruct n; [constructor|]. cbn [firstn]. constructor; auto.
Qed.

Lemma toc_pages_textless (pages : list page) (toc_found : bool) :
  Forall textless pages -> Structure.toc_pages pages toc_found [] = ([], None).
Proof.
  induction 1 as [|p ps [-> | ->] Hps IH]; simpl; auto.
Qed.

Lemma heading_pages_textless (pages : list page) :
  Forall textless pages ->
  forall n st, Structure.heading_pages pages n st = Structure.chapters st.
Proof.
  induction 1 as [|p ps [-> | ->] Hps IH]; intros n st; simpl; auto.
Qed.

Lemma outline_textless (file : pdf_file) (pages : list page) :
  plumber_pages file = Ok pages ->
  Forall textless pages ->
  Structure._extract_table_of_contents file = [].
Proof.
  intros Hp Ht.
  unfold Structure._extract_table_of_contents,
         Structure._infer_chapters_from_headings.
  rewrite Hp, (toc_pages_textless _ false (textless_firstn 20 pages Ht)).
  now rewrite (heading_pages_textless _ (textless_firstn 50 pages Ht)).
Qed.

Lemma chunk_pages_textless (pages : list page) (page_nums : list nat) :
  Forall textless pages -> chunk_pages pages page_nums = Ok [].
Proof.
  intro Ht. induction page_nums as [|a rest IH]; simpl; [reflexivity|].
  destruct (a <? List.length pages) eqn:El; [|exact IH].
  apply Nat.ltb_lt in El.
  destruct (nth_error pages a) as [p|] eqn:En;
    [|apply nth_error_None in En; lia].
  rewrite (nth_error_nth pages a (Ok None) En).
  rewrite Forall_forall in Ht.
  destruct (Ht p (nth_error_In _ _ En)) as [-> | ->]; [exact IH|].
  now rewrite IH.
Qed.

Lemma process_chunks_textless (order : list chapter -> list chapter)
      (extract_page : str -> Z -> result (list candidate))
      (file : pdf_file) (textbook_id : Z) (pages : list page) (total : nat)
      (starts : list nat) (db : database) :
  plumber_pages file = Ok pages ->
  Forall textless pages ->
  process_chunks order extract_page file textbook_id total starts db =
    (db, Ok tt).
Proof.
  intros Hp Ht. induction starts as [|s rest IH]; simpl; [reflexivity|].
  unfold bind at 1, lift, _extract_text_chunk.
  rewrite Hp, (chunk_pages_textless pages _ Ht).
  unfold bind at 1, extract_questions_from_text. simpl. exact IH.
Qed.

(** X22: a readable document none of whose pages has a text completes,
    whatever the page parser: the run writes processing, the page count
    and completed, and nothing else; no chapter and no question is added. *)
Theorem textless_document_completes (order : list chapter -> list chapter)
        (extract_page : str -> Z -> result (list candidate))
        (file : pdf_file) (textbook_id : Z) (pages : list page) (total : nat)
        (db : database) :
  first_textbook textbook_id db <> None ->
  reader_page_count file = Ok total ->
  plumber_pages file = Ok pages ->
  Forall (fun p => p = Ok None \/ p = Ok (Some [])) pages ->
  process_pdf order extract_page file textbook_id db =
    (commit (set_status textbook_id completed
               (commit (set_total_pages textbook_id total
                          (commit (set_status textbook_id processing db))))),
     true).
Proof.
  intros Hk Hr Hp Ht. unfold process_pdf.
  rewrite (try_readable order extract_page file textbook_id total db Hk Hr).
  rewrite (process_chunks_textless order extract_page file textbook_id pages
             total _ _ Hp Ht).
  unfold before_chunks. now rewrite (outline_textless file pages Hp Ht).
Qed.

Definition blank_scan : pdf_file :=
  PdfFile (Ok 3) (Ok [Ok None; Ok (Some []); Ok None]).

Lemma textless_document_completes_witness :
  first_textbook 1 PipelineFacts.uploaded <> None /\
  reader_page_count blank_scan = Ok 3 /\
  plumber_pages blank_scan = Ok [Ok None; Ok (Some []); Ok None] /\
  process_pdf ResolverFacts.sort_desc (fun _ _ => Raise (OtherError "unused"))
              blank_scan 1 PipelineFacts.uploaded =
    (Database [Textbook 1 completed (Some 3)] [] [] [] []
              [(1%Z, processing); (1%Z, completed)], true).
Proof.
  assert (H : first_textbook 1 PipelineFacts.uploaded <> None)
    by (vm_compute; discriminate).
  assert (Ht : Forall (fun p : page => p = Ok None \/ p = Ok (Some []))
                      [Ok None; Ok (Some []); Ok None]).
  { constructor; [left; reflexivity|].
    constructor; [right; reflexivity|].
    constructor; [left; reflexivity | constructor]. }
  split; [exact H|]. split; [reflexivity|]. split; [reflexivity|].
  rewrite (textless_document_completes
             ResolverFacts.sort_desc (fun _ _ => Raise (OtherError "unused"))
             blank_scan 1 [Ok None; Ok (Some []); Ok None] 3
             PipelineFacts.uploaded H eq_refl eq_refl Ht).
  reflexivity.
Defined.

End RunFacts.

(** ** Question parsing and the outcome of a run *)

Module ParsingFacts.
Import PyStr Db.






Section Chunk.
Variable order : list chapter -> list chapter.








End Chunk.




End ParsingFacts.

(** ** api/upload.py : the background task *)

Module Upload.
Import Db.

(** The uploaded files: what is stored under a path, if anything. *)
Definition disk := string -> option pdf_file.

(** Opening a path: a missing file makes both readers raise. *)
Definition open_pdf (d : disk) (file_path : string) : pdf_file :=
  match d file_path with
  | Some file => file
  | None => PdfFile (Raise (OtherError "FileNotFoundError"))
                    (Raise (OtherError "FileNotFoundError"))
  end.

(** "if os.path.exists(file_path): os.remove(file_path)" *)
Definition remove (file_path : string) (d : disk) : disk :=
  fun p => if String.eqb p file_path then None else d p.

Section Background.
Variable order : list chapter -> list chapter.
Variable extract_page : str -> Z -> result (list candidate).

(** [process_pdf_background] *)
Definition process_pdf_background (file_path : string) (textbook_id : Z)
           (d : disk) (db : database) : disk * database :=
  let (db', success) :=
    process_pdf order extract_page (open_pdf d file_path) textbook_id db in
  if negb success then (remove file_path d, db') else (d, db').

(** X23: the background task keeps the uploaded file exactly when the
    document completes.  On a stored row it ends completed with the files
    untouched, or failed with the file removed; for an unknown textbook
    id the database is untouched and the file is removed; a missing file
    makes a stored document fail.  No other file is touched. *)
Theorem background_task_outcome (file_path : string) (textbook_id : Z)
        (d : disk) (db : database) :
  let d' := fst (process_pdf_background file_path textbook_id d db) in
  let db' := snd (process_pdf_background file_path textbook_id d db) in
  (first_textbook textbook_id db <> None ->
   (status_of textbook_id db' = Some completed /\ d' = d) \/
   (status_of textbook_id db' = Some failed /\ d' file_path = None)) /\
  (first_textbook textbook_id db = None ->
   db' = db /\ d' file_path = None) /\
  (first_textbook textbook_id db <> None -> d file_path = None ->
   status_of textbook_id db' = Some failed) /\
  (forall p, p <> file_path -> d' p = d p).
Proof.
  cbn zeta. unfold process_pdf_background.
  assert (Hrm : remove file_path d file_path = None).
  { unfold remove. now rewrite String.eqb_refl. }
  assert (Hother : forall p, p <> file_path -> remove file_path d p = d p).
  { intros p Hp. unfold remove.
    destruct (String.eqb p file_path) eqn:E; [|reflexivity].
    apply String.eqb_eq in E. contradiction. }
  split; [|split; [|split]].
  - intro Hk.
    destruct (RunFacts.run_cases order extract_page (open_pdf d file_path)
                textbook_id db Hk) as [db4 [H4 [E|E]]];
      rewrite E; cbn [negb fst snd];
      rewrite (PipelineFacts.status_after_write textbook_id _ db4 H4); auto.
  - intro Hn.
    unfold process_pdf, process_pdf_try. rewrite Hn. rewrite Hn.
    cbn [negb fst snd]. auto.
  - intros Hk Hd.
    assert (Hr : reader_page_count (open_pdf d file_path) =
                 Raise (OtherError "FileNotFoundError")).
    { unfold open_pdf. now rewrite Hd. }
    unfold process_pdf.
    rewrite (RunFacts.try_unreadable order extract_page _ textbook_id _ db Hk Hr).
    pose proof (RunFacts.known_after_status textbook_id processing db Hk) as H1.
    destruct (first_textbook textbook_id
                (commit (set_status textbook_id processing db)));
      [|congruence].
    cbn [negb fst snd].
    apply PipelineFacts.status_after_write.
    now apply RunFacts.known_after_status.
  - intros p Hp.
    destruct (process_pdf order extract_page (open_pdf d file_path)
                          textbook_id db) as [db' [|]]; cbn [negb fst]; auto.
Qed.

End Background.

Definition shelf : disk :=
  fun p => if String.eqb p "uploads/book.pdf"
           then Some RunFacts.blank_scan else None.

Lemma background_task_outcome_witness :
  first_textbook 1 PipelineFacts.uploaded <> None /\
  ((status_of 1
      (snd (process_pdf_background ResolverFacts.sort_desc
              (fun _ _ => Raise (OtherError "unused"))
              "uploads/book.pdf"%string 1 shelf PipelineFacts.uploaded))
    = Some completed /\
    fst (process_pdf_background ResolverFacts.sort_desc
           (fun _ _ => Raise (OtherError "unused"))
           "uploads/book.pdf"%string 1 shelf PipelineFacts.uploaded) = shelf) \/
   (status_of 1
      (snd (process_pdf_background ResolverFacts.sort_desc
              (fun _ _ => Raise (OtherError "unused"))
              "uploads/book.pdf"%string 1 shelf PipelineFacts.uploaded))
    = Some failed /\
    fst (process_pdf_background ResolverFacts.sort_desc
           (fun _ _ => Raise (OtherError "unused"))
           "uploads/book.pdf"%string 1 shelf PipelineFacts.uploaded)
        "uploads/book.pdf"%string = None)).
Proof.
  assert (H : first_textbook 1 PipelineFacts.uploaded <> None)
    by (vm_compute; discriminate).
  split; [exact H|].
  exact (proj1 (background_task_outcome ResolverFacts.sort_desc
                  (fun _ _ => Raise (OtherError "unused"))
                  "uploads/book.pdf"%string 1 shelf PipelineFacts.uploaded) H).
Defined.

End Upload.

(** ** The resolver over growing page numbers *)

Module ResolverOrder.
Import ResolverFacts.

Section Ordering.
Variable order : list chapter -> list chapter.
Hypothesis order_perm : forall l, Permutation l (order l).
Hypothesis order_sorted : forall l, Sorted by_start_desc (order l).

(** X24: the resolver is monotone in the page: if a page resolves to a
    chapter, every later page resolves to a chapter too, one that starts
    at the same page or later. *)
Theorem resolver_monotone (textbook_id p p' : Z) (db : database) (c : chapter) :
  (p <= p')%Z ->
  _find_chapter_for_page order textbook_id p db = Some c ->
  exists c',
    _find_chapter_for_page order textbook_id p' db = Some c' /\
    (ch_page_start c <= ch_page_start c')%Z.
Proof.
  intros Hp Hc.
  destruct (resolver_some order order_perm order_sorted textbook_id p db c Hc)
    as [Hin [Ht [Hs _]]].
  destruct (_find_chapter_for_page order textbook_id p' db) as [c'|] eqn:E.
  - exists c'. split; [reflexivity|].
    destruct (resolver_some order order_perm order_sorted textbook_id p' db c' E)
      as [_ [_ [_ Hmax]]].
    apply Hmax; auto. lia.
  - exfalso.
    apply (resolver_none order order_perm textbook_id p' db E c Hin Ht). lia.
Qed.

End Ordering.

Lemma resolver_monotone_witness :
  (forall l, Permutation l (sort_desc l)) /\
  (forall l, Sorted by_start_desc (sort_desc l)) /\
  (75 <= 130)%Z /\
  _find_chapter_for_page sort_desc 1 75 scenario_D = Some ch_50 /\
  exists c',
    _find_chapter_for_page sort_desc 1 130 scenario_D = Some c' /\
    (ch_page_start ch_50 <= ch_page_start c')%Z.
Proof.
  assert (H : _find_chapter_for_page sort_desc 1 75 scenario_D = Some ch_50)
    by reflexivity.
  assert (Hle : (75 <= 130)%Z) by lia.
  split; [exact sort_desc_perm|]. split; [exact sort_desc_sorted|].
  split; [exact Hle|]. split; [exact H|].
  exact (resolver_monotone sort_desc sort_desc_perm sort_desc_sorted
                           1 75 130 scenario_D ch_50 Hle H).
Defined.

End ResolverOrder.
